(** * bb_currency: rate acquisition, rebasing and TWRR

    A shallow embedding of [currency/services.py] and
    [currency/provider_interface.py], of [CurrencyConverterView.get] of
    [currency/views.py] and of [fetch_exchange_rates] of
    [currency/tasks.py], with the Python run-time values they
    manipulate (dictionaries keyed by strings, [Decimal], [float], dates),
    and the properties of the specification stated over it.

    Conventions.
    - A Python call that may raise is a function into [result]: [Ok v] is a
      normal return, [Raise e] an exception that propagates.
    - A [dict] is an association list in insertion order; [dict_set] keeps
      the position of an existing key, as an assignment [d[k] = v] does.
    - [decimal.Decimal] follows the arithmetic of the default context
      (28 significant digits, ROUND_HALF_EVEN, traps on InvalidOperation,
      DivisionByZero and Overflow), special values included.
    - A [float] is an IEEE-754 binary64, with the operations of the
      standard library's specification of floating-point numbers.
    - The relational store, the file system, the HTTP transport and the
      clock are the explicit arguments [DB] and [World]; the log of
      [logger.error] is a list of messages.

    Extent of the model.
    - Numbers are [Decimal] or [float]: a number of a JSON document is read
      as a [float], Python's [int] occurs only as the literals [1] and [6]
      of the code.
    - What the store does to a rate when it writes it (the validation and
      the coercion of a [DecimalField]) is not modelled: a row holds the
      value it was given. The statements about what a fetch writes and
      what is read back after it fix the currencies and the dates of the
      rows, and leave their rates open.
    - A [datetime] is the calendar day it falls on. *)

From Stdlib Require Import ZArith NArith List String Ascii Bool Lia.
From Stdlib Require Import SpecFloat.
From Stdlib Require Import Permutation Sorted.
Import ListNotations.

Local Open Scope string_scope.
Local Open Scope Z_scope.

Set Implicit Arguments.

(** ** Exceptions and the error monad *)

Inductive exn : Type :=
| ProviderError (message : string)
| ValueError (message : string)
| KeyError (key : string)
| TypeError (message : string)
| AttributeError (message : string)
| ZeroDivisionError (message : string)
| DecimalDivisionByZero        (* decimal.DivisionByZero, a ZeroDivisionError *)
| DecimalInvalidOperation      (* decimal.InvalidOperation *)
| DecimalOverflow              (* decimal.Overflow *)
| IndexError (message : string)
| OSError (message : string).

Inductive result (A : Type) : Type :=
| Ok (a : A)
| Raise (e : exn).

Arguments Ok {A} a.
Arguments Raise {A} e.

Definition bind {A B : Type} (m : result A) (k : A -> result B) : result B :=
  match m with
  | Ok a => k a
  | Raise e => Raise e
  end.

Notation "x <- m ;; k" := (bind m (fun x => k))
  (at level 61, m at next level, right associativity).

Fixpoint mapM {A B : Type} (f : A -> result B) (l : list A) : result (list B) :=
  match l with
  | [] => Ok []
  | a :: l' => b <- f a ;; bs <- mapM f l' ;; Ok (b :: bs)
  end.

(** [isinstance(e, ZeroDivisionError)]: the built-in exception and the
    decimal signal derived from it. *)
Definition is_zero_division (e : exn) : bool :=
  match e with
  | ZeroDivisionError _ | DecimalDivisionByZero => true
  | _ => false
  end.

(** A division failure: [ZeroDivisionError] (which [decimal.DivisionByZero]
    extends) or the [InvalidOperation] that [Decimal] signals for 0/0. *)
Definition is_division_failure (e : exn) : bool :=
  match e with
  | ZeroDivisionError _ | DecimalDivisionByZero | DecimalInvalidOperation => true
  | _ => false
  end.

(** ** [decimal.Decimal] in the default context *)

Module Dec.

Definition prec : Z := 28.
Definition Emax : Z := 999999.
Definition Emin : Z := -999999.
Definition Etiny : Z := Emin - prec + 1.
Definition Etop : Z := Emax - prec + 1.

(** [DFin s n e] is (-1)^s * n * 10^e: the fields [_sign], [_int], [_exp]. *)
Inductive t : Type :=
| DFin (sign : bool) (int : N) (exp : Z)
| DInf (sign : bool)
| DNaN (sign : bool) (signaling : bool) (payload : N).

Fixpoint digits_aux (fuel : nat) (n : N) : Z :=
  match fuel with
  | O => 0
  | S f => if (n =? 0)%N then 0 else 1 + digits_aux f (n / 10)%N
  end.

(** [len(str(n))] *)
Definition ndigits (n : N) : Z :=
  if (n =? 0)%N then 1 else digits_aux (S (N.to_nat (N.size n))) n.

Definition pow10 (k : Z) : N := (10 ^ Z.to_N k)%N.

Definition of_Z (z : Z) : t := DFin (z <? 0) (Z.abs_N z) 0.

Definition one : t := of_Z 1.

Definition is_zero (d : t) : bool :=
  match d with
  | DFin _ n _ => (n =? 0)%N
  | _ => false
  end.

(** [Decimal.__bool__] *)
Definition to_bool (d : t) : bool := negb (is_zero d).

Definition dsign (d : t) : bool :=
  match d with
  | DFin s _ _ | DInf s | DNaN s _ _ => s
  end.

(** Drop the [k] low digits of [n], rounding half to even: what
    [_round_half_even] decides on the digit string. *)
Definition round_half_even (n : N) (k : Z) : N :=
  let p := pow10 k in
  let q := (n / p)%N in
  let r := (n mod p)%N in
  match (2 * r ?= p)%N with
  | Gt => (q + 1)%N
  | Eq => if N.even q then q else (q + 1)%N
  | Lt => q
  end.

(** [Decimal._fix_nan] *)
Definition fix_nan (s sig : bool) (payload : N) : t :=
  if ndigits payload >? prec
  then DNaN s sig (payload mod pow10 prec)%N
  else DNaN s sig payload.

(** [Decimal._fix]: round to the context precision, clamp = 0. *)
Definition dfix (d : t) : result t :=
  match d with
  | DNaN s sig p => Ok (fix_nan s sig p)
  | DInf s => Ok d
  | DFin s n e =>
      if (n =? 0)%N then Ok (DFin s 0 (Z.min (Z.max e Etiny) Emax))
      else
        let len := ndigits n in
        let exp_min := len + e - prec in
        if exp_min >? Etop then Raise DecimalOverflow
        else
          let exp_min := if exp_min <? Etiny then Etiny else exp_min in
          if e <? exp_min then
            let digits := len + e - exp_min in
            let coeff :=
              if digits <? 0 then 0%N else round_half_even n (len - digits) in
            let '(coeff, exp_min) :=
              if ndigits coeff >? prec
              then ((coeff / 10)%N, exp_min + 1) else (coeff, exp_min) in
            if exp_min >? Etop then Raise DecimalOverflow
            else Ok (DFin s coeff exp_min)
          else Ok d
  end.

(** [Decimal._check_nans]: a signalling NaN traps, a quiet one is the
    result. [None] when neither operand is a NaN. *)
Definition check_nans (a b : t) : option (result t) :=
  match a, b with
  | DNaN _ true _, _ => Some (Raise DecimalInvalidOperation)
  | _, DNaN _ true _ => Some (Raise DecimalInvalidOperation)
  | DNaN s sig p, _ => Some (Ok (fix_nan s sig p))
  | _, DNaN s sig p => Some (Ok (fix_nan s sig p))
  | _, _ => None
  end.

(** The loop of [__truediv__] that brings an exact quotient towards the
    ideal exponent. *)
Fixpoint strip_zeros (fuel : nat) (coeff : N) (exp ideal_exp : Z) : N * Z :=
  match fuel with
  | O => (coeff, exp)
  | S f =>
      if (exp <? ideal_exp) && (coeff mod 10 =? 0)%N
      then strip_zeros f (coeff / 10)%N (exp + 1) ideal_exp
      else (coeff, exp)
  end.

(** [Decimal.__truediv__] *)
Definition div (a b : t) : result t :=
  match check_nans a b with
  | Some r => r
  | None =>
      let sign := xorb (dsign a) (dsign b) in
      match a, b with
      | DInf _, DInf _ => Raise DecimalInvalidOperation
      | DInf _, _ => Ok (DInf sign)
      | _, DInf _ => Ok (DFin sign 0 Etiny)
      | DFin _ na ea, DFin _ nb eb =>
          if (nb =? 0)%N then
            if (na =? 0)%N then Raise DecimalInvalidOperation
            else Raise DecimalDivisionByZero
          else if (na =? 0)%N then dfix (DFin sign 0 (ea - eb))
          else
            let shift := ndigits nb - ndigits na + prec + 1 in
            let exp := ea - eb - shift in
            let '(coeff, remainder) :=
              if shift >=? 0
              then N.div_eucl (na * pow10 shift) nb
              else N.div_eucl na (nb * pow10 (- shift)) in
            let '(coeff, exp) :=
              if (remainder =? 0)%N
              then strip_zeros (Z.to_nat shift) coeff exp (ea - eb)
              else (if (coeff mod 5 =? 0)%N then (coeff + 1)%N else coeff, exp) in
            dfix (DFin sign coeff exp)
      | _, _ => Raise DecimalInvalidOperation
      end
  end.

(** [Decimal.__mul__] *)
Definition mul (a b : t) : result t :=
  match check_nans a b with
  | Some r => r
  | None =>
      let sign := xorb (dsign a) (dsign b) in
      match a, b with
      | DInf _, _ => if is_zero b then Raise DecimalInvalidOperation else Ok (DInf sign)
      | _, DInf _ => if is_zero a then Raise DecimalInvalidOperation else Ok (DInf sign)
      | DFin _ na ea, DFin _ nb eb => dfix (DFin sign (na * nb) (ea + eb))
      | _, _ => Raise DecimalInvalidOperation
      end
  end.

(** [Decimal._rescale] with ROUND_HALF_EVEN, on a non-zero finite value. *)
Definition rescale (s : bool) (n : N) (e exp : Z) : t :=
  if e >=? exp then DFin s (n * pow10 (e - exp)) exp
  else
    let digits := ndigits n + e - exp in
    if digits <? 0 then DFin s 0 exp
    else DFin s (round_half_even n (exp - e)) exp.

(** [Decimal.quantize(Decimal((0, (1,), exp)))] *)
Definition quantize (d : t) (exp : Z) : result t :=
  match d with
  | DNaN _ true _ => Raise DecimalInvalidOperation
  | DNaN s sig p => Ok (fix_nan s sig p)
  | DInf _ => Raise DecimalInvalidOperation
  | DFin s n e =>
      if negb ((Etiny <=? exp) && (exp <=? Emax)) then Raise DecimalInvalidOperation
      else if (n =? 0)%N then dfix (DFin s 0 exp)
      else
        let adjusted := e + ndigits n - 1 in
        if adjusted >? Emax then Raise DecimalInvalidOperation
        else if adjusted - exp + 1 >? prec then Raise DecimalInvalidOperation
        else
          match rescale s n e exp with
          | DFin s' n' e' =>
              if e' + ndigits n' - 1 >? Emax then Raise DecimalInvalidOperation
              else if ndigits n' >? prec then Raise DecimalInvalidOperation
              else dfix (DFin s' n' e')
          | other => Ok other
          end
  end.

(** [round(d, n)], that is [Decimal.__round__(n)] *)
Definition round (d : t) (n : Z) : result t := quantize d (- n).

(** Numerical equality of finite decimals ([Decimal.__eq__]). *)
Definition eqb (a b : t) : bool :=
  match a, b with
  | DFin sa na ea, DFin sb nb eb =>
      let m := Z.min ea eb in
      let va := (na * pow10 (ea - m))%N in
      let vb := (nb * pow10 (eb - m))%N in
      (va =? vb)%N && ((va =? 0)%N || Bool.eqb sa sb)
  | DInf sa, DInf sb => Bool.eqb sa sb
  | _, _ => false
  end.

End Dec.

(** ** Python [float]: IEEE-754 binary64 *)

Module Flt.

Definition prec : Z := 53.
Definition emax : Z := 1024.

Definition t : Type := spec_float.

(** The binary64 nearest to [(-1)^s * n / d] (ties to even): how a decimal
    literal or a decimal string is read, [float("1.1") = of_ratio false 11 10]. *)
Definition of_ratio (s : bool) (n : N) (d : positive) : t :=
  match n with
  | N0 => S754_zero s
  | Npos m => SFdiv prec emax (S754_finite s m 0) (S754_finite false d 0)
  end.

Definition is_zero (x : t) : bool :=
  match x with
  | S754_zero _ => true
  | _ => false
  end.

(** [float.__bool__]: [x != 0.0] *)
Definition to_bool (x : t) : bool := negb (is_zero x).

(** [float.__truediv__] *)
Definition div (a b : t) : result t :=
  if is_zero b then Raise (ZeroDivisionError "float division by zero")
  else Ok (SFdiv prec emax a b).

(** [float.__mul__] *)
Definition mul (a b : t) : t := SFmul prec emax a b.

(** [round(x, n)] for [0 < n]: the decimal with [n] fractional digits
    nearest to the exact value of [x] (ties to even), read back as a
    binary64. Zeros, infinities and NaN round to themselves. *)
Definition round (x : t) (n : Z) : t :=
  match x with
  | S754_finite s m e =>
      let num := (Npos m * 10 ^ Z.to_N n * 2 ^ Z.to_N e)%N in
      let den := (2 ^ Z.to_N (- e))%N in
      let q := (num / den)%N in
      let r := (num mod den)%N in
      let k :=
        match (2 * r ?= den)%N with
        | Gt => (q + 1)%N
        | Eq => if N.even q then q else (q + 1)%N
        | Lt => q
        end in
      of_ratio s k (Pos.pow 10 (Z.to_pos n))
  | _ => x
  end.

(** Remove the factors of two common to [m] and [2^k]. *)
Fixpoint reduce2 (m : positive) (k : nat) : positive * nat :=
  match m, k with
  | xO p, S k' => reduce2 p k'
  | _, _ => (m, k)
  end.

(** [Decimal.from_float]: the exact decimal expansion of a float. *)
Definition to_decimal (x : t) : Dec.t :=
  match x with
  | S754_zero s => Dec.DFin s 0 0
  | S754_infinity s => Dec.DInf s
  | S754_nan => Dec.DNaN false false 0
  | S754_finite s m e =>
      if e >=? 0 then Dec.DFin s (Npos m * 2 ^ Z.to_N e) 0
      else
        let '(n, k) := reduce2 m (Z.to_nat (- e)) in
        Dec.DFin s (Npos n * 5 ^ N.of_nat k) (- Z.of_nat k)
  end.

End Flt.

(** ** Strings and dates *)

Definition digit_ascii (d : N) : ascii := ascii_of_N (48 + d).

Fixpoint N_to_string_aux (fuel : nat) (n : N) (acc : string) : string :=
  match fuel with
  | O => acc
  | S f =>
      let acc' := String (digit_ascii (n mod 10)) acc in
      if (n / 10 =? 0)%N then acc' else N_to_string_aux f (n / 10)%N acc'
  end.

(** [str(n)] *)
Definition N_to_string (n : N) : string :=
  N_to_string_aux (S (N.to_nat (N.size n))) n "".

Definition pad2 (n : N) : string :=
  if (n <? 10)%N then "0" ++ N_to_string n else N_to_string n.

Fixpoint is_prefix (p s : string) : bool :=
  match p, s with
  | EmptyString, _ => true
  | String a p', String b s' => Ascii.eqb a b && is_prefix p' s'
  | String _ _, EmptyString => false
  end.

(** [sub in s] for strings *)
Fixpoint str_contains (sub s : string) : bool :=
  is_prefix sub s ||
  match s with
  | EmptyString => false
  | String _ s' => str_contains sub s'
  end.

Fixpoint str_replace_aux (old new s : string) (skip : nat) : string :=
  match s with
  | EmptyString => EmptyString
  | String c s' =>
      match skip with
      | S k => str_replace_aux old new s' k
      | O =>
          if is_prefix old s
          then new ++ str_replace_aux old new s' (String.length old - 1)
          else String c (str_replace_aux old new s' O)
      end
  end.

(** [s.replace(old, new)] for a non-empty [old] *)
Definition str_replace (old new s : string) : string :=
  str_replace_aux old new s O.

(** [os.path.join(a, b)] on a POSIX system *)
Definition os_path_join (a b : string) : string :=
  if is_prefix "/" b then b
  else if String.eqb a "" || is_prefix "/" (String.string_of_list_ascii
             (List.rev (String.list_ascii_of_string a)))
  then a ++ b
  else a ++ "/" ++ b.

(** A calendar day. The time of day of a [datetime] plays no part in the
    code below: it is formatted with ["%Y-%m-%d"] or handed to a
    [DateField]. *)
Record date : Type := mkdate { year : N; month : N; day : N }.

Definition date_eqb (a b : date) : bool :=
  (year a =? year b)%N && (month a =? month b)%N && (day a =? day b)%N.

Definition date_leb (a b : date) : bool :=
  (year a <? year b)%N ||
  ((year a =? year b)%N &&
   ((month a <? month b)%N || ((month a =? month b)%N && (day a <=? day b)%N))).

(** [d.strftime("%Y-%m-%d")] *)
Definition strftime (d : date) : string :=
  N_to_string (year d) ++ "-" ++ pad2 (month d) ++ "-" ++ pad2 (day d).

(** ** Python values *)

#[local] Unset Elimination Schemes.

Inductive value : Type :=
| VNone
| VStr (s : string)
| VFloat (f : Flt.t)
| VDec (d : Dec.t)
| VDate (d : date)
| VDict (items : list (string * value))
| VList (items : list value).

#[local] Set Elimination Schemes.

Definition dict : Type := list (string * value).

(** [d.get(k)] *)
Fixpoint dict_get (k : string) (d : dict) : option value :=
  match d with
  | [] => None
  | (k', v) :: d' => if String.eqb k k' then Some v else dict_get k d'
  end.

(** [d[k] = v]: an existing key keeps its position, a new one goes last. *)
Fixpoint dict_set (k : string) (v : value) (d : dict) : dict :=
  match d with
  | [] => [(k, v)]
  | (k', v') :: d' =>
      if String.eqb k k' then (k, v) :: d' else (k', v') :: dict_set k v d'
  end.

(** [{k: v for k, v in items}] and dictionary displays: later pairs win. *)
Definition dict_of_items (items : list (string * value)) : dict :=
  fold_left (fun d kv => dict_set (fst kv) (snd kv) d) items [].

(** [a | b] *)
Definition dict_union (a b : dict) : dict :=
  fold_left (fun d kv => dict_set (fst kv) (snd kv) d) b a.

Definition dict_mem (k : string) (d : dict) : bool :=
  match dict_get k d with
  | Some _ => true
  | None => false
  end.

(** [bool(v)] *)
Definition truthy (v : value) : bool :=
  match v with
  | VNone => false
  | VStr s => negb (String.eqb s "")
  | VFloat f => Flt.to_bool f
  | VDec d => Dec.to_bool d
  | VDate _ => true
  | VDict items => match items with [] => false | _ => true end
  | VList items => match items with [] => false | _ => true end
  end.

(** [v == s] for a string [s] *)
Definition eq_str (v : value) (s : string) : bool :=
  match v with
  | VStr s' => String.eqb s' s
  | _ => false
  end.

(** [v[k]] for a string key *)
Definition subscript (v : value) (k : string) : result value :=
  match v with
  | VDict d =>
      match dict_get k d with
      | Some x => Ok x
      | None => Raise (KeyError k)
      end
  | VStr _ => Raise (TypeError "string indices must be integers")
  | VList _ => Raise (TypeError "list indices must be integers or slices, not str")
  | _ => Raise (TypeError "object is not subscriptable")
  end.

(** [l[i]] on a list *)
Definition list_getitem (l : list value) (i : nat) : result value :=
  match nth_error l i with
  | Some v => Ok v
  | None => Raise (IndexError "list index out of range")
  end.

(** [a / b] *)
Definition py_truediv (a b : value) : result value :=
  match a, b with
  | VDec x, VDec y => d <- Dec.div x y ;; Ok (VDec d)
  | VFloat x, VFloat y => f <- Flt.div x y ;; Ok (VFloat f)
  | _, _ => Raise (TypeError "unsupported operand type(s) for /")
  end.

(** [z / b] for an [int] literal [z] *)
Definition py_int_truediv (z : Z) (b : value) : result value :=
  match b with
  | VDec y => d <- Dec.div (Dec.of_Z z) y ;; Ok (VDec d)
  | VFloat y =>
      f <- Flt.div (Flt.of_ratio (z <? 0) (Z.abs_N z) 1) y ;; Ok (VFloat f)
  | _ => Raise (TypeError "unsupported operand type(s) for /")
  end.

(** [a * b] *)
Definition py_mul (a b : value) : result value :=
  match a, b with
  | VDec x, VDec y => d <- Dec.mul x y ;; Ok (VDec d)
  | VFloat x, VFloat y => Ok (VFloat (Flt.mul x y))
  | _, _ => Raise (TypeError "unsupported operand type(s) for *")
  end.

(** [round(v, 6)] *)
Definition py_round6 (v : value) : result value :=
  match v with
  | VDec x => d <- Dec.round x 6 ;; Ok (VDec d)
  | VFloat x => Ok (VFloat (Flt.round x 6))
  | _ => Raise (TypeError "type doesn't define __round__ method")
  end.

(** [k in v] for a string [k] *)
Definition py_contains (k : string) (v : value) : result bool :=
  match v with
  | VDict d => Ok (dict_mem k d)
  | VStr s => Ok (str_contains k s)
  | VList l => Ok (existsb (fun x => eq_str x k) l)
  | _ => Raise (TypeError "argument is not iterable")
  end.

(** [for item in v]: the items a value yields when iterated. *)
Definition py_iter (v : value) : result (list value) :=
  match v with
  | VList l => Ok l
  | VDict d => Ok (map (fun kv => VStr (fst kv)) d)
  | VStr s => Ok (map (fun c => VStr (String c "")) (list_ascii_of_string s))
  | _ => Raise (TypeError "object is not iterable")
  end.

(** ** The [Decimal] constructor *)

Module DecParse.

Definition is_digit (c : ascii) : bool :=
  let n := N_of_ascii c in (48 <=? n)%N && (n <=? 57)%N.

Definition is_space (c : ascii) : bool :=
  let n := N_of_ascii c in
  ((9 <=? n)%N && (n <=? 13)%N) || ((28 <=? n)%N && (n <=? 32)%N).

Definition lower (c : ascii) : ascii :=
  let n := N_of_ascii c in
  if (65 <=? n)%N && (n <=? 90)%N then ascii_of_N (n + 32) else c.

Fixpoint drop_while (f : ascii -> bool) (l : list ascii) : list ascii :=
  match l with
  | c :: l' => if f c then drop_while f l' else l
  | [] => []
  end.

(** [s.strip()] *)
Definition strip (l : list ascii) : list ascii :=
  rev (drop_while is_space (rev (drop_while is_space l))).

(** The longest prefix of digits and what follows it. *)
Fixpoint span_digits (l : list ascii) : list ascii * list ascii :=
  match l with
  | c :: l' =>
      if is_digit c
      then let '(ds, r) := span_digits l' in (c :: ds, r)
      else ([], l)
  | [] => ([], [])
  end.

(** [int(digits or "0")] *)
Definition digits_to_N (ds : list ascii) : N :=
  fold_left (fun acc c => (10 * acc + (N_of_ascii c - 48))%N) ds 0%N.

Definition ascii_list_eqb (a b : list ascii) : bool :=
  String.eqb (string_of_list_ascii a) (string_of_list_ascii b).

(** The optional exponent [(E[-+]?\d+)?] followed by the end of input. *)
Definition parse_exp (l : list ascii) : option Z :=
  match l with
  | [] => Some 0
  | c :: l' =>
      if Ascii.eqb (lower c) "e" then
        let '(neg, l'') :=
          match l' with
          | "-"%char :: r => (true, r)
          | "+"%char :: r => (false, r)
          | _ => (false, l')
          end in
        match span_digits l'' with
        | ((_ :: _) as ds, []) =>
            let e := Z.of_N (digits_to_N ds) in
            Some (if neg then - e else e)
        | _ => None
        end
      else None
  end.

(** The numeric-string grammar of the decimal module, on ASCII input. *)
Definition parse (s : string) : option Dec.t :=
  let l := filter (fun c => negb (Ascii.eqb c "_")) (strip (list_ascii_of_string s)) in
  let '(sign, l) :=
    match l with
    | "-"%char :: r => (true, r)
    | "+"%char :: r => (false, r)
    | _ => (false, l)
    end in
  let low := map lower l in
  if ascii_list_eqb low (list_ascii_of_string "inf")
     || ascii_list_eqb low (list_ascii_of_string "infinity")
  then Some (Dec.DInf sign)
  else if is_prefix "nan" (string_of_list_ascii low) then
    match span_digits (skipn 3 l) with
    | (ds, []) => Some (Dec.DNaN sign false (digits_to_N ds))
    | _ => None
    end
  else if is_prefix "snan" (string_of_list_ascii low) then
    match span_digits (skipn 4 l) with
    | (ds, []) => Some (Dec.DNaN sign true (digits_to_N ds))
    | _ => None
    end
  else
    let '(intpart, r1) := span_digits l in
    let '(fracpart, r2) :=
      match r1 with
      | "."%char :: r => span_digits r
      | _ => ([], r1)
      end in
    match (intpart ++ fracpart)%list with
    | [] => None
    | ds =>
        match parse_exp r2 with
        | Some e =>
            Some (Dec.DFin sign (digits_to_N ds) (e - Z.of_nat (List.length fracpart)))
        | None => None
        end
    end.

End DecParse.

(** [Decimal(v)] *)
Definition Decimal_new (v : value) : result value :=
  match v with
  | VDec d => Ok (VDec d)
  | VFloat f => Ok (VDec (Flt.to_decimal f))
  | VStr s =>
      match DecParse.parse s with
      | Some d => Ok (VDec d)
      | None => Raise DecimalInvalidOperation
      end
  | VList _ => Raise (ValueError "Invalid tuple size in creation of Decimal from list or tuple.")
  | _ => Raise (TypeError "Cannot convert to Decimal")
  end.

(** ** The outside world and the adapters ([provider_interface.py]) *)

(** What the adapters reach outside the program. *)
Record World : Type := mkWorld {
  (** [requests.get(url, params=payload).json()] *)
  requests_get : string -> dict -> result value;
  (** [json.load(open(path, "r"))] *)
  json_load : string -> result value;
  (** [datetime.today()] *)
  datetime_today : date
}.

Fixpoint subscripts (v : value) (path : list string) : result value :=
  match path with
  | [] => Ok v
  | k :: path' => x <- subscript v k ;; subscripts x path'
  end.

(** [v.get(k, default)] for a string [k] *)
Definition py_get (v : value) (k : string) (default : value) : result value :=
  match v with
  | VDict d =>
      match dict_get k d with
      | Some x => Ok x
      | None => Ok default
      end
  | _ => Raise (AttributeError "object has no attribute 'get'")
  end.

(** [v.get(key, None)] where [key] is itself a value: JSON objects have
    string keys only, and a list or a dict cannot be hashed. *)
Definition py_get_value (v key : value) : result value :=
  match v, key with
  | VDict _, VStr k => py_get v k VNone
  | VDict _, (VDict _ | VList _) => Raise (TypeError "unhashable type")
  | VDict _, _ => Ok VNone
  | _, _ => Raise (AttributeError "object has no attribute 'get'")
  end.

(** A value used where the code needs a [str]. *)
Definition expect_str (e : exn) (v : value) : result string :=
  match v with
  | VStr s => Ok s
  | _ => Raise e
  end.

(** The interface [FormalAdapterInterface]. *)
Class FormalAdapterInterface (A : Type) : Type := {
  get_latest_rate : World -> A -> string -> string -> result value;
  get_historical_rates : World -> A -> string -> string -> date -> result value
}.

Module FileJsonAdapter.

Record t : Type := mk {
  address : string;
  access_key : value;
  latest_endpoint_path : value;
  latest_endpoint_args : value;
  latest_response_path : value;
  historical_endpoint_path : value;
  historical_endpoint_args : value;
  historical_response_path : value
}.

(** [__init__] *)
Definition init (address : string) (provider_config : value) : result t :=
  auth <- subscript provider_config "auth" ;;
  access_key <- py_get auth "access_key" (VStr "") ;;
  latest_endpoint_path <-
    subscripts provider_config ["endpoints"; "latest"; "request"; "path"] ;;
  latest_endpoint_args <-
    subscripts provider_config ["endpoints"; "latest"; "request"] ;;
  latest_response_path <-
    subscripts provider_config ["endpoints"; "latest"; "response"; "path"] ;;
  historical_endpoint_path <-
    subscripts provider_config ["endpoints"; "historical"; "request"; "path"] ;;
  historical_endpoint_args <-
    subscripts provider_config ["endpoints"; "historical"] ;;
  historical_response_path <-
    subscripts provider_config ["endpoints"; "historical"; "response"; "path"] ;;
  Ok (mk address access_key latest_endpoint_path latest_endpoint_args
         latest_response_path historical_endpoint_path
         historical_endpoint_args historical_response_path).

(** [next(item["rates"] for item in data if item["base"] == source)];
    [None] stands for [StopIteration]. *)
Fixpoint next_rates (data : list value) (source_currency_code : string)
  : result (option value) :=
  match data with
  | [] => Ok None
  | item :: data' =>
      base <- subscript item "base" ;;
      if eq_str base source_currency_code
      then rates <- subscript item "rates" ;; Ok (Some rates)
      else next_rates data' source_currency_code
  end.

Definition get_latest_rate (w : World) (self : t)
    (source_currency_code exchanged_currency_code : string) : result value :=
  path <- expect_str (TypeError "expected str, bytes or os.PathLike object")
            (latest_endpoint_path self) ;;
  let file_path := os_path_join (address self) path in
  data <- json_load w file_path ;;
  items <- py_iter data ;;
  found <- next_rates items source_currency_code ;;
  match found with
  | None => Raise (ProviderError "Source currency was not found in the file.")
  | Some rates =>
      rate <- subscript rates exchanged_currency_code ;;
      Decimal_new rate
  end.

(** [next(item for item in response if item["date"] == str_date
          and item["base"] == source)] *)
Fixpoint next_date_rates (response : list value)
    (str_date source_currency_code : string) : result (option value) :=
  match response with
  | [] => Ok None
  | item :: response' =>
      d <- subscript item "date" ;;
      if eq_str d str_date then
        base <- subscript item "base" ;;
        if eq_str base source_currency_code then Ok (Some item)
        else next_date_rates response' str_date source_currency_code
      else next_date_rates response' str_date source_currency_code
  end.

Definition get_historical_rates (w : World) (self : t)
    (source_currency_code exchanged_currency_code : string)
    (valuation_date : date) : result value :=
  let str_date := strftime valuation_date in
  path <- expect_str (TypeError "expected str, bytes or os.PathLike object")
            (historical_endpoint_path self) ;;
  let file_path := os_path_join (address self) path in
  response <- json_load w file_path ;;
  items <- py_iter response ;;
  found <- next_date_rates items str_date source_currency_code ;;
  match found with
  | None => Ok VNone
  | Some date_rates => Ok date_rates
  end.

End FileJsonAdapter.

#[export] Instance FileJsonAdapter_interface
  : FormalAdapterInterface FileJsonAdapter.t :=
  {| get_latest_rate := FileJsonAdapter.get_latest_rate;
     get_historical_rates := FileJsonAdapter.get_historical_rates |}.

Module HttpJsonAdapter.

Record t : Type := mk {
  address : string;
  access_key : value;
  latest_endpoint_path : value;
  latest_endpoint_args : value;
  latest_response_path : value;
  historical_endpoint_path : value;
  historical_endpoint_args : value;
  historical_response_path : value
}.

(** [__init__] *)
Definition init (address : string) (provider_config : value) : result t :=
  access_key <- subscripts provider_config ["auth"; "access_key"] ;;
  latest_endpoint_path <-
    subscripts provider_config ["endpoints"; "latest"; "request"; "path"] ;;
  latest_endpoint_args <-
    subscripts provider_config ["endpoints"; "latest"; "request"; "args"] ;;
  latest_response_path <-
    subscripts provider_config ["endpoints"; "latest"; "response"; "path"] ;;
  historical_endpoint_path <-
    subscripts provider_config ["endpoints"; "historical"; "request"; "path"] ;;
  historical_endpoint_args <-
    subscripts provider_config ["endpoints"; "historical"; "request"; "args"] ;;
  historical_response_path <-
    subscripts provider_config ["endpoints"; "historical"; "response"; "path"] ;;
  Ok (mk address access_key latest_endpoint_path latest_endpoint_args
         latest_response_path historical_endpoint_path
         historical_endpoint_args historical_response_path).

(** The query parameters
    [{"access_key": key, args["source_currency_code"]: source,
      args["exchanged_currency_code"]: exchanged}].
    The configuration names the provider's parameters with strings. *)
Definition payload (access_key args : value)
    (source_currency_code exchanged_currency_code : string) : result dict :=
  k1 <- subscript args "source_currency_code" ;;
  k2 <- subscript args "exchanged_currency_code" ;;
  k1 <- expect_str (TypeError "query parameter name is not a str") k1 ;;
  k2 <- expect_str (TypeError "query parameter name is not a str") k2 ;;
  Ok (dict_of_items [("access_key", access_key);
                     (k1, VStr source_currency_code);
                     (k2, VStr exchanged_currency_code)]).

Definition get_latest_rate (w : World) (self : t)
    (source_currency_code exchanged_currency_code : string) : result value :=
  path <- expect_str (TypeError "sequence item 1: expected str instance")
            (latest_endpoint_path self) ;;
  let url := address self ++ path in
  payload <- payload (access_key self) (latest_endpoint_args self)
               source_currency_code exchanged_currency_code ;;
  response <- requests_get w url payload ;;
  rates <- py_get_value response (latest_response_path self) ;;
  if negb (truthy rates)
  then Raise (ProviderError "Provider did not return any rates.")
  else if str_contains "," exchanged_currency_code then Ok rates
  else
    rate <- subscript rates exchanged_currency_code ;;
    Decimal_new rate.

Definition get_historical_rates (w : World) (self : t)
    (source_currency_code exchanged_currency_code : string)
    (valuation_date : date) : result value :=
  let str_date := strftime valuation_date in
  path <- expect_str (AttributeError "object has no attribute 'replace'")
            (historical_endpoint_path self) ;;
  let url := address self ++ str_replace "$date" str_date path in
  payload <- payload (access_key self) (historical_endpoint_args self)
               source_currency_code exchanged_currency_code ;;
  response <- requests_get w url payload ;;
  rates <- py_get_value response (historical_response_path self) ;;
  if negb (truthy rates)
  then Raise (ProviderError "Provider did not return any rates.")
  else Ok rates.

End HttpJsonAdapter.

#[export] Instance HttpJsonAdapter_interface
  : FormalAdapterInterface HttpJsonAdapter.t :=
  {| get_latest_rate := HttpJsonAdapter.get_latest_rate;
     get_historical_rates := HttpJsonAdapter.get_historical_rates |}.

(** ** The store ([models.py]) *)

(** A [CurrencyExchangeRate] row. [Currency.code] is unique, so a row names
    its two currencies by code in place of the foreign key. [rate_value] is
    the value handed to, and read back from, the [DecimalField]: the
    coercion of that value by the store is not part of the model. *)
Record CurrencyExchangeRate : Type := mkRate {
  source_currency : string;
  exchanged_currency : string;
  valuation_date : date;
  rate_value : value
}.

Record Provider : Type := mkProvider {
  name : string;
  priority : Z;
  address : string;
  config : value;
  resource_type : string;
  force_base_currency : option string
}.

Record DB : Type := mkDB {
  currencies : list string;               (* Currency.code of every Currency *)
  exchange_rates : list CurrencyExchangeRate;
  providers : list Provider
}.

Definition QuerySet : Type := list CurrencyExchangeRate.

(** Stable insertion sort: the [ordering] of a model's [Meta] and
    [order_by]. *)
Fixpoint insert_by {A : Type} (le : A -> A -> bool) (x : A) (l : list A) : list A :=
  match l with
  | [] => [x]
  | y :: l' => if le y x then y :: insert_by le x l' else x :: l
  end.

Definition sort_by {A : Type} (le : A -> A -> bool) (l : list A) : list A :=
  fold_left (fun acc x => insert_by le x acc) l [].

(** [valuation_date__range=[date_from, date_to]] *)
Definition in_range (date_from date_to : date) (r : CurrencyExchangeRate) : bool :=
  date_leb date_from (valuation_date r) && date_leb (valuation_date r) date_to.

(** [Provider.objects.order_by("priority")] *)
Definition providers_by_priority (db : DB) : list Provider :=
  sort_by (fun a b => priority a <=? priority b) (providers db).

(** ** The services ([services.py]) *)

Definition get_db_rates (db : DB)
    (source_currency_code exchanged_currency_code : string)
    (date_from date_to : date) : QuerySet :=
  sort_by (fun a b => date_leb (valuation_date a) (valuation_date b))
    (if String.eqb source_currency_code "EUR" then
       filter (fun r =>
                 String.eqb (source_currency r) source_currency_code
                 && String.eqb (exchanged_currency r) exchanged_currency_code
                 && in_range date_from date_to r)
              (exchange_rates db)
     else filter (in_range date_from date_to) (exchange_rates db)).

(** [rates_grouped_by_date[row["valuation_date"]].append(row)] *)
Fixpoint group_append (d : date) (row : CurrencyExchangeRate)
    (groups : list (date * list CurrencyExchangeRate))
  : list (date * list CurrencyExchangeRate) :=
  match groups with
  | [] => [(d, [row])]
  | (d', rows) :: groups' =>
      if date_eqb d d' then (d', (rows ++ [row])%list) :: groups'
      else (d', rows) :: group_append d row groups'
  end.

Definition rates_grouped_by_date (db_rates : QuerySet)
  : list (date * list CurrencyExchangeRate) :=
  fold_left (fun groups row => group_append (valuation_date row) row groups)
            db_rates [].

(** [round(r["rate_value"] / base_rate["rate_value"], 6)] *)
Definition rebase (rate base_rate : value) : result value :=
  q <- py_truediv rate base_rate ;; py_round6 q.

(** The body of the loop of [process_db_rates] over the date groups. *)
Definition process_group (source_currency_code : string)
    (group : date * list CurrencyExchangeRate) : result value :=
  let '(valuation_date, rates) := group in
  if String.eqb source_currency_code "EUR" then
    Ok (VDict [("date", VStr (strftime valuation_date));
               ("rates", VDict (dict_of_items
                  (map (fun r => (exchanged_currency r, rate_value r)) rates)))])
  else
    match find (fun item => String.eqb (exchanged_currency item) source_currency_code)
               rates with
    | None =>
        Raise (ValueError ("No base rate found for currency code " ++ source_currency_code))
    | Some base_rate =>
        processed_rates <-
          mapM (fun r => v <- rebase (rate_value r) (rate_value base_rate) ;;
                         Ok (exchanged_currency r, v))
               (filter (fun r => negb (String.eqb (exchanged_currency r)
                                                  (exchanged_currency base_rate)))
                       rates) ;;
        q <- py_int_truediv 1 (rate_value base_rate) ;;
        eur <- py_round6 q ;;
        Ok (VDict [("date", VDate valuation_date);
                   ("rates", VDict (dict_union (dict_of_items processed_rates)
                                               [("EUR", eur)]))])
    end.

Definition process_db_rates (db_rates : QuerySet)
    (source_currency_code exchanged_currency_code : string) : result (list value) :=
  mapM (process_group source_currency_code) (rates_grouped_by_date db_rates).

Definition get_currency_rates_for_period (db : DB)
    (source_currency_code exchanged_currency_code : string)
    (date_from date_to : date) : result (list value) :=
  let db_rates :=
    get_db_rates db source_currency_code exchanged_currency_code date_from date_to in
  match db_rates with
  | [] => Ok []
  | _ => process_db_rates db_rates source_currency_code exchanged_currency_code
  end.

(** [provider.force_base_currency and
     provider.force_base_currency != source_currency_code] *)
Definition forced_base (provider : Provider) (source_currency_code : string)
  : option string :=
  match force_base_currency provider with
  | Some base =>
      if negb (String.eqb base "") && negb (String.eqb base source_currency_code)
      then Some base else None
  | None => None
  end.

(** [get_latest_from_provider] once the adapter is chosen. *)
Definition get_latest_with {A : Type} `{FormalAdapterInterface A}
    (w : World) (adapter : A) (provider : Provider)
    (source_currency_code exchanged_currency_code : string) : result value :=
  match forced_base provider source_currency_code with
  | Some base =>
      raw_data <- get_latest_rate w adapter base
                    (exchanged_currency_code ++ "," ++ source_currency_code) ;;
      s <- subscript raw_data source_currency_code ;;
      e <- subscript raw_data exchanged_currency_code ;;
      q <- py_truediv s e ;;
      Decimal_new q
  | None =>
      get_latest_rate w adapter source_currency_code exchanged_currency_code
  end.

Definition unknown_resource_type (provider : Provider) : exn :=
  ValueError ("Unknown provider resource type: " ++ resource_type provider).

Definition get_latest_from_provider (w : World) (provider : Provider)
    (source_currency_code exchanged_currency_code : string) : result value :=
  if String.eqb (resource_type provider) "http" then
    adapter <- HttpJsonAdapter.init (address provider) (config provider) ;;
    get_latest_with w adapter provider source_currency_code exchanged_currency_code
  else if String.eqb (resource_type provider) "json" then
    adapter <- FileJsonAdapter.init (address provider) (config provider) ;;
    get_latest_with w adapter provider source_currency_code exchanged_currency_code
  else Raise (unknown_resource_type provider).

Definition provider_failed (provider : Provider) : string :=
  "Provider " ++ name provider ++ " failed".

(** The loop shared by the two orchestrators: [fetch] is the call in the
    [try] block, [data] the variable assigned there, [log] what
    [logger.error] has written. *)
Fixpoint fetch_loop (fetch : Provider -> result value)
    (providers : list Provider) (data : value) (log : list string)
  : result value * list string :=
  match providers with
  | [] => (Ok data, log)
  | provider :: providers' =>
      match fetch provider with
      | Ok data' =>
          if truthy data' then (Ok data', log)
          else fetch_loop fetch providers' data' log
      | Raise (ProviderError _) =>
          fetch_loop fetch providers' data (log ++ [provider_failed provider])%list
      | Raise e => (Raise e, log)
      end
  end.

Definition fetch_latest_rates_from_provider (w : World) (db : DB)
    (log : list string)
    (source_currency_code exchanged_currency_code : string)
  : result value * list string :=
  fetch_loop (fun provider =>
                get_latest_from_provider w provider
                  source_currency_code exchanged_currency_code)
             (providers_by_priority db) VNone log.

Definition reverse_rates (source_currency_code : string) (data : value)
  : result value :=
  match subscript data source_currency_code with
  | Raise (KeyError _) => Ok (VDict [])
  | Raise e => Raise e
  | Ok base_rate =>
      match data with
      | VDict items =>
          reversed_data <-
            mapM (fun cr => v <- rebase (snd cr) base_rate ;; Ok (fst cr, v))
                 (filter (fun cr => negb (String.eqb (fst cr) source_currency_code))
                         items) ;;
          Ok (VDict (dict_of_items reversed_data))
      | _ => Raise (AttributeError "object has no attribute 'items'")
      end
  end.

(** [get_hist_from_provider] once the adapter is chosen. *)
Definition get_hist_with {A : Type} `{FormalAdapterInterface A}
    (w : World) (adapter : A) (provider : Provider)
    (source_currency_code exchanged_currency_code : string)
    (valuation_date : date) : result value :=
  match forced_base provider source_currency_code with
  | Some base =>
      raw_data <- get_historical_rates w adapter base
                    (exchanged_currency_code ++ "," ++ source_currency_code)
                    valuation_date ;;
      reverse_rates source_currency_code raw_data
  | None =>
      get_historical_rates w adapter source_currency_code
        exchanged_currency_code valuation_date
  end.

Definition get_hist_from_provider (w : World) (provider : Provider)
    (source_currency_code exchanged_currency_code : string)
    (valuation_date : date) : result value :=
  if String.eqb (resource_type provider) "http" then
    adapter <- HttpJsonAdapter.init (address provider) (config provider) ;;
    get_hist_with w adapter provider source_currency_code
      exchanged_currency_code valuation_date
  else if String.eqb (resource_type provider) "json" then
    adapter <- FileJsonAdapter.init (address provider) (config provider) ;;
    get_hist_with w adapter provider source_currency_code
      exchanged_currency_code valuation_date
  else Raise (unknown_resource_type provider).

(** [currencies[code]], with [currencies] the code-to-id mapping of all
    [Currency] records. *)
Definition currency_id (db : DB) (code : string) : result unit :=
  if existsb (String.eqb code) (currencies db) then Ok tt
  else Raise (KeyError code).

(** [v.items()] *)
Definition py_items (v : value) : result dict :=
  match v with
  | VDict d => Ok d
  | _ => Raise (AttributeError "object has no attribute 'items'")
  end.

Definition insert_rates (db : DB) (rows : list CurrencyExchangeRate) : DB :=
  mkDB (currencies db) (exchange_rates db ++ rows)%list (providers db).

(** The part of [fetch_historical_rates_from_provider] after the loop: what
    is written to the store for [data]. The rows appended are the objects
    handed to [bulk_create] and [create]; the validation and the coercion
    of their rate by the store are outside the model. *)
Definition store_historical (db : DB) (data : value)
    (source_currency_code exchanged_currency_code : string)
    (valuation_date : date) : result DB :=
  match data with
  | VNone => Ok db
  | _ =>
      has_rates <- py_contains "rates" data ;;
      if has_rates then
        rates <- subscript data "rates" ;;
        items <- py_items rates ;;
        creates <-
          mapM (fun sr =>
                  _ <- currency_id db source_currency_code ;;
                  _ <- currency_id db (fst sr) ;;
                  Ok (mkRate source_currency_code (fst sr) valuation_date (snd sr)))
               items ;;
        Ok (insert_rates db creates)
      else
        _ <- currency_id db source_currency_code ;;
        _ <- currency_id db exchanged_currency_code ;;
        rate <- subscript data exchanged_currency_code ;;
        Ok (insert_rates db
              [mkRate source_currency_code exchanged_currency_code
                      valuation_date rate])
  end.

(** The result, the store and the log after the call. *)
Definition fetch_historical_rates_from_provider (w : World) (db : DB)
    (log : list string)
    (source_currency_code exchanged_currency_code : string)
    (valuation_date : date) : result value * DB * list string :=
  match fetch_loop (fun provider =>
                      get_hist_from_provider w provider source_currency_code
                        exchanged_currency_code valuation_date)
                   (providers_by_priority db) VNone log with
  | (Raise e, log') => (Raise e, db, log')
  | (Ok data, log') =>
      match store_historical db data source_currency_code
              exchanged_currency_code valuation_date with
      | Ok db' => (Ok data, db', log')
      | Raise e => (Raise e, db, log')
      end
  end.

(** One turn of the loop of [calculate_twrr], for index [i]; the state is
    [(total_return, twrr_values)]. *)
Definition twrr_step (historical_rates : list value) (amount : value)
    (state : value * list value) (i : nat) : result (value * list value) :=
  let '(total_return, twrr_values) := state in
  prev <- list_getitem historical_rates (i - 1) ;;
  previous_rate <- subscript prev "rate_value" ;;
  cur <- list_getitem historical_rates i ;;
  current_rate <- subscript cur "rate_value" ;;
  daily_return <- py_truediv current_rate previous_rate ;;
  total_return <- py_mul total_return daily_return ;;
  product <- py_mul total_return amount ;;
  current_value <- py_round6 product ;;
  d <- subscript cur "valuation_date" ;;
  r <- subscript cur "rate_value" ;;
  Ok (total_return,
      (twrr_values ++ [VDict [("date", d); ("rate_value", r);
                              ("twrr", current_value)]])%list).

Fixpoint foldM {A B : Type} (f : A -> B -> result A) (l : list B) (a : A)
  : result A :=
  match l with
  | [] => Ok a
  | b :: l' => a' <- f a b ;; foldM f l' a'
  end.

Definition calculate_twrr (historical_rates : list value) (amount : value)
  : result (list value) :=
  state <- foldM (twrr_step historical_rates amount)
             (seq 1 (List.length historical_rates - 1))
             (VDec Dec.one, []) ;;
  Ok (snd state).

(** [dt <= s] for a [datetime] and a [str]: neither [datetime.__le__] nor
    the reflected [str.__ge__] accepts the other type, so the comparison
    never yields a boolean. *)
Definition datetime_le_str (dt : date) (s : string) : result Empty_set :=
  Raise (TypeError
    "'<=' not supported between instances of 'datetime.datetime' and 'str'").

(** [start_date] is a [datetime] and [today] the string
    [datetime.today().strftime("%Y-%m-%d")]. The store parses that string
    back into the day [datetime_today w] for the range query. When the store has
    nothing for the period, the back-filling loop starts with the test
    [dt <= today] on [dt = start_date], which raises: its body is never
    run. *)
Definition get_weighted_ror (w : World) (db : DB)
    (source_currency_code exchanged_currency_code : string)
    (amount : value) (start_date : date) : result value :=
  let today := strftime (datetime_today w) in
  historical_rates <-
    get_currency_rates_for_period db source_currency_code
      exchanged_currency_code start_date (datetime_today w) ;;
  historical_rates <-
    match historical_rates with
    | [] =>
        never <- datetime_le_str start_date today ;;
        match never : Empty_set with end
    | _ => Ok historical_rates
    end ;;
  twrrs <- calculate_twrr historical_rates amount ;;
  Ok (VDict [("base", VStr source_currency_code);
             ("exchanged", VStr exchanged_currency_code);
             ("amount", amount);
             ("start_date", VDate start_date);
             ("twrr", VList twrrs)]).


(** ** The formulas of the specification *)

(** [rate[i] / rate[i-1]] *)
Definition daily_return (rates : list value) (i : nat) : result value :=
  cur <- list_getitem rates i ;;
  prev <- list_getitem rates (i - 1) ;;
  py_truediv cur prev.

(** [product(rate[i]/rate[i-1] for i in 1..k)], multiplied up from
    [Decimal(1)] in the order of [i]. *)
Definition product_formula (rates : list value) (k : nat) : result value :=
  foldM (fun acc i => d <- daily_return rates i ;; py_mul acc d)
        (seq 1 k) (VDec Dec.one).

(** [round(product(...) * amount, 6)] *)
Definition twrr_formula (rates : list value) (amount : value) (k : nat)
  : result value :=
  p <- product_formula rates k ;;
  m <- py_mul p amount ;;
  py_round6 m.

(** A [TwrrPoint]. *)
Definition twrr_point (d r twrr : value) : value :=
  VDict [("date", d); ("rate_value", r); ("twrr", twrr)].

(** The input map [row] carries the date [fst dr] and the rate [snd dr]. *)
Definition has_rate_and_date (row : value) (dr : value * value) : Prop :=
  subscript row "valuation_date" = Ok (fst dr) /\
  subscript row "rate_value" = Ok (snd dr).

(** The map [{"valuation_date": d, "rate_value": r}]. *)
Definition rate_row (d : string) (r : Dec.t) : value :=
  VDict [("valuation_date", VStr d); ("rate_value", VDec r)].

Definition is_finite (d : Dec.t) : bool :=
  match d with
  | Dec.DFin _ _ _ => true
  | _ => false
  end.

(** What [Decimal.__truediv__] signals for a division of [numerator] by
    zero: [InvalidOperation] for 0/0, [DivisionByZero] otherwise. *)
Definition division_signal (numerator : Dec.t) : exn :=
  if Dec.is_zero numerator then DecimalInvalidOperation else DecimalDivisionByZero.

(** The series of the repository's test of [calculate_twrr]:
    [Decimal(1.00)], [Decimal(1.05)], [Decimal(1.10)]. *)
Definition test_series : list (value * value) :=
  [(VStr "2021-01-01", VDec (Flt.to_decimal (Flt.of_ratio false 100 100)));
   (VStr "2021-01-02", VDec (Flt.to_decimal (Flt.of_ratio false 105 100)));
   (VStr "2021-01-03", VDec (Flt.to_decimal (Flt.of_ratio false 110 100)))].

Definition row_of (dr : value * value) : value :=
  VDict [("valuation_date", fst dr); ("rate_value", snd dr)].

Definition test_amount : value := VDec (Dec.of_Z 1000).

(** A zero rate in first position, as in the repository's test. *)
Definition zero_first_series : list (value * Dec.t) :=
  [(VStr "2021-01-01", Dec.of_Z 0); (VStr "2021-01-02", Dec.of_Z 1)].

(** A zero rate in last position. *)
Definition zero_last_series : list (value * Dec.t) :=
  [(VStr "2021-01-01", Dec.of_Z 1); (VStr "2021-01-02", Dec.of_Z 0)].

Definition dec_row_of (dr : value * Dec.t) : value :=
  row_of (fst dr, VDec (snd dr)).

(** ** The orchestrator loop *)

Definition is_provider_error (e : exn) : bool :=
  match e with
  | ProviderError _ => true
  | _ => false
  end.

(** The provider raises ProviderError or yields a falsy result: the loop
    goes on to the next one. *)
Definition falls_through (fetch : Provider -> result value) (p : Provider) : Prop :=
  (exists m, fetch p = Raise (ProviderError m)) \/
  (exists v, fetch p = Ok v /\ truthy v = false).

(** The providers of [ps] whose call raised ProviderError. *)
Definition failed (fetch : Provider -> result value) (ps : list Provider)
  : list Provider :=
  filter (fun p => match fetch p with
                   | Raise (ProviderError _) => true
                   | _ => false
                   end) ps.

(** A dictionary proper: no key occurs twice. *)
Definition dict_wf (d : dict) : Prop := NoDup (map fst d).

(** ** Fixtures: the providers of the repository's API tests *)

Definition endpoint (path : string) (args : list (string * value)) : value :=
  VDict [("request", VDict [("path", VStr path); ("args", VDict args)]);
         ("response", VDict [("path", VStr "rates")])].

Definition query_args : list (string * value) :=
  [("source_currency_code", VStr "base");
   ("exchanged_currency_code", VStr "symbols")].

(** The configuration of "Test JSON Provider". *)
Definition json_config : value :=
  VDict [("auth", VDict []);
         ("endpoints",
          VDict [("latest", endpoint "mock_latest.json" query_args);
                 ("historical", endpoint "mock_historical.json" query_args)])].

(** The configuration of "Test HTTP Provider". *)
Definition http_config : value :=
  VDict [("auth", VDict [("type", VStr "query_param"); ("access_key", VStr "")]);
         ("domain", VStr "http://data.fixer.io/api/");
         ("endpoints",
          VDict [("latest",
                  endpoint "latest" (("access_key", VStr "access_key") :: query_args));
                 ("historical",
                  endpoint "$date" (("access_key", VStr "access_key") :: query_args))])].

Definition json_provider (priority : Z) (force_base : option string) : Provider :=
  mkProvider "Test JSON Provider" priority "assets/" json_config "json" force_base.

Definition http_provider (priority : Z) (force_base : option string) : Provider :=
  mkProvider "Test HTTP Provider" priority "http://data.fixer.io/api/"
             http_config "http" force_base.

(** A provider of the third resource type that [models.py] offers. *)
Definition csv_provider (priority : Z) : Provider :=
  mkProvider "CSV Provider" priority "assets/rates.csv" (VDict []) "csv" None.

(** A world without network or files. *)
Definition offline (today : date) : World :=
  mkWorld (fun _ _ => Raise (OSError "connection refused"))
          (fun _ => Raise (OSError "No such file or directory"))
          today.

Definition jan (d : N) : date := mkdate 2024 1 d.

Definition test_currencies : list string := ["EUR"; "USD"; "GBP"; "CHF"].

(** ** Rebasing a collection of rates *)

(** The value of the first element of [l] whose key is [c]. *)
Fixpoint lookup_by {A : Type} (key : A -> string) (val : A -> value)
    (c : string) (l : list A) : option value :=
  match l with
  | [] => None
  | a :: l' => if String.eqb c (key a) then Some (val a) else lookup_by key val c l'
  end.

(** [kv] is the pair [key: round(val / base_rate, 6)] made from [a]. *)
Definition rebased {A : Type} (key : A -> string) (val : A -> value)
    (base_rate : value) (a : A) (kv : string * value) : Prop :=
  exists v, rebase (val a) base_rate = Ok v /\ kv = (key a, v).

(** [float("1.1")] and [float("0.9")] *)
Definition f1_1 : Flt.t := Flt.of_ratio false 11 10.
Definition f0_9 : Flt.t := Flt.of_ratio false 9 10.

(** EUR-based rates as the HTTP provider reports them. *)
Definition eur_rates : dict := [("USD", VFloat f1_1); ("GBP", VFloat f0_9)].

Definition is_str (v : option value) (s : string) : bool :=
  match v with
  | Some (VStr s') => String.eqb s' s
  | _ => false
  end.

(** An HTTP provider that answers one request only: the rates of EUR
    against "GBP,USD", on its latest endpoint and for 2024-01-24. Any other
    request gets an answer without rates. *)
Definition eur_api (rates : dict) : World :=
  mkWorld
    (fun url payload =>
       if (String.eqb url "http://data.fixer.io/api/latest"
           || String.eqb url "http://data.fixer.io/api/2024-01-24")
          && is_str (dict_get "base" payload) "EUR"
          && is_str (dict_get "symbols" payload) "GBP,USD"
       then Ok (VDict [("base", VStr "EUR"); ("rates", VDict rates)])
       else Ok (VDict [("error", VStr "invalid request")]))
    (fun _ => Raise (OSError "No such file or directory"))
    (jan 25).

(** The adapter built from the configuration of "Test HTTP Provider". *)
Definition http_adapter : HttpJsonAdapter.t :=
  HttpJsonAdapter.mk "http://data.fixer.io/api/" (VStr "")
    (VStr "latest") (VDict (("access_key", VStr "access_key") :: query_args))
    (VStr "rates")
    (VStr "$date") (VDict (("access_key", VStr "access_key") :: query_args))
    (VStr "rates").

(** 1.1/0.9 as a binary64, converted exactly: 1.2222222222222223209... *)
Definition ratio_1_1_0_9 : Dec.t :=
  Dec.DFin false 122222222222222232090871330001391470432281494140625 (-50).

(** The file of latest rates of the JSON provider: one record per base. *)
Definition latest_file : value :=
  VList [VDict [("base", VStr "EUR"); ("date", VStr "2024-01-25");
                ("rates", VDict eur_rates)]].

(** The file of historical rates of the JSON provider, in the format the
    repository's mock-data task writes: one record per base and date. *)
Definition historical_file : value :=
  VList [VDict [("base", VStr "EUR"); ("date", VStr "2024-01-25");
                ("rates",
                 VDict [("USD", VFloat (Flt.of_ratio false 1082573 1000000));
                        ("CHF", VFloat (Flt.of_ratio false 939527 1000000));
                        ("GBP", VFloat (Flt.of_ratio false 852586 1000000))])]].

(** A world whose only resources are these two files. *)
Definition file_world : World :=
  mkWorld (fun _ _ => Raise (OSError "connection refused"))
          (fun path => if String.eqb path "assets/mock_latest.json"
                       then Ok latest_file
                       else if String.eqb path "assets/mock_historical.json"
                       then Ok historical_file
                       else Raise (OSError "No such file or directory"))
          (jan 25).

(** The adapter built from the configuration of "Test JSON Provider". *)
Definition file_adapter : FileJsonAdapter.t :=
  FileJsonAdapter.mk "assets/" (VStr "")
    (VStr "mock_latest.json")
    (VDict [("path", VStr "mock_latest.json"); ("args", VDict query_args)])
    (VStr "rates")
    (VStr "mock_historical.json")
    (endpoint "mock_historical.json" query_args)
    (VStr "rates").

Definition is_mapping (v : value) : bool :=
  match v with
  | VDict _ => true
  | _ => false
  end.

(** ** Fixtures: stored rates *)

(** A stored rate: six fractional digits. *)
Definition stored (micro : N) : value := VDec (Dec.DFin false micro (-6)).

(** The store of the scenario of [get_weighted_ror]: EUR as exchanged
    currency under source USD, 1.0 on 2024-01-23 and 0.900611 on
    2024-01-24. *)
Definition usd_store : DB :=
  mkDB test_currencies
       [mkRate "USD" "EUR" (jan 23) (stored 1000000);
        mkRate "USD" "EUR" (jan 24) (stored 900611)]
       [].

(** The same two days with the EUR-based rates of USD next to them, so that
    each date has a row for the source USD. *)
Definition usd_eur_store : DB :=
  mkDB test_currencies
       [mkRate "USD" "EUR" (jan 23) (stored 1000000);
        mkRate "EUR" "USD" (jan 23) (stored 1084776);
        mkRate "USD" "EUR" (jan 24) (stored 900611);
        mkRate "EUR" "USD" (jan 24) (stored 1075402)]
       [].

(** A store whose only provider is the JSON provider, forced to the base
    EUR. *)
Definition forced_json_db : DB :=
  mkDB test_currencies [] [json_provider 1 (Some "EUR")].

(** A store whose only provider is the HTTP provider, forced to the base
    EUR. *)
Definition forced_http_db : DB :=
  mkDB test_currencies [] [http_provider 1 (Some "EUR")].

(** ** Stored rates of a date group *)

(** The row of the group that gives the rate of [src]: the first whose
    exchanged currency is [src]. *)
Definition base_row (src : string) (rows : list CurrencyExchangeRate)
  : option CurrencyExchangeRate :=
  find (fun item => String.eqb (exchanged_currency item) src) rows.

(** The stored rate of [c] in the group: that of the last row whose
    exchanged currency is [c]. *)
Definition stored_rate (c : string) (rows : list CurrencyExchangeRate)
  : option value :=
  lookup_by exchanged_currency rate_value c (rev rows).

(** [round(1 / base_rate, 6)] *)
Definition inverse (base_rate : value) : result value :=
  q <- py_int_truediv 1 base_rate ;; py_round6 q.

(** The RateMap [rm] is the one of the group [g] rebased to [src]. *)
Definition rate_map_of (src : string) (g : date * list CurrencyExchangeRate)
    (rm : value) : Prop :=
  exists base rates eur,
    base_row src (snd g) = Some base /\
    rm = VDict [("date", VDate (fst g)); ("rates", VDict rates)] /\
    inverse (rate_value base) = Ok eur /\
    dict_get "EUR" rates = Some eur /\
    dict_get src rates = None /\
    (forall c r, c <> src -> c <> "EUR" -> stored_rate c (snd g) = Some r ->
       exists v, rebase r (rate_value base) = Ok v /\ dict_get c rates = Some v) /\
    (forall c, c <> "EUR" -> stored_rate c (snd g) = None ->
       dict_get c rates = None).

(** Every rate of the group can be rebased to [src]. *)
Definition rebasable (src : string) (g : date * list CurrencyExchangeRate) : Prop :=
  exists base,
    base_row src (snd g) = Some base /\
    (exists eur, inverse (rate_value base) = Ok eur) /\
    (forall r, In r (snd g) -> exchanged_currency r <> src ->
       exists v, rebase (rate_value r) (rate_value base) = Ok v).

(** A date group with a row for EUR as exchanged currency: next to the
    EUR-based rate of USD, the rate of EUR stored under the source GBP. *)
Definition eur_row_store : DB :=
  mkDB test_currencies
       [mkRate "EUR" "USD" (jan 23) (stored 2000000);
        mkRate "GBP" "EUR" (jan 23) (stored 4000000)]
       [].

(** EUR-based rates of USD and GBP on one date. *)
Definition eur_based_store : DB :=
  mkDB test_currencies
       [mkRate "EUR" "USD" (jan 23) (stored 2000000);
        mkRate "EUR" "GBP" (jan 23) (stored 3000000)]
       [].

(** ** Fixtures: the repository's adapter tests *)

(** The configuration of the file adapter in [test_adapters.py]. *)
Definition test_file_config : value :=
  VDict [("auth", VDict [("access_key", VStr "test_key")]);
         ("endpoints",
          VDict [("latest",
                  VDict [("request", VDict [("path", VStr "test_latest_path")]);
                         ("response", VDict [("path", VStr "test_latest_response_path")])]);
                 ("historical",
                  VDict [("request", VDict [("path", VStr "test_historical_path")]);
                         ("response", VDict [("path", VStr "test_historical_response_path")])])])].

(** The configuration of the HTTP adapter in [test_adapters.py]. *)
Definition test_http_config : value :=
  let args := VDict [("source_currency_code", VStr "source");
                     ("exchanged_currency_code", VStr "exchanged")] in
  VDict [("auth", VDict [("access_key", VStr "access_key")]);
         ("endpoints",
          VDict [("latest",
                  VDict [("request", VDict [("path", VStr "/latest"); ("args", args)]);
                         ("response", VDict [("path", VStr "rates")])]);
                 ("historical",
                  VDict [("request", VDict [("path", VStr "/historical/$date");
                                            ("args", args)]);
                         ("response", VDict [("path", VStr "rates")])])])].

(** [json.load] mocked to return [data] whatever the file. *)
Definition mock_json_load (data : value) : World :=
  mkWorld (fun _ _ => Raise (OSError "connection refused"))
          (fun _ => Ok data) (jan 25).

(** [requests.get] mocked to return [response], provided it is called with
    [url] and the parameters of the test. *)
Definition mock_requests_get (url : string) (response : value) : World :=
  mkWorld (fun url' params =>
             if String.eqb url' url
                && is_str (dict_get "access_key" params) "access_key"
                && is_str (dict_get "source" params) "EUR"
                && is_str (dict_get "exchanged" params) "USD"
                && Nat.eqb (List.length params) 3
             then Ok response
             else Raise (OSError "unexpected call"))
          (fun _ => Raise (OSError "No such file or directory")) (jan 25).

Definition latest_records : value :=
  VList [VDict [("base", VStr "USD"); ("rates", VDict [("EUR", VStr "0.85")])];
         VDict [("base", VStr "GBP"); ("rates", VDict [("EUR", VStr "1.15")])]].

Definition historical_records : value :=
  VList [VDict [("date", VStr "2022-01-01"); ("base", VStr "USD");
                ("rates", VDict [("EUR", VStr "0.85")])];
         VDict [("date", VStr "2022-01-02"); ("base", VStr "GBP");
                ("rates", VDict [("EUR", VStr "1.15")])]].

(** [Decimal == Decimal] on a returned value. *)
Definition returns_decimal (r : result value) (expected : Dec.t) : bool :=
  match r with
  | Ok (VDec d) => Dec.eqb d expected
  | _ => false
  end.

Definition is_nan (d : Dec.t) : bool :=
  match d with
  | Dec.DNaN _ _ _ => true
  | _ => false
  end.

(** ** Further notions used to state the behaviour of the code *)

(** Where the loop of an orchestrator stops: at [p], after the providers
    [before], which all fell through. *)
Definition stops_at (fetch : Provider -> result value)
    (ps before : list Provider) (p : Provider) : Prop :=
  (exists after, ps = (before ++ p :: after)%list) /\
  Forall (falls_through fetch) before.

(** What the loop has logged when it stops after [tried]. *)
Definition logged (fetch : Provider -> result value) (log : list string)
    (tried : list Provider) : list string :=
  (log ++ map provider_failed (failed fetch tried))%list.

(** The codes looked up in [currencies] while the rows for the mapping [m]
    are built, in the order of the lookups. *)
Definition looked_up (src : string) (m : dict) : list string :=
  flat_map (fun kv => [src; fst kv]) m.

Definition known (db : DB) (code : string) : bool :=
  existsb (String.eqb code) (currencies db).

(** The rows that a historical fetch of [src] on [d] creates for the
    mapping [m] of symbols to rates. *)
Definition rows_of (src : string) (d : date) (m : dict)
  : list CurrencyExchangeRate :=
  map (fun kv => mkRate src (fst kv) d (snd kv)) m.

(** The historical record of the JSON provider's file for EUR on
    2024-01-25. *)
Definition eur_record : dict :=
  [("base", VStr "EUR"); ("date", VStr "2024-01-25");
   ("rates",
    VDict [("USD", VFloat (Flt.of_ratio false 1082573 1000000));
           ("CHF", VFloat (Flt.of_ratio false 939527 1000000));
           ("GBP", VFloat (Flt.of_ratio false 852586 1000000))])].

(** A store whose only provider is the JSON provider, without forced base. *)
Definition json_db (codes : list string) : DB :=
  mkDB codes [] [json_provider 1 None].

(** A store whose only provider is the HTTP provider, without forced base. *)
Definition http_db : DB :=
  mkDB test_currencies [] [http_provider 1 None].

(** An HTTP provider that answers every request with the mapping [rates]. *)
Definition any_api (rates : dict) : World :=
  mkWorld (fun _ _ => Ok (VDict [("base", VStr "EUR"); ("rates", VDict rates)]))
          (fun _ => Raise (OSError "No such file or directory"))
          (jan 25).

(** Strictly earlier. *)
Definition date_lt (a b : date) : Prop := date_leb a b = true /\ a <> b.

(** The rows of the date [d], in the order of the query. *)
Definition rows_on (d : date) (rows : list CurrencyExchangeRate)
  : list CurrencyExchangeRate :=
  filter (fun r => date_eqb (valuation_date r) d) rows.

(** The group of the date [d], if there is one. *)
Fixpoint group_of (d : date) (groups : list (date * list CurrencyExchangeRate))
  : option (list CurrencyExchangeRate) :=
  match groups with
  | [] => None
  | (d', rows) :: groups' => if date_eqb d d' then Some rows else group_of d groups'
  end.

(** The rows that [get_db_rates] selects. *)
Definition selected (src exch : string) (date_from date_to : date)
    (r : CurrencyExchangeRate) : bool :=
  if String.eqb src "EUR"
  then String.eqb (source_currency r) src
       && String.eqb (exchanged_currency r) exch
       && in_range date_from date_to r
  else in_range date_from date_to r.

Definition by_date (a b : CurrencyExchangeRate) : Prop :=
  date_leb (valuation_date a) (valuation_date b) = true.

(** The value under "date" of the map returned for the date [d]. *)
Definition date_entry (src : string) (d : date) : value :=
  if String.eqb src "EUR" then VStr (strftime d) else VDate d.

(** The map returned for the source EUR, a date and a single rate. *)
Definition eur_rate_map (exch : string) (d : date) (r : value) : value :=
  VDict [("date", VStr (strftime d)); ("rates", VDict [(exch, r)])].

(** The store after a call of [fetch_historical_rates_from_provider]. *)
Definition db_after (outcome : result value * DB * list string) : DB :=
  snd (fst outcome).

(** The map that [get_weighted_ror] returns around the list [twrrs]. *)
Definition ror_result (src exch : string) (amount : value) (start_date : date)
    (twrrs : list value) : value :=
  VDict [("base", VStr src); ("exchanged", VStr exch); ("amount", amount);
         ("start_date", VDate start_date); ("twrr", VList twrrs)].

(** What the comparison of a [datetime] with a [str] raises. *)
Definition datetime_str_comparison : exn :=
  TypeError
    "'<=' not supported between instances of 'datetime.datetime' and 'str'".

(** [p] comes strictly before [q] in [Provider.objects.order_by("priority")]. *)
Definition before_in_priority (q p : Provider) : Prop :=
  (priority q < priority p)%Z.

(** The provider whose outcome ended the loop over [ps], every provider of
    [ps] of smaller priority having fallen through. *)
Definition served_by (fetch : Provider -> result value) (ps : list Provider)
    (outcome : result value) (p : Provider) : Prop :=
  In p ps /\ fetch p = outcome /\
  forall q, In q ps -> before_in_priority q p -> falls_through fetch q.

(** The record [item] of a file of historical rates is the one of the date
    [str_date] and the base [src]. *)
Definition is_record_for (str_date src : string) (item : value) : Prop :=
  subscript item "date" = Ok (VStr str_date) /\
  subscript item "base" = Ok (VStr src).

(** The search of [get_historical_rates] reads [item] and goes on: it has
    a "date", and either that is not [str_date], or it has a "base" and
    that is not [src]. *)
Definition passed_over (str_date src : string) (item : value) : Prop :=
  exists d, subscript item "date" = Ok d /\
            (eq_str d str_date = false \/
             exists b, subscript item "base" = Ok b /\ eq_str b src = false).

(** [None] or a [Decimal]. *)
Definition none_or_decimal (v : value) : Prop :=
  v = VNone \/ exists d, v = VDec d.

(** [None] or a mapping that is not empty. *)
Definition none_or_mapping (v : value) : Prop :=
  v = VNone \/ exists items, v = VDict items /\ items <> [].

(** The entries of [data] that [reverse_rates] rebases: those of the other
    currencies. *)
Definition others (src : string) (data : dict) : dict :=
  filter (fun cr => negb (String.eqb (fst cr) src)) data.

(** EUR-based rates in which the rate of USD is 0.0. *)
Definition zero_usd_rates : dict :=
  [("USD", VFloat (Flt.of_ratio false 0 1)); ("GBP", VFloat f0_9)].

(** ** The converter view ([views.py]) *)

(** A [rest_framework.response.Response]: its data and its status. *)
Record Response : Type := mkResponse {
  response_data : value;
  status_code : N
}.

Definition HTTP_200_OK : N := 200.
Definition HTTP_500_INTERNAL_SERVER_ERROR : N := 500.

(** [CurrencyConverterView.get] once the serializer has validated the query
    parameters: [source_currency], [exchanged_currency] and [amount] are
    the three strings of [serializer.validated_data]. *)
Definition CurrencyConverterView_get (w : World) (db : DB) (log : list string)
    (source_currency exchanged_currency amount : string)
  : result Response * list string :=
  match Decimal_new (VStr amount) with
  | Raise e => (Raise e, log)
  | Ok amount =>
      match fetch_latest_rates_from_provider w db log
              source_currency exchanged_currency with
      | (Raise e, log') => (Raise e, log')
      | (Ok rate, log') =>
          if negb (truthy rate) then
            (Ok (mkResponse (VStr "Failed to fetch latest rates")
                            HTTP_500_INTERNAL_SERVER_ERROR), log')
          else
            match py_mul amount rate with
            | Ok res => (Ok (mkResponse res HTTP_200_OK), log')
            | Raise e => (Raise e, log')
            end
      end
  end.

(** The answer of the view when no rate could be fetched. *)
Definition failed_to_fetch : Response :=
  mkResponse (VStr "Failed to fetch latest rates") HTTP_500_INTERNAL_SERVER_ERROR.

(** A signal of [Decimal] arithmetic that the default context traps. *)
Definition is_decimal_signal (e : exn) : bool :=
  match e with
  | DecimalInvalidOperation | DecimalOverflow | DecimalDivisionByZero => true
  | _ => false
  end.

(** ** The periodic task ([tasks.py]) *)

Definition is_leap (y : N) : bool :=
  ((y mod 4 =? 0) && (negb (y mod 100 =? 0) || (y mod 400 =? 0)))%N.

Definition days_in_month (y m : N) : N :=
  if (m =? 2)%N then (if is_leap y then 29 else 28)%N
  else if ((m =? 4) || (m =? 6) || (m =? 9) || (m =? 11))%N then 30%N
  else 31%N.

(** [d + timedelta(days=-1)] in the proleptic Gregorian calendar; [None]
    on 0001-01-01, the first day a [datetime] can hold, where the addition
    raises OverflowError. *)
Definition day_before (d : date) : option date :=
  if (1 <? day d)%N then Some (mkdate (year d) (month d) (day d - 1))
  else if (1 <? month d)%N
  then Some (mkdate (year d) (month d - 1)
                    (days_in_month (year d) (month d - 1)))
  else if (1 <? year d)%N then Some (mkdate (year d - 1) 12 31)
  else None.

(** What the task raises: the OverflowError of the date arithmetic, or an
    exception of a historical fetch. *)
Inductive task_exn : Type :=
| OverflowError (msg : string)
| Propagated (e : exn).

(** The keys of [{c["code"]: c["id"] for c in Currency.objects.all()}], in
    the order in which iterating the dictionary yields them. *)
Definition currency_codes (db : DB) : list string :=
  fold_left (fun keys c =>
               if existsb (String.eqb c) keys then keys else (keys ++ [c])%list)
            (currencies db) [].

(** [itertools.permutations(l, 2)]: the pairs of elements at two different
    positions, in the order of the first and then of the second position.
    [before] holds the elements before those of [after]. *)
Fixpoint pairs_from {A : Type} (before after : list A) : list (A * A) :=
  match after with
  | [] => []
  | x :: after' =>
      (map (pair x) (before ++ after') ++ pairs_from (before ++ [x]) after')%list
  end.

Definition permutations2 {A : Type} (l : list A) : list (A * A) :=
  pairs_from [] l.

(** The loop of [fetch_exchange_rates] over the pairs: the store and the
    log are threaded through the calls, and the first exception ends it. *)
Fixpoint fetch_pairs (w : World) (yesterday : date)
    (pairs : list (string * string)) (db : DB) (log : list string)
  : result unit * DB * list string :=
  match pairs with
  | [] => (Ok tt, db, log)
  | pair_ :: pairs' =>
      match fetch_historical_rates_from_provider w db log
              (fst pair_) (snd pair_) yesterday with
      | (Raise e, db', log') => (Raise e, db', log')
      | (Ok _, db', log') => fetch_pairs w yesterday pairs' db' log'
      end
  end.

(** [fetch_exchange_rates]: what it raises ([None] when it returns), the
    store, the log of the services, and [info], what the task's own logger
    has written. *)
Definition fetch_exchange_rates (w : World) (db : DB) (log info : list string)
  : option task_exn * DB * list string * list string :=
  let currencies := currency_codes db in
  match day_before (datetime_today w) with
  | None => (Some (OverflowError "date value out of range"), db, log, info)
  | Some yesterday =>
      match fetch_pairs w yesterday (permutations2 currencies) db log with
      | (Raise e, db', log') => (Some (Propagated e), db', log', info)
      | (Ok _, db', log') =>
          (None, db', log', (info ++ ["Exchange rates updated"])%list)
      end
  end.

(** EUR-based rates of USD and GBP on one date, the rate of USD being 0. *)
Definition zero_usd_store : DB :=
  mkDB test_currencies
       [mkRate "EUR" "USD" (jan 23) (stored 0);
        mkRate "EUR" "GBP" (jan 23) (stored 3000000)]
       [].

(** The stored rate of the row is a finite [Decimal]. *)
Definition finite_rate (r : CurrencyExchangeRate) : Prop :=
  exists x, rate_value r = VDec x /\ is_finite x = true.

(** The adapter of [provider] cannot be built: its constructor raises [e]. *)
Definition misconfigured (provider : Provider) (e : exn) : Prop :=
  (resource_type provider = "http" /\
   HttpJsonAdapter.init (address provider) (config provider) = Raise e) \/
  (resource_type provider = "json" /\
   FileJsonAdapter.init (address provider) (config provider) = Raise e).

(** A JSON provider whose configuration has no "endpoints". *)
Definition bare_provider (priority : Z) : Provider :=
  mkProvider "Bare Provider" priority "assets/" (VDict [("auth", VDict [])])
             "json" None.

(** The search of [get_latest_rate] reads [item] and goes on: it has a
    "base", and that is not [src]. *)
Definition other_base (src : string) (item : value) : Prop :=
  exists b, subscript item "base" = Ok b /\ eq_str b src = false.

(** What [None[key]] raises. *)
Definition none_not_subscriptable : exn :=
  TypeError "object is not subscriptable".

(** EUR-based rates on three dates: USD and GBP on the first, GBP alone on
    the second, and a zero rate of USD on the third. *)
Definition missing_usd_store : DB :=
  mkDB test_currencies
       [mkRate "EUR" "USD" (jan 23) (stored 2000000);
        mkRate "EUR" "GBP" (jan 23) (stored 3000000);
        mkRate "EUR" "GBP" (jan 24) (stored 3000000);
        mkRate "EUR" "USD" (jan 25) (stored 0)]
       [].

(** What identifies a stored row apart from its rate: the source currency,
    the exchanged currency and the valuation date. *)
Definition row_key (r : CurrencyExchangeRate) : string * string * date :=
  (source_currency r, exchanged_currency r, valuation_date r).

(** The historical fetches for [pairs], made one after the other on the
    day [yesterday] from the store and the log [before], all return, and
    leave the store and the log [after]. *)
Inductive fetched (w : World) (yesterday : date)
  : list (string * string) -> DB * list string -> DB * list string -> Prop :=
| fetched_nil (st : DB * list string) : fetched w yesterday [] st st
| fetched_cons (a b : string) (pairs : list (string * string))
    (db : DB) (log : list string) (v : value) (db1 : DB) (log1 : list string)
    (st : DB * list string) :
    fetch_historical_rates_from_provider w db log a b yesterday
    = (Ok v, db1, log1) ->
    fetched w yesterday pairs (db1, log1) st ->
    fetched w yesterday ((a, b) :: pairs) (db, log) st.

(** A file of historical rates with a record for USD and one for EUR on
    2024-01-25, the second with a rate for CHF; read on 2024-01-26. *)
Definition two_record_world : World :=
  mkWorld (fun _ _ => Raise (OSError "connection refused"))
          (fun path =>
             if String.eqb path "assets/mock_historical.json"
             then Ok (VList
                        [VDict [("base", VStr "USD"); ("date", VStr "2024-01-25");
                                ("rates",
                                 VDict [("EUR", VFloat (Flt.of_ratio false 9235 10000))])];
                         VDict eur_record])
             else Raise (OSError "No such file or directory"))
          (jan 26).
(** * Properties *)

(** Closed facts are settled by evaluation. *)
Ltac split_conj := repeat match goal with |- _ /\ _ => split end.
Ltac by_computation := split_conj; vm_compute; reflexivity.

(** ** The error monad *)

Lemma bind_Ok_inv {A B : Type} (m : result A) (k : A -> result B) (b : B) :
  bind m k = Ok b -> exists a, m = Ok a /\ k a = Ok b.
Proof.
  destruct m as [a | e]; simpl; intros H; [eauto | discriminate].
Qed.

Lemma bind_Raise_inv {A B : Type} (m : result A) (k : A -> result B) (e : exn) :
  bind m k = Raise e -> m = Raise e \/ exists a, m = Ok a /\ k a = Raise e.
Proof.
  destruct m as [a | e']; simpl; intros H; [right; eauto | left; congruence].
Qed.

Lemma foldM_app {A B : Type} (f : A -> B -> result A) (l1 l2 : list B) (a : A) :
  foldM f (l1 ++ l2)%list a = bind (foldM f l1 a) (foldM f l2).
Proof.
  revert a; induction l1 as [| b l1 IH]; intros a; simpl; [reflexivity |].
  destruct (f a b) as [a' | e]; simpl; [apply IH | reflexivity].
Qed.

Lemma foldM_ext_in {A B : Type} (f g : A -> B -> result A) (l : list B) (a : A) :
  (forall b s, In b l -> f s b = g s b) -> foldM f l a = foldM g l a.
Proof.
  revert a; induction l as [| b l IH]; intros a H; simpl; [reflexivity |].
  rewrite (H b a (or_introl eq_refl)).
  destruct (g a b) as [a' | e]; simpl; [| reflexivity].
  apply IH; intros b' s Hin; apply H; right; exact Hin.
Qed.

Lemma mapM_Ok_Forall2 {A B : Type} (f : A -> result B) (l : list A) (bs : list B) :
  mapM f l = Ok bs <-> Forall2 (fun a b => f a = Ok b) l bs.
Proof.
  revert bs; induction l as [| a l IH]; intros bs; simpl.
  - split; intros H; [inversion H; constructor | inversion H; reflexivity].
  - split; intros H.
    + apply bind_Ok_inv in H; destruct H as (b & Hb & H).
      apply bind_Ok_inv in H; destruct H as (bs' & Hbs & H).
      inversion H; subst; constructor; [exact Hb | apply IH; exact Hbs].
    + inversion H as [| a' b l' bs' Hb Hrest]; subst.
      rewrite Hb; simpl. apply IH in Hrest; rewrite Hrest; reflexivity.
Qed.

Lemma mapM_Raise_In {A B : Type} (f : A -> result B) (l : list A) (e : exn) :
  mapM f l = Raise e -> exists a, In a l /\ f a = Raise e.
Proof.
  induction l as [| a l IH]; simpl; [discriminate |].
  destruct (f a) as [b | e'] eqn:Ha; simpl.
  - destruct (mapM f l) as [bs | e'']; simpl; [discriminate |].
    intros H; destruct IH as (a' & Hin & Ha'); [exact H |]; eauto.
  - intros H; inversion H; subst; eauto.
Qed.

Lemma mapM_In_Raise {A B : Type} (f : A -> result B) (l : list A) (a : A) (e : exn) :
  In a l -> f a = Raise e -> exists e', mapM f l = Raise e'.
Proof.
  induction l as [| a' l IH]; simpl; [intros [] |].
  intros [-> | Hin] Ha.
  - rewrite Ha; simpl; eauto.
  - destruct (f a') as [b | e']; simpl; [| eauto].
    destruct (IH Hin Ha) as (e'' & ->); simpl; eauto.
Qed.

(** ** The repository's unit tests, run on the model *)

(** [test_services.py]: the normal case, the empty series, the single rate
    and the zero first rate. *)
Example test_calculate_twrr :
  (exists p1 p2,
     calculate_twrr (map row_of test_series) test_amount = Ok [p1; p2] /\
     subscript p1 "date" = Ok (VStr "2021-01-02") /\
     returns_decimal (subscript p1 "twrr") (Dec.of_Z 1050) = true /\
     subscript p2 "date" = Ok (VStr "2021-01-03") /\
     returns_decimal (subscript p2 "twrr") (Dec.of_Z 1100) = true) /\
  calculate_twrr [] test_amount = Ok [] /\
  calculate_twrr [rate_row "2021-01-01" (Dec.of_Z 1)] test_amount = Ok [] /\
  (exists e,
     calculate_twrr [rate_row "2021-01-01" (Dec.of_Z 0);
                     rate_row "2021-01-02" (Dec.of_Z 1)] test_amount = Raise e /\
     is_zero_division e = true).
Proof.
  split_conj.
  - do 2 eexists; by_computation.
  - vm_compute; reflexivity.
  - vm_compute; reflexivity.
  - eexists; by_computation.
Qed.

(** [test_adapters.py], the file adapter. *)
Example test_file_json_adapter :
  exists adapter,
    FileJsonAdapter.init "test_address" test_file_config = Ok adapter /\
    returns_decimal
      (get_latest_rate (mock_json_load latest_records) adapter "GBP" "EUR")
      (Dec.DFin false 115 (-2)) = true /\
    get_latest_rate (mock_json_load latest_records) adapter "JPY" "EUR"
      = Raise (ProviderError "Source currency was not found in the file.") /\
    get_historical_rates (mock_json_load historical_records) adapter
      "GBP" "EUR" (mkdate 2022 1 2)
      = Ok (VDict [("date", VStr "2022-01-02"); ("base", VStr "GBP");
                   ("rates", VDict [("EUR", VStr "1.15")])]) /\
    get_historical_rates (mock_json_load historical_records) adapter
      "JPY" "EUR" (mkdate 2022 1 2) = Ok VNone.
Proof.
  eexists; by_computation.
Qed.

(** [test_adapters.py], the HTTP adapter. *)
Example test_http_json_adapter :
  exists adapter,
    HttpJsonAdapter.init "http://test.com" test_http_config = Ok adapter /\
    returns_decimal
      (get_latest_rate
         (mock_requests_get "http://test.com/latest"
            (VDict [("rates", VDict [("USD", VStr "1.23")])]))
         adapter "EUR" "USD")
      (Dec.DFin false 123 (-2)) = true /\
    (exists m,
       get_latest_rate
         (mock_requests_get "http://test.com/latest"
            (VDict [("rates", VDict [])]))
         adapter "EUR" "USD" = Raise (ProviderError m)) /\
    get_historical_rates
      (mock_requests_get "http://test.com/historical/2019-01-01"
         (VDict [("rates", VDict [("2019-01-01", VStr "1.23")])]))
      adapter "EUR" "USD" (mkdate 2019 1 1)
      = Ok (VDict [("2019-01-01", VStr "1.23")]) /\
    (exists m,
       get_historical_rates
         (mock_requests_get "http://test.com/historical/2019-01-01"
            (VDict [("rates", VDict [])]))
         adapter "EUR" "USD" (mkdate 2019 1 1) = Raise (ProviderError m)).
Proof.
  eexists; split_conj; try (vm_compute; reflexivity);
    eexists; vm_compute; reflexivity.
Qed.

(** ** Arithmetic *)

(** The order of the factors of a product does not matter, two NaN
    operands apart (the result is the first of them). *)
Lemma py_mul_comm (a b : value) :
  (forall x y, a = VDec x -> b = VDec y -> is_nan x && is_nan y = false) ->
  py_mul a b = py_mul b a.
Proof.
  intros Hnan; destruct a as [| | x | x | | |], b as [| | y | y | | |];
    try reflexivity.
  - simpl; f_equal; f_equal.
    destruct x as [sx | sx | | sx mx ex], y as [sy | sy | | sy my ey];
      simpl; try reflexivity; try (rewrite xorb_comm; reflexivity).
    rewrite xorb_comm, Pos.mul_comm, Z.add_comm; reflexivity.
  - specialize (Hnan x y eq_refl eq_refl).
    simpl; f_equal.
    destruct x as [sx nx ex | sx | sx [|] px], y as [sy ny ey | sy | sy [|] py];
      try discriminate; unfold Dec.mul; simpl; try reflexivity;
      try (rewrite xorb_comm; reflexivity).
    rewrite xorb_comm, N.mul_comm, Z.add_comm; reflexivity.
Qed.

(** ** [calculate_twrr] *)

Lemma foldM_single {A B : Type} (f : A -> B -> result A) (b : B) (a : A) :
  foldM f [b] a = f a b.
Proof.
  simpl; destruct (f a b); reflexivity.
Qed.

Lemma rows_nth_error (rows : list value) (series : list (value * value)) :
  Forall2 has_rate_and_date rows series ->
  forall i d r, nth_error series i = Some (d, r) ->
  exists row, list_getitem rows i = Ok row /\
              subscript row "valuation_date" = Ok d /\
              subscript row "rate_value" = Ok r.
Proof.
  unfold list_getitem.
  induction 1 as [| row dr rows series [Hd Hr] _ IH]; intros i d r Hi.
  - destruct i; discriminate.
  - destruct i as [| i]; simpl in *.
    + inversion Hi; subst; simpl in *; eauto.
    + apply IH; exact Hi.
Qed.

Lemma rates_getitem (series : list (value * value)) (i : nat) (v : value) :
  list_getitem (map snd series) i = Ok v ->
  exists d, nth_error series i = Some (d, v).
Proof.
  unfold list_getitem; rewrite nth_error_map.
  destruct (nth_error series i) as [[d r] |]; simpl; intros H; inversion H; eauto.
Qed.

Lemma product_formula_S (rates : list value) (k : nat) :
  product_formula rates (S k) =
  bind (product_formula rates k)
       (fun acc => d <- daily_return rates (S k) ;; py_mul acc d).
Proof.
  unfold product_formula.
  rewrite seq_S, foldM_app; simpl.
  destruct (foldM _ (seq 1 k) _) as [acc | e]; simpl; [| reflexivity].
  destruct (daily_return rates (S k)) as [d | e]; simpl; [| reflexivity].
  destruct (py_mul acc d); reflexivity.
Qed.

(** The loop invariant: after the turns [1..m] the state holds the running
    product and the points of the formula. *)
Lemma twrr_loop_spec (rows : list value) (series : list (value * value))
    (amount : value) :
  Forall2 has_rate_and_date rows series ->
  forall m : nat,
    (m < List.length series)%nat ->
    (forall k, (1 <= k <= m)%nat ->
               exists v, twrr_formula (map snd series) amount k = Ok v) ->
    exists p pts,
      foldM (twrr_step rows amount) (seq 1 m) (VDec Dec.one, []) = Ok (p, pts) /\
      product_formula (map snd series) m = Ok p /\
      List.length pts = m /\
      forall k, (1 <= k <= m)%nat ->
        exists d r v,
          nth_error series k = Some (d, r) /\
          twrr_formula (map snd series) amount k = Ok v /\
          nth_error pts (k - 1) = Some (twrr_point d r v).
Proof.
  intros Hrows m; induction m as [| m IH]; intros Hlen Hdef.
  - exists (VDec Dec.one), []; repeat split; intros; lia.
  - destruct IH as (p & pts & Hfold & Hprod & Hpts & Hnth);
      [lia | intros k Hk; apply Hdef; lia |].
    destruct (Hdef (S m)) as (v & Hv); [lia |].
    unfold twrr_formula in Hv.
    apply bind_Ok_inv in Hv; destruct Hv as (p' & Hp' & Hv).
    apply bind_Ok_inv in Hv; destruct Hv as (pa & Hpa & Hround).
    pose proof Hp' as Hp'S.
    rewrite product_formula_S, Hprod in Hp'; simpl in Hp'.
    apply bind_Ok_inv in Hp'; destruct Hp' as (dr & Hdr & Hmul).
    unfold daily_return in Hdr.
    apply bind_Ok_inv in Hdr; destruct Hdr as (cur & Hcur & Hdr).
    apply bind_Ok_inv in Hdr; destruct Hdr as (prev & Hprev & Hdiv).
    apply rates_getitem in Hcur; destruct Hcur as (dcur & Hcur).
    apply rates_getitem in Hprev; destruct Hprev as (dprev & Hprev).
    destruct (rows_nth_error Hrows _ Hcur) as (rcur & Hrcur & Hcd & Hcr).
    destruct (rows_nth_error Hrows _ Hprev) as (rprev & Hrprev & _ & Hpr).
    exists p', (pts ++ [twrr_point dcur cur v])%list.
    repeat split.
    + rewrite seq_S, foldM_app, Hfold; simpl.
      replace (m - 0)%nat with (S m - 1)%nat by lia.
      rewrite Hrprev; simpl. rewrite Hpr; simpl.
      rewrite Hrcur; simpl. rewrite Hcr; simpl.
      rewrite Hdiv; simpl. rewrite Hmul; simpl.
      rewrite Hpa; simpl. rewrite Hround; simpl.
      rewrite Hcd; simpl. reflexivity.
    + exact Hp'S.
    + rewrite length_app; simpl; lia.
    + intros k Hk.
      destruct (Nat.eq_dec k (S m)) as [-> | Hne].
      * exists dcur, cur, v; repeat split.
        -- exact Hcur.
        -- unfold twrr_formula; rewrite Hp'S; simpl; rewrite Hpa; simpl; exact Hround.
        -- replace (S m - 1)%nat with (List.length pts + 0)%nat by lia.
           rewrite nth_error_app2 by lia.
           replace (List.length pts + 0 - List.length pts)%nat with O by lia.
           reflexivity.
      * destruct (Hnth k) as (d & r & v' & H1 & H2 & H3); [lia |].
        exists d, r, v'; repeat split; try assumption.
        rewrite nth_error_app1 by lia; exact H3.
Qed.

(** C1 (amended). For every series of maps carrying a date and a
    rate_value, of length n, and every amount such that
    round(product(rate[i]/rate[i-1] for i in 1..k) * amount, 6) is defined
    for every k in 1..n-1: [calculate_twrr] returns exactly n-1 points, the
    k-th carrying the date and rate_value of the (k+1)-th input and that
    value as twrr; with n = 0 or 1 it returns the empty list. *)
Theorem calculate_twrr_points (rows : list value)
    (series : list (value * value)) (amount : value) :
  Forall2 has_rate_and_date rows series ->
  (forall k, (1 <= k < List.length series)%nat ->
             exists v, twrr_formula (map snd series) amount k = Ok v) ->
  ((List.length series <= 1)%nat -> calculate_twrr rows amount = Ok []) /\
  exists pts,
    calculate_twrr rows amount = Ok pts /\
    List.length pts = (List.length series - 1)%nat /\
    forall k, (1 <= k < List.length series)%nat ->
      exists d r v,
        nth_error series k = Some (d, r) /\
        twrr_formula (map snd series) amount k = Ok v /\
        nth_error pts (k - 1) = Some (twrr_point d r v).
Proof.
  intros Hrows Hdef.
  pose proof (Forall2_length Hrows) as Hlen.
  unfold calculate_twrr; rewrite Hlen.
  destruct series as [| dr0 series'].
  - simpl; split; [reflexivity |].
    exists []; repeat split; simpl; intros; lia.
  - destruct (@twrr_loop_spec rows (dr0 :: series') amount Hrows
                (List.length series'))
      as (p & pts & Hfold & _ & Hpts & Hnth);
      [simpl; lia | intros k Hk; apply Hdef; simpl; lia |].
    simpl List.length; replace (S (List.length series') - 1)%nat
      with (List.length series') by lia.
    rewrite Hfold; simpl; split.
    + intros Hle; destruct pts; [reflexivity | simpl in Hpts; lia].
    + exists pts; repeat split; [exact Hpts |].
      intros k Hk; apply Hnth; lia.
Qed.

(** The repository's test series satisfies the hypotheses of C1. *)
Lemma calculate_twrr_points_witness :
  exists pts,
    calculate_twrr (map row_of test_series) test_amount = Ok pts /\
    List.length pts = 2%nat.
Proof.
  destruct (@calculate_twrr_points (map row_of test_series) test_series test_amount)
    as (_ & pts & Hcalc & Hlen & _).
  - repeat constructor.
  - intros k Hk; simpl in Hk.
    assert (Hcases : k = 1%nat \/ k = 2%nat) by lia.
    destruct Hcases as [-> | ->]; eexists; vm_compute; reflexivity.
  - exists pts; split; [exact Hcalc | exact Hlen].
Defined.

(** C1 as stated fails on a series whose first rate is zero: two maps go in
    and no point comes out, the division raises. *)
Lemma calculate_twrr_points_counterexample :
  Forall2 has_rate_and_date (map dec_row_of zero_first_series)
          (map (fun dr => (fst dr, VDec (snd dr))) zero_first_series) /\
  List.length zero_first_series = 2%nat /\
  calculate_twrr (map dec_row_of zero_first_series) test_amount
    = Raise DecimalDivisionByZero /\
  ~ (exists pts,
       calculate_twrr (map dec_row_of zero_first_series) test_amount = Ok pts /\
       List.length pts = 1%nat).
Proof.
  split_conj.
  - repeat constructor.
  - reflexivity.
  - vm_compute; reflexivity.
  - intros (pts & H & _); vm_compute in H; discriminate.
Qed.

Lemma dec_rows_nth_error (rows : list value) (series : list (value * Dec.t)) :
  Forall2 (fun row dr => has_rate_and_date row (fst dr, VDec (snd dr))) rows series ->
  forall i d r, nth_error series i = Some (d, r) ->
  exists row, list_getitem rows i = Ok row /\
              subscript row "valuation_date" = Ok d /\
              subscript row "rate_value" = Ok (VDec r).
Proof.
  unfold list_getitem.
  induction 1 as [| row dr rows series [Hd Hr] _ IH]; intros i d r Hi.
  - destruct i; discriminate.
  - destruct i as [| i]; simpl in *.
    + inversion Hi; subst; simpl in *; eauto.
    + apply IH; exact Hi.
Qed.

Lemma dec_div_by_zero (x z : Dec.t) :
  is_finite x = true -> is_finite z = true -> Dec.is_zero z = true ->
  Dec.div x z = Raise (division_signal x).
Proof.
  destruct x as [sx nx ex | |]; try discriminate.
  destruct z as [sz nz ez | |]; try discriminate.
  simpl; intros _ _ Hz; unfold Dec.div, division_signal; simpl.
  rewrite Hz; destruct (nx =? 0)%N; reflexivity.
Qed.

(** The turn of the loop whose divisor is a zero rate raises. *)
Lemma twrr_step_zero_rate (rows : list value) (series : list (value * Dec.t))
    (amount : value) (state : value * list value) (j : nat)
    (d d' : value) (z next : Dec.t) :
  Forall2 (fun row dr => has_rate_and_date row (fst dr, VDec (snd dr))) rows series ->
  nth_error series j = Some (d, z) ->
  nth_error series (S j) = Some (d', next) ->
  is_finite z = true -> is_finite next = true -> Dec.is_zero z = true ->
  twrr_step rows amount state (S j) = Raise (division_signal next).
Proof.
  intros Hrows Hj HSj Hfz Hfn Hz.
  destruct (dec_rows_nth_error Hrows _ Hj) as (rprev & Hrprev & _ & Hpr).
  destruct (dec_rows_nth_error Hrows _ HSj) as (rcur & Hrcur & _ & Hcr).
  unfold twrr_step; destruct state as [total pts].
  replace (S j - 1)%nat with j by lia.
  rewrite Hrprev; simpl. rewrite Hpr; simpl.
  rewrite Hrcur; simpl. rewrite Hcr; simpl.
  rewrite (dec_div_by_zero next z Hfn Hfz Hz); reflexivity.
Qed.

Lemma twrr_step_firstn (rows : list value) (amount : value) (m i : nat)
    (state : value * list value) :
  (i < m)%nat ->
  twrr_step (firstn m rows) amount state i = twrr_step rows amount state i.
Proof.
  intros Hi; unfold twrr_step, list_getitem.
  rewrite !nth_error_firstn.
  destruct (Nat.ltb_spec (i - 1) m) as [_ | ?]; [| lia].
  destruct (Nat.ltb_spec i m) as [_ | ?]; [| lia].
  reflexivity.
Qed.

(** C5 (amended). For every series of finite Decimal rates, a zero
    rate_value anywhere except the last element (the first included) makes
    [calculate_twrr] raise; when the turns before it succeed, what
    propagates is the division failure of the turn that divides by it:
    decimal.DivisionByZero, or decimal.InvalidOperation for 0/0. *)
Theorem calculate_twrr_zero_rate (rows : list value)
    (series : list (value * Dec.t)) (amount : value)
    (j : nat) (d d' : value) (z next : Dec.t) :
  Forall2 (fun row dr => has_rate_and_date row (fst dr, VDec (snd dr))) rows series ->
  Forall (fun dr => is_finite (snd dr) = true) series ->
  nth_error series j = Some (d, z) ->
  nth_error series (S j) = Some (d', next) ->
  Dec.is_zero z = true ->
  (exists e, calculate_twrr rows amount = Raise e) /\
  (forall pts, calculate_twrr (firstn (S j) rows) amount = Ok pts ->
     calculate_twrr rows amount = Raise (division_signal next) /\
     is_division_failure (division_signal next) = true).
Proof.
  intros Hrows Hfin Hj HSj Hz.
  pose proof (Forall2_length Hrows) as Hlen.
  assert (HSjlt : (S j < List.length series)%nat)
    by (apply nth_error_Some; rewrite HSj; discriminate).
  assert (Hfz : is_finite z = true).
  { rewrite Forall_forall in Hfin.
    apply (Hfin (d, z)); eapply nth_error_In; exact Hj. }
  assert (Hfn : is_finite next = true).
  { rewrite Forall_forall in Hfin.
    apply (Hfin (d', next)); eapply nth_error_In; exact HSj. }
  assert (Hseq : seq 1 (List.length rows - 1)
                 = (seq 1 j ++ S j :: seq (S (S j)) (List.length rows - 2 - j))%list).
  { replace (List.length rows - 1)%nat
      with (j + S (List.length rows - 2 - j))%nat by lia.
    rewrite seq_app; reflexivity. }
  assert (Hstep : forall state,
             foldM (twrr_step rows amount)
                   (S j :: seq (S (S j)) (List.length rows - 2 - j)) state
             = Raise (division_signal next)).
  { intros state; simpl.
    rewrite (@twrr_step_zero_rate rows series amount state j d d' z next
               Hrows Hj HSj Hfz Hfn Hz).
    reflexivity. }
  split.
  - unfold calculate_twrr; rewrite Hseq, foldM_app.
    destruct (foldM (twrr_step rows amount) (seq 1 j) (VDec Dec.one, []))
      as [state | e]; cbn [bind].
    + rewrite Hstep; cbn [bind]; eauto.
    + eauto.
  - intros pts Hprefix; split.
    + unfold calculate_twrr in Hprefix.
      rewrite length_firstn in Hprefix.
      replace (Nat.min (S j) (List.length rows) - 1)%nat with j in Hprefix by lia.
      rewrite (@foldM_ext_in _ _ _ (twrr_step rows amount)) in Hprefix.
      * unfold calculate_twrr; rewrite Hseq, foldM_app.
        destruct (foldM (twrr_step rows amount) (seq 1 j) (VDec Dec.one, []))
          as [state | e]; [| simpl in Hprefix; discriminate].
        cbn [bind]; rewrite Hstep; reflexivity.
      * intros i state Hi; apply in_seq in Hi.
        apply twrr_step_firstn; lia.
    + unfold division_signal; destruct (Dec.is_zero next); reflexivity.
Qed.

(** The repository's own test (zero first rate, one rate after it) is an
    instance of C5 as amended. *)
Lemma calculate_twrr_zero_rate_witness :
  calculate_twrr (map dec_row_of zero_first_series) test_amount
    = Raise DecimalDivisionByZero.
Proof.
  destruct (@calculate_twrr_zero_rate (map dec_row_of zero_first_series)
              zero_first_series test_amount 0
              (VStr "2021-01-01") (VStr "2021-01-02") (Dec.of_Z 0) (Dec.of_Z 1))
    as (_ & H).
  - repeat constructor.
  - repeat constructor.
  - reflexivity.
  - reflexivity.
  - reflexivity.
  - destruct (H []) as (Hraise & _); [reflexivity | exact Hraise].
Defined.

(** C5 as stated fails when the zero rate is the last element (here the
    second of two, so not the first): nothing divides by it and the call
    returns a point. *)
Lemma calculate_twrr_zero_rate_counterexample :
  nth_error zero_last_series 1 = Some (VStr "2021-01-02", Dec.of_Z 0) /\
  calculate_twrr (map dec_row_of zero_last_series) test_amount
    = Ok [twrr_point (VStr "2021-01-02") (VDec (Dec.of_Z 0))
                     (VDec (Dec.DFin false 0 (-6)))].
Proof.
  by_computation.
Qed.

(** ** The orchestrator loop *)

(** Providers that fall through are skipped: each ProviderError is logged,
    and the variable [data] stays falsy. *)
Lemma fetch_loop_skip (fetch : Provider -> result value)
    (before rest : list Provider) :
  Forall (falls_through fetch) before ->
  forall data log, truthy data = false ->
    exists data',
      truthy data' = false /\
      fetch_loop fetch (before ++ rest)%list data log
      = fetch_loop fetch rest data'
          (log ++ map provider_failed (failed fetch before))%list.
Proof.
  induction 1 as [| p before Hp _ IH]; intros data log Hdata.
  - exists data; split; [exact Hdata |]; simpl; rewrite app_nil_r; reflexivity.
  - destruct Hp as [(m & Hm) | (v & Hv & Hfalsy)].
    + destruct (IH data (log ++ [provider_failed p])%list Hdata) as (data' & Hd' & Heq).
      exists data'; split; [exact Hd' |].
      simpl; rewrite Hm, Heq; simpl; rewrite <- app_assoc; reflexivity.
    + destruct (IH v log Hfalsy) as (data' & Hd' & Heq).
      exists data'; split; [exact Hd' |].
      simpl; rewrite Hv, Hfalsy, Heq; reflexivity.
Qed.

(** The first provider with a truthy result ends the loop with that result. *)
Lemma fetch_loop_first_truthy (fetch : Provider -> result value)
    (before after : list Provider) (p : Provider) (v : value)
    (data : value) (log : list string) :
  Forall (falls_through fetch) before ->
  truthy data = false ->
  fetch p = Ok v -> truthy v = true ->
  fetch_loop fetch (before ++ p :: after)%list data log
  = (Ok v, (log ++ map provider_failed (failed fetch before))%list).
Proof.
  intros Hbefore Hdata Hv Htruthy.
  destruct (fetch_loop_skip (p :: after) Hbefore data log Hdata) as (data' & _ & ->).
  simpl; rewrite Hv, Htruthy; reflexivity.
Qed.

(** An exception other than ProviderError ends the loop and propagates. *)
Lemma fetch_loop_fatal (fetch : Provider -> result value)
    (before after : list Provider) (p : Provider) (e : exn)
    (data : value) (log : list string) :
  Forall (falls_through fetch) before ->
  truthy data = false ->
  fetch p = Raise e -> is_provider_error e = false ->
  fetch_loop fetch (before ++ p :: after)%list data log
  = (Raise e, (log ++ map provider_failed (failed fetch before))%list).
Proof.
  intros Hbefore Hdata He Hfatal.
  destruct (fetch_loop_skip (p :: after) Hbefore data log Hdata) as (data' & _ & ->).
  simpl; rewrite He; destruct e; try reflexivity; discriminate.
Qed.

(** When every provider falls through, the loop ends without an exception
    on a falsy [data]. *)
Lemma fetch_loop_exhausted (fetch : Provider -> result value)
    (ps : list Provider) (data : value) (log : list string) :
  Forall (falls_through fetch) ps ->
  truthy data = false ->
  exists data',
    truthy data' = false /\
    fetch_loop fetch ps data log
    = (Ok data', (log ++ map provider_failed (failed fetch ps))%list).
Proof.
  intros Hps Hdata.
  destruct (fetch_loop_skip [] Hps data log Hdata) as (data' & Hd' & Heq).
  rewrite app_nil_r in Heq; exists data'; split; [exact Hd' | exact Heq].
Qed.

(** When every provider raises ProviderError or yields [None], the loop
    ends on [None]. *)
Lemma fetch_loop_exhausted_None (fetch : Provider -> result value)
    (ps : list Provider) (log : list string) :
  Forall (fun p => (exists m, fetch p = Raise (ProviderError m)) \/
                   fetch p = Ok VNone) ps ->
  fetch_loop fetch ps VNone log
  = (Ok VNone, (log ++ map provider_failed (failed fetch ps))%list).
Proof.
  intros Hps; revert log; induction Hps as [| p ps Hp _ IH]; intros log.
  - simpl; rewrite app_nil_r; reflexivity.
  - simpl; destruct Hp as [(m & ->) | ->]; simpl.
    + rewrite IH, <- app_assoc; reflexivity.
    + apply IH.
Qed.

(** ** Unknown resource types *)

Lemma unknown_resource_type_raises (w : World) (p : Provider)
    (src exch : string) (d : date) :
  resource_type p <> "http" -> resource_type p <> "json" ->
  get_latest_from_provider w p src exch = Raise (unknown_resource_type p) /\
  get_hist_from_provider w p src exch d = Raise (unknown_resource_type p).
Proof.
  intros Hhttp Hjson.
  unfold get_latest_from_provider, get_hist_from_provider.
  destruct (String.eqb_spec (resource_type p) "http") as [E | _]; [contradiction |].
  destruct (String.eqb_spec (resource_type p) "json") as [E | _]; [contradiction |].
  split; reflexivity.
Qed.

(** C6. For a provider whose resource_type is neither "http" nor "json",
    the latest and the historical fetch raise the configuration error
    (a ValueError, not a ProviderError); when the orchestrator loop reaches
    that provider, the error is not caught: the whole call ends with it,
    whatever providers come next, and the historical path writes nothing
    to the store. *)
Theorem unknown_resource_type_aborts (w : World) (db : DB) (log : list string)
    (src exch : string) (d : date)
    (before after : list Provider) (p : Provider) :
  resource_type p <> "http" -> resource_type p <> "json" ->
  providers_by_priority db = (before ++ p :: after)%list ->
  (get_latest_from_provider w p src exch = Raise (unknown_resource_type p) /\
   get_hist_from_provider w p src exch d = Raise (unknown_resource_type p) /\
   is_provider_error (unknown_resource_type p) = false) /\
  (Forall (falls_through (fun q => get_latest_from_provider w q src exch)) before ->
   fst (fetch_latest_rates_from_provider w db log src exch)
   = Raise (unknown_resource_type p)) /\
  (Forall (falls_through (fun q => get_hist_from_provider w q src exch d)) before ->
   exists log',
     fetch_historical_rates_from_provider w db log src exch d
     = (Raise (unknown_resource_type p), db, log')).
Proof.
  intros Hhttp Hjson Hps.
  destruct (@unknown_resource_type_raises w p src exch d Hhttp Hjson) as [Hl Hh].
  repeat split; try assumption.
  - intros Hbefore.
    unfold fetch_latest_rates_from_provider; rewrite Hps.
    rewrite (@fetch_loop_fatal _ before after p (unknown_resource_type p));
      auto.
  - intros Hbefore.
    unfold fetch_historical_rates_from_provider; rewrite Hps.
    rewrite (@fetch_loop_fatal _ before after p (unknown_resource_type p));
      auto.
    eexists; reflexivity.
Qed.

(** A "csv" provider of priority 1 before the JSON provider: the latest
    fetch ends with the configuration error. *)
Lemma unknown_resource_type_aborts_witness :
  fst (fetch_latest_rates_from_provider (offline (jan 25))
         (mkDB test_currencies [] [json_provider 2 None; csv_provider 1])
         [] "EUR" "USD")
  = Raise (ValueError "Unknown provider resource type: csv").
Proof.
  destruct (@unknown_resource_type_aborts (offline (jan 25))
              (mkDB test_currencies [] [json_provider 2 None; csv_provider 1])
              [] "EUR" "USD" (jan 24)
              [] [json_provider 2 None] (csv_provider 1))
    as (_ & Hlatest & _).
  - discriminate.
  - discriminate.
  - reflexivity.
  - apply Hlatest; constructor.
Defined.

(** ** Dictionaries *)

Lemma dict_get_set (k k' : string) (v : value) (d : dict) :
  dict_get k (dict_set k' v d) = if String.eqb k k' then Some v else dict_get k d.
Proof.
  induction d as [| [k0 v0] d IH]; simpl.
  - reflexivity.
  - destruct (String.eqb_spec k' k0) as [-> | Hne]; simpl.
    + destruct (String.eqb k k0); reflexivity.
    + rewrite IH.
      destruct (String.eqb_spec k k0) as [-> | Hne'].
      * destruct (String.eqb_spec k0 k') as [E | _]; [congruence | reflexivity].
      * reflexivity.
Qed.

Lemma dict_get_app (k : string) (a b : dict) :
  dict_get k (a ++ b)%list
  = match dict_get k a with Some v => Some v | None => dict_get k b end.
Proof.
  induction a as [| [k0 v0] a IH]; simpl; [reflexivity |].
  destruct (String.eqb k k0); [reflexivity | exact IH].
Qed.

(** Later pairs win: looking a key up after the updates [items] finds its
    last pair in [items], or else what [d] had. *)
Lemma dict_get_fold_set (k : string) (items : list (string * value)) (d : dict) :
  dict_get k (fold_left (fun d kv => dict_set (fst kv) (snd kv) d) items d)
  = match dict_get k (rev items) with Some v => Some v | None => dict_get k d end.
Proof.
  revert d; induction items as [| [k0 v0] items IH]; intros d; simpl.
  - reflexivity.
  - rewrite IH, dict_get_app, dict_get_set; simpl.
    destruct (dict_get k (rev items)); [reflexivity |].
    destruct (String.eqb k k0); reflexivity.
Qed.

Lemma dict_get_of_items (k : string) (items : list (string * value)) :
  dict_get k (dict_of_items items) = dict_get k (rev items).
Proof.
  unfold dict_of_items; rewrite dict_get_fold_set.
  destruct (dict_get k (rev items)); reflexivity.
Qed.

Lemma dict_get_In (k : string) (v : value) (d : dict) :
  dict_get k d = Some v -> In (k, v) d.
Proof.
  induction d as [| [k0 v0] d IH]; simpl; [discriminate |].
  destruct (String.eqb_spec k k0) as [-> | _].
  - intros H; inversion H; left; reflexivity.
  - intros H; right; apply IH; exact H.
Qed.

Lemma dict_get_None_notin (k : string) (d : dict) :
  dict_get k d = None <-> ~ In k (map fst d).
Proof.
  induction d as [| [k0 v0] d IH]; simpl.
  - split; [intros _ [] | reflexivity].
  - destruct (String.eqb_spec k k0) as [-> | Hne].
    + split; [discriminate | intros H; exfalso; apply H; left; reflexivity].
    + rewrite IH; split; intros H.
      * intros [E | Hin]; [congruence | exact (H Hin)].
      * intros Hin; apply H; right; exact Hin.
Qed.

(** In a dictionary proper a pair is what the lookup of its key finds. *)
Lemma dict_get_wf_In (k : string) (v : value) (d : dict) :
  dict_wf d -> In (k, v) d -> dict_get k d = Some v.
Proof.
  unfold dict_wf; induction d as [| [k0 v0] d IH]; simpl; [intros _ [] |].
  intros Hnd [E | Hin]; inversion Hnd as [| ? ? Hnotin Hnd']; subst.
  - inversion E; subst; rewrite String.eqb_refl; reflexivity.
  - destruct (String.eqb_spec k k0) as [-> | _].
    + exfalso; apply Hnotin; apply (in_map fst) in Hin; exact Hin.
    + apply IH; assumption.
Qed.

Lemma dict_get_rev_wf (k : string) (d : dict) :
  dict_wf d -> dict_get k (rev d) = dict_get k d.
Proof.
  intros Hwf.
  assert (Hwf' : dict_wf (rev d)).
  { unfold dict_wf in *; rewrite map_rev.
    apply NoDup_rev; exact Hwf. }
  destruct (dict_get k d) as [v |] eqn:Hk.
  - apply dict_get_wf_In; [exact Hwf' |].
    apply in_rev; rewrite rev_involutive; apply dict_get_In; exact Hk.
  - apply dict_get_None_notin; rewrite map_rev; intros Hin.
    apply in_rev in Hin.
    apply dict_get_None_notin in Hk; exact (Hk Hin).
Qed.

(** ** Rebasing a collection of rates *)

Section Rebased.

Context {A : Type}.
Variables (key : A -> string) (val : A -> value) (base_rate : value).

Lemma mapM_rebased (l : list A) (out : list (string * value)) :
  mapM (fun a => v <- rebase (val a) base_rate ;; Ok (key a, v)) l = Ok out
  <-> Forall2 (rebased key val base_rate) l out.
Proof.
  rewrite mapM_Ok_Forall2; split; intros H.
  - eapply Forall2_impl; [| exact H].
    intros a kv Ha; simpl in Ha.
    apply bind_Ok_inv in Ha; destruct Ha as (v & Hv & E).
    inversion E; subst; exists v; split; [exact Hv | reflexivity].
  - eapply Forall2_impl; [| exact H].
    intros a kv (v & Hv & ->); simpl; rewrite Hv; reflexivity.
Qed.

Lemma rebased_rev (l : list A) (out : list (string * value)) :
  Forall2 (rebased key val base_rate) l out ->
  Forall2 (rebased key val base_rate) (rev l) (rev out).
Proof.
  induction 1 as [| a kv l out Ha _ IH]; simpl; [constructor |].
  apply Forall2_app; [exact IH | constructor; [exact Ha | constructor]].
Qed.

(** The rebased pairs answer a lookup as the collection does, with the
    rate rebased. *)
Lemma rebased_get (l : list A) (out : list (string * value)) (c : string) :
  Forall2 (rebased key val base_rate) l out ->
  match lookup_by key val c l with
  | Some r => exists v, rebase r base_rate = Ok v /\ dict_get c out = Some v
  | None => dict_get c out = None
  end.
Proof.
  induction 1 as [| a kv l out (v & Hv & ->) _ IH]; simpl; [reflexivity |].
  destruct (String.eqb c (key a)); [exists v; split; [exact Hv | reflexivity] | exact IH].
Qed.

(** If every rate can be rebased, the traversal succeeds. *)
Lemma mapM_rebased_total (l : list A) :
  (forall a, In a l -> exists v, rebase (val a) base_rate = Ok v) ->
  exists out,
    mapM (fun a => v <- rebase (val a) base_rate ;; Ok (key a, v)) l = Ok out.
Proof.
  induction l as [| a l IH]; intros H; simpl; [eauto |].
  destruct (H a (or_introl eq_refl)) as (v & ->); simpl.
  destruct IH as (out & ->); [intros a' Ha'; apply H; right; exact Ha' |].
  simpl; eauto.
Qed.

Lemma lookup_by_filter (c : string) (keep : string -> bool) (l : list A) :
  keep c = true ->
  lookup_by key val c (filter (fun a => keep (key a)) l) = lookup_by key val c l.
Proof.
  intros Hc; induction l as [| a l IH]; simpl; [reflexivity |].
  destruct (keep (key a)) eqn:Hk; simpl.
  - rewrite IH; reflexivity.
  - destruct (String.eqb_spec c (key a)) as [E | _]; [congruence | exact IH].
Qed.

Lemma lookup_by_filter_out (c : string) (keep : string -> bool) (l : list A) :
  keep c = false ->
  lookup_by key val c (filter (fun a => keep (key a)) l) = None.
Proof.
  intros Hc; induction l as [| a l IH]; simpl; [reflexivity |].
  destruct (keep (key a)) eqn:Hk; simpl; [| exact IH].
  destruct (String.eqb_spec c (key a)) as [E | _]; [congruence | exact IH].
Qed.

End Rebased.

Lemma lookup_by_pairs (c : string) (d : dict) :
  lookup_by fst snd c d = dict_get c d.
Proof.
  induction d as [| [k v] d IH]; simpl; [reflexivity |].
  rewrite IH; reflexivity.
Qed.

Lemma dict_wf_filter (f : string * value -> bool) (d : dict) :
  dict_wf d -> dict_wf (filter f d).
Proof.
  unfold dict_wf; induction d as [| kv d IH]; simpl; intros H; [exact H |].
  inversion H as [| ? ? Hnotin Hnd]; subst.
  destruct (f kv); simpl; [| apply IH; exact Hnd].
  constructor; [| apply IH; exact Hnd].
  intros Hin; apply Hnotin.
  apply in_map_iff in Hin; destruct Hin as (x & Hx & Hxin).
  apply filter_In in Hxin; destruct Hxin as [Hxin _].
  rewrite <- Hx; apply in_map; exact Hxin.
Qed.

Lemma filter_rev {A : Type} (f : A -> bool) (l : list A) :
  filter f (rev l) = rev (filter f l).
Proof.
  induction l as [| a l IH]; simpl; [reflexivity |].
  rewrite filter_app, IH; simpl.
  destruct (f a); simpl; [reflexivity | rewrite app_nil_r; reflexivity].
Qed.

(** ** [reverse_rates] *)

(** What [reverse_rates] computes on a dictionary that has the source
    currency. *)
Lemma reverse_rates_with_base (src : string) (raw : dict) (b : value) :
  dict_get src raw = Some b ->
  reverse_rates src (VDict raw)
  = bind (mapM (fun cr => v <- rebase (snd cr) b ;; Ok (fst cr, v))
               (filter (fun cr => negb (String.eqb (fst cr) src)) raw))
         (fun reversed_data => Ok (VDict (dict_of_items reversed_data))).
Proof.
  intros Hb; unfold reverse_rates; simpl; rewrite Hb; reflexivity.
Qed.

Lemma reverse_rates_entries (src : string) (raw : dict) (b out : value) :
  dict_wf raw ->
  dict_get src raw = Some b ->
  reverse_rates src (VDict raw) = Ok out ->
  exists items,
    out = VDict items /\
    dict_get src items = None /\
    (forall c r, c <> src -> dict_get c raw = Some r ->
       exists v, rebase r b = Ok v /\ dict_get c items = Some v) /\
    (forall c, dict_get c raw = None -> dict_get c items = None).
Proof.
  intros Hwf Hb Hout.
  rewrite (reverse_rates_with_base src raw Hb) in Hout.
  apply bind_Ok_inv in Hout; destruct Hout as (reversed & Hmap & E).
  inversion E; subst; clear E.
  apply mapM_rebased in Hmap; apply rebased_rev in Hmap.
  set (keep := fun c => negb (String.eqb c src)) in *.
  assert (Hget : forall c,
             lookup_by fst snd c
               (rev (filter (fun cr => keep (fst cr)) raw))
             = if keep c then dict_get c raw else None).
  { intros c; rewrite <- filter_rev.
    destruct (keep c) eqn:Hc.
    - rewrite lookup_by_filter by exact Hc.
      rewrite lookup_by_pairs; apply dict_get_rev_wf; exact Hwf.
    - apply lookup_by_filter_out; exact Hc. }
  exists (dict_of_items reversed); repeat split.
  - rewrite dict_get_of_items.
    pose proof (rebased_get src Hmap) as H.
    rewrite Hget in H; unfold keep in H; rewrite String.eqb_refl in H; exact H.
  - intros c r Hc Hr.
    rewrite dict_get_of_items.
    pose proof (rebased_get c Hmap) as H.
    rewrite Hget in H; unfold keep in H.
    destruct (String.eqb_spec c src) as [E | _]; [contradiction |].
    simpl in H; rewrite Hr in H; exact H.
  - intros c Hc.
    rewrite dict_get_of_items.
    pose proof (rebased_get c Hmap) as H.
    rewrite Hget in H; rewrite Hc in H.
    destruct (keep c); exact H.
Qed.

Lemma reverse_rates_total (src : string) (raw : dict) (b : value) :
  dict_get src raw = Some b ->
  (forall c r, In (c, r) raw -> c <> src -> exists v, rebase r b = Ok v) ->
  exists items, reverse_rates src (VDict raw) = Ok (VDict items).
Proof.
  intros Hb Hall.
  rewrite (reverse_rates_with_base src raw Hb).
  destruct (@mapM_rebased_total (string * value) fst snd b
              (filter (fun cr => negb (String.eqb (fst cr) src)) raw))
    as (out & ->).
  - intros [c r] Hin; apply filter_In in Hin; destruct Hin as [Hin Hc].
    simpl in *; apply (Hall c r Hin).
    destruct (String.eqb_spec c src); [discriminate | assumption].
  - simpl; eauto.
Qed.

(** C10. For every mapping without an entry for source_code,
    [reverse_rates] returns the empty mapping and raises nothing; a
    historical fetch through a provider with a forced base whose raw mapping
    lacks source_code therefore yields an empty, falsy result. *)
Theorem reverse_rates_missing_source {A : Type} `{FormalAdapterInterface A}
    (w : World) (adapter : A) (provider : Provider)
    (src exch base : string) (d : date) (raw : dict) :
  dict_get src raw = None ->
  reverse_rates src (VDict raw) = Ok (VDict []) /\
  (forced_base provider src = Some base ->
   get_historical_rates w adapter base (exch ++ "," ++ src) d = Ok (VDict raw) ->
   get_hist_with w adapter provider src exch d = Ok (VDict []) /\
   truthy (VDict []) = false).
Proof.
  intros Hnone.
  assert (Hrev : reverse_rates src (VDict raw) = Ok (VDict []))
    by (unfold reverse_rates; simpl; rewrite Hnone; reflexivity).
  split; [exact Hrev |].
  intros Hbase Hraw; split; [| reflexivity].
  unfold get_hist_with; rewrite Hbase, Hraw; simpl; exact Hrev.
Qed.

(** EUR-based rates without the source USD, rebased to USD: empty. *)
Lemma reverse_rates_missing_source_witness :
  reverse_rates "USD" (VDict [("GBP", VFloat f0_9)]) = Ok (VDict []) /\
  get_hist_with (eur_api [("GBP", VFloat f0_9)]) http_adapter
    (http_provider 1 (Some "EUR")) "USD" "GBP" (jan 24) = Ok (VDict []).
Proof.
  destruct (@reverse_rates_missing_source _ HttpJsonAdapter_interface
              (eur_api [("GBP", VFloat f0_9)]) http_adapter
              (http_provider 1 (Some "EUR")) "USD" "GBP" "EUR" (jan 24)
              [("GBP", VFloat f0_9)])
    as (Hrev & Hhist).
  - reflexivity.
  - split; [exact Hrev |].
    apply Hhist; vm_compute; reflexivity.
Defined.

(** C3 (amended). For a historical fetch through a provider whose
    force_base_currency is set and differs from source_code, where the
    adapter's raw result is a mapping that has an entry for source_code and
    the divisions by it are defined: the fetch returns the reverse-rates
    transform of that mapping; it maps every currency code c of the raw
    mapping other than source_code (so every code other than the forced
    base and the denominator) to round(raw[c] / raw[source_code], 6), has
    no entry for the denominator source_code, and no entry that the raw
    mapping lacks. *)
Theorem hist_forced_base_reverse_rates {A : Type} `{FormalAdapterInterface A}
    (w : World) (adapter : A) (provider : Provider)
    (src exch base : string) (d : date) (raw : dict) (b : value) :
  forced_base provider src = Some base ->
  get_historical_rates w adapter base (exch ++ "," ++ src) d = Ok (VDict raw) ->
  dict_wf raw ->
  dict_get src raw = Some b ->
  (forall c r, In (c, r) raw -> c <> src -> exists v, rebase r b = Ok v) ->
  exists items,
    get_hist_with w adapter provider src exch d = Ok (VDict items) /\
    reverse_rates src (VDict raw) = Ok (VDict items) /\
    dict_get src items = None /\
    (forall c r, c <> src -> dict_get c raw = Some r ->
       exists v, rebase r b = Ok v /\ dict_get c items = Some v) /\
    (forall c, dict_get c raw = None -> dict_get c items = None).
Proof.
  intros Hbase Hraw Hwf Hb Hall.
  destruct (@reverse_rates_total src raw b Hb Hall) as (items & Hrev).
  destruct (@reverse_rates_entries src raw b (VDict items) Hwf Hb Hrev)
    as (items' & E & Hsrc & Hmaps & Hnone).
  inversion E; subst items'; clear E.
  exists items; repeat split; try assumption.
  unfold get_hist_with; rewrite Hbase, Hraw; simpl; exact Hrev.
Qed.

(** EUR-based rates {USD: 1.1, GBP: 0.9} rebased to USD: one entry, for
    GBP. *)
Lemma hist_forced_base_reverse_rates_witness :
  exists items,
    get_hist_with (eur_api eur_rates) http_adapter
      (http_provider 1 (Some "EUR")) "USD" "GBP" (jan 24) = Ok (VDict items) /\
    dict_get "USD" items = None /\
    exists v, rebase (VFloat f0_9) (VFloat f1_1) = Ok v /\
              dict_get "GBP" items = Some v.
Proof.
  destruct (@hist_forced_base_reverse_rates _ HttpJsonAdapter_interface
              (eur_api eur_rates) http_adapter (http_provider 1 (Some "EUR"))
              "USD" "GBP" "EUR" (jan 24) eur_rates (VFloat f1_1))
    as (items & Hhist & _ & Hsrc & Hmaps & _).
  - reflexivity.
  - vm_compute; reflexivity.
  - repeat constructor; simpl; intuition discriminate.
  - reflexivity.
  - intros c r [E | [E | []]] Hc; inversion E; subst.
    + contradiction Hc; reflexivity.
    + eexists; vm_compute; reflexivity.
  - exists items; split_conj; try assumption.
    apply Hmaps; [discriminate | reflexivity].
Defined.

(** C3 as stated fails when the raw mapping has no entry for source_code:
    GBP is a currency code of the raw result {GBP: 0.9} and is not the
    forced base EUR, yet the fetch for the source USD returns the empty
    mapping, which has no entry for GBP. *)
Lemma hist_forced_base_reverse_rates_counterexample :
  forced_base (http_provider 1 (Some "EUR")) "USD" = Some "EUR" /\
  get_historical_rates (eur_api [("GBP", VFloat f0_9)]) http_adapter
    "EUR" "GBP,USD" (jan 24) = Ok (VDict [("GBP", VFloat f0_9)]) /\
  get_hist_from_provider (eur_api [("GBP", VFloat f0_9)])
    (http_provider 1 (Some "EUR")) "USD" "GBP" (jan 24) = Ok (VDict []) /\
  ~ (exists v, subscript (VDict []) "GBP" = Ok v).
Proof.
  split_conj; try (vm_compute; reflexivity).
  intros (v & Hv); discriminate.
Qed.

(** ** The latest rate through a forced base *)



(** ** Compound requests to the adapters *)

Example file_adapter_init :
  FileJsonAdapter.init "assets/" json_config = Ok file_adapter.
Proof. reflexivity. Qed.

Example http_adapter_init :
  HttpJsonAdapter.init "http://data.fixer.io/api/" http_config = Ok http_adapter.
Proof. reflexivity. Qed.

(** On a compound request the HTTP adapter returns the provider's mapping
    as it is. *)
Lemma http_latest_compound (w : World) (self : HttpJsonAdapter.t)
    (src exch path : string) (params : dict) (response rates : value) :
  str_contains "," exch = true ->
  HttpJsonAdapter.latest_endpoint_path self = VStr path ->
  HttpJsonAdapter.payload (HttpJsonAdapter.access_key self)
    (HttpJsonAdapter.latest_endpoint_args self) src exch = Ok params ->
  requests_get w (HttpJsonAdapter.address self ++ path) params = Ok response ->
  py_get_value response (HttpJsonAdapter.latest_response_path self) = Ok rates ->
  truthy rates = true ->
  HttpJsonAdapter.get_latest_rate w self src exch = Ok rates.
Proof.
  intros Hcomma Hpath Hparams Hresp Hrates Htruthy.
  unfold HttpJsonAdapter.get_latest_rate.
  rewrite Hpath; simpl. rewrite Hparams; simpl.
  rewrite Hresp; simpl. rewrite Hrates; simpl.
  rewrite Htruthy, Hcomma; reflexivity.
Qed.

(** Whatever the request, a value returned by the file adapter's
    [get_latest_rate] is a Decimal: never a mapping. *)
Lemma file_latest_is_scalar (w : World) (self : FileJsonAdapter.t)
    (src exch : string) (v : value) :
  FileJsonAdapter.get_latest_rate w self src exch = Ok v ->
  exists d, v = VDec d.
Proof.
  unfold FileJsonAdapter.get_latest_rate; intros H.
  apply bind_Ok_inv in H; destruct H as (path & _ & H).
  apply bind_Ok_inv in H; destruct H as (data & _ & H).
  apply bind_Ok_inv in H; destruct H as (items & _ & H).
  apply bind_Ok_inv in H; destruct H as (found & _ & H).
  destruct found as [rates |]; [| discriminate].
  apply bind_Ok_inv in H; destruct H as (rate & _ & H).
  unfold Decimal_new in H.
  destruct rate; try discriminate.
  - destruct (DecParse.parse s); inversion H; eauto.
  - inversion H; eauto.
  - inversion H; eauto.
Qed.

(** C9 at its failing input. The resource holds the rates of the base EUR
    for USD and GBP, and [get_latest_rate] is asked for "GBP,USD": the HTTP
    adapter returns the mapping, the file adapter looks the joined string up
    as one currency code and raises KeyError. *)
Theorem file_adapter_compound_request :
  str_contains "," "GBP,USD" = true /\
  get_latest_rate (eur_api eur_rates) http_adapter "EUR" "GBP,USD"
    = Ok (VDict eur_rates) /\
  get_latest_rate file_world file_adapter "EUR" "GBP,USD"
    = Raise (KeyError "GBP,USD") /\
  get_latest_rate file_world file_adapter "EUR" "GBP"
    = Ok (VDec (Flt.to_decimal f0_9)) /\
  get_latest_from_provider file_world (json_provider 1 (Some "EUR")) "USD" "GBP"
    = Raise (KeyError "GBP,USD").
Proof.
  by_computation.
Qed.

(** ** [get_weighted_ror] *)

(** A map produced by [process_db_rates] has the keys "date" and "rates"
    only. *)
Lemma process_group_keys (src : string)
    (group : date * list CurrencyExchangeRate) (v : value) :
  process_group src group = Ok v ->
  subscript v "rate_value" = Raise (KeyError "rate_value").
Proof.
  destruct group as [d rates]; unfold process_group.
  destruct (String.eqb src "EUR").
  - intros H; inversion H; reflexivity.
  - destruct (find _ rates) as [base |]; [| discriminate].
    intros H.
    apply bind_Ok_inv in H; destruct H as (processed & _ & H).
    apply bind_Ok_inv in H; destruct H as (q & _ & H).
    apply bind_Ok_inv in H; destruct H as (eur & _ & H).
    inversion H; reflexivity.
Qed.

Lemma period_rates_keys (db : DB) (src exch : string) (date_from date_to : date)
    (out : list value) :
  get_currency_rates_for_period db src exch date_from date_to = Ok out ->
  Forall (fun v => subscript v "rate_value" = Raise (KeyError "rate_value")) out.
Proof.
  unfold get_currency_rates_for_period, process_db_rates.
  destruct (get_db_rates db src exch date_from date_to) as [| r rs].
  - intros H; inversion H; constructor.
  - intros H; apply mapM_Ok_Forall2 in H.
    induction H as [| g v gs vs Hg _ IH]; constructor; [| exact IH].
    eapply process_group_keys; exact Hg.
Qed.

(** With two maps or more, the first turn of the loop of [calculate_twrr]
    reads "rate_value" from the first map. *)
Lemma calculate_twrr_first_rate (r0 r1 : value) (rest : list value)
    (amount : value) (e : exn) :
  subscript r0 "rate_value" = Raise e ->
  calculate_twrr (r0 :: r1 :: rest) amount = Raise e.
Proof.
  intros H; unfold calculate_twrr; simpl.
  rewrite H; reflexivity.
Qed.

(** Whatever the store, [get_weighted_ror] never returns a TwrrPoint: it
    raises, or returns an empty series. *)
Lemma get_weighted_ror_no_point (w : World) (db : DB) (src exch : string)
    (amount : value) (start_date : date) (v : value) :
  get_weighted_ror w db src exch amount start_date = Ok v ->
  subscript v "twrr" = Ok (VList []).
Proof.
  unfold get_weighted_ror; intros H.
  apply bind_Ok_inv in H; destruct H as (rates & Hrates & H).
  apply bind_Ok_inv in H; destruct H as (rates' & Hrates' & H).
  apply bind_Ok_inv in H; destruct H as (twrrs & Htwrrs & H).
  inversion H; subst; clear H.
  apply period_rates_keys in Hrates.
  destruct rates as [| r0 [| r1 rest]]; [discriminate | |];
    inversion Hrates'; subst; clear Hrates'.
  - vm_compute in Htwrrs; inversion Htwrrs; reflexivity.
  - inversion Hrates as [| ? ? Hr0 _]; subst.
    rewrite (@calculate_twrr_first_rate r0 r1 rest amount _ Hr0) in Htwrrs.
    discriminate.
Qed.

(** C8 at its failing input. With the store of the scenario,
    [get_weighted_ror("USD", "EUR", 1000, 2024-01-23)] finds no row for the
    source USD in the group of 2024-01-23 and raises ValueError; with the
    EUR-based rates of USD stored as well, the period's maps reach
    [calculate_twrr], which reads "rate_value" from maps keyed by "date" and
    "rates" and raises KeyError. No TwrrPoint is returned. *)
Theorem get_weighted_ror_scenario :
  get_weighted_ror (offline (jan 24)) usd_store "USD" "EUR"
    (VDec (Dec.of_Z 1000)) (jan 23)
  = Raise (ValueError "No base rate found for currency code USD") /\
  get_currency_rates_for_period usd_eur_store "USD" "EUR" (jan 23) (jan 24)
  = Ok [VDict [("date", VDate (jan 23));
               ("rates", VDict [("EUR", stored 921849)])];
        VDict [("date", VDate (jan 24));
               ("rates", VDict [("EUR", stored 929885)])]] /\
  get_weighted_ror (offline (jan 24)) usd_eur_store "USD" "EUR"
    (VDec (Dec.of_Z 1000)) (jan 23)
  = Raise (KeyError "rate_value").
Proof.
  by_computation.
Qed.

(** ** The orchestrators *)

(** The latest fetch returns the first truthy result in priority order;
    the ProviderErrors before it are logged and absorbed. *)
Lemma fetch_latest_first_truthy (w : World) (db : DB) (log : list string)
    (src exch : string) (before after : list Provider) (p : Provider)
    (v : value) :
  providers_by_priority db = (before ++ p :: after)%list ->
  Forall (falls_through (fun q => get_latest_from_provider w q src exch)) before ->
  get_latest_from_provider w p src exch = Ok v ->
  truthy v = true ->
  fetch_latest_rates_from_provider w db log src exch
  = (Ok v,
     (log ++ map provider_failed
        (failed (fun q => get_latest_from_provider w q src exch) before))%list).
Proof.
  intros Hps Hbefore Hv Htruthy.
  unfold fetch_latest_rates_from_provider; rewrite Hps.
  apply fetch_loop_first_truthy; auto.
Qed.

(** When every provider raises ProviderError or yields a falsy result, the
    latest fetch returns a falsy value and no exception escapes. *)
Lemma fetch_latest_exhausted (w : World) (db : DB) (log : list string)
    (src exch : string) :
  Forall (falls_through (fun q => get_latest_from_provider w q src exch))
         (providers_by_priority db) ->
  exists data,
    truthy data = false /\
    fetch_latest_rates_from_provider w db log src exch
    = (Ok data,
       (log ++ map provider_failed
          (failed (fun q => get_latest_from_provider w q src exch)
                  (providers_by_priority db)))%list).
Proof.
  intros Hall; unfold fetch_latest_rates_from_provider.
  apply fetch_loop_exhausted; [exact Hall | reflexivity].
Qed.

(** The historical fetch returns the first truthy result in priority order
    once it is written to the store. *)
Lemma fetch_historical_first_truthy (w : World) (db db' : DB)
    (log : list string) (src exch : string) (d : date)
    (before after : list Provider) (p : Provider) (v : value) :
  providers_by_priority db = (before ++ p :: after)%list ->
  Forall (falls_through (fun q => get_hist_from_provider w q src exch d)) before ->
  get_hist_from_provider w p src exch d = Ok v ->
  truthy v = true ->
  store_historical db v src exch d = Ok db' ->
  fetch_historical_rates_from_provider w db log src exch d
  = (Ok v, db',
     (log ++ map provider_failed
        (failed (fun q => get_hist_from_provider w q src exch d) before))%list).
Proof.
  intros Hps Hbefore Hv Htruthy Hstore.
  unfold fetch_historical_rates_from_provider; rewrite Hps.
  rewrite (@fetch_loop_first_truthy _ before after p v VNone log);
    auto.
  rewrite Hstore; reflexivity.
Qed.

(** When every provider raises ProviderError or yields [None], the
    historical fetch returns [None], writes nothing, and no exception
    escapes. *)
Lemma fetch_historical_exhausted_None (w : World) (db : DB)
    (log : list string) (src exch : string) (d : date) :
  Forall (fun p =>
            (exists m, get_hist_from_provider w p src exch d
                       = Raise (ProviderError m)) \/
            get_hist_from_provider w p src exch d = Ok VNone)
         (providers_by_priority db) ->
  fetch_historical_rates_from_provider w db log src exch d
  = (Ok VNone, db,
     (log ++ map provider_failed
        (failed (fun q => get_hist_from_provider w q src exch d)
                (providers_by_priority db)))%list).
Proof.
  intros Hall; unfold fetch_historical_rates_from_provider.
  rewrite (@fetch_loop_exhausted_None _ _ log Hall); reflexivity.
Qed.

(** When the loop of the historical fetch ends on an empty mapping, the
    guard [data is not None] lets it through to the store, where
    [data[exchanged_currency_code]] raises KeyError. *)
Lemma store_historical_empty (db : DB) (src exch : string) (d : date) :
  exists e, store_historical db (VDict []) src exch d = Raise e.
Proof.
  unfold store_historical; simpl.
  destruct (currency_id db src); simpl; [| eauto].
  destruct (currency_id db exch); simpl; eauto.
Qed.

(** C2 at its failing input. The only provider is the JSON provider with
    force_base_currency "EUR", its file holds the EUR record of
    2024-01-25, and the historical rates of USD against GBP are fetched.
    The provider yields an empty result (the record has no entry "USD", so
    [reverse_rates] returns {}); the loop ends with [data = {}], and the
    call raises KeyError instead of returning null. The same happens behind
    the HTTP adapter when the raw mapping lacks the source. The latest
    fetch on exhaustion returns normally. *)
Theorem fetch_historical_empty_result :
  get_hist_from_provider file_world (json_provider 1 (Some "EUR"))
    "USD" "GBP" (jan 25) = Ok (VDict []) /\
  truthy (VDict []) = false /\
  fetch_historical_rates_from_provider file_world forced_json_db []
    "USD" "GBP" (jan 25)
  = (Raise (KeyError "GBP"), forced_json_db, []) /\
  fetch_historical_rates_from_provider (eur_api [("GBP", VFloat f0_9)])
    forced_http_db [] "USD" "GBP" (jan 24)
  = (Raise (KeyError "GBP"), forced_http_db, []) /\
  fetch_latest_rates_from_provider (eur_api [])
    forced_http_db [] "USD" "GBP"
  = (Ok VNone, ["Provider Test HTTP Provider failed"]).
Proof.
  by_computation.
Qed.

(** ** [process_db_rates] for a source other than EUR *)

Lemma process_group_no_base (src : string) (d : date)
    (rows : list CurrencyExchangeRate) :
  src <> "EUR" ->
  base_row src rows = None ->
  process_group src (d, rows)
  = Raise (ValueError ("No base rate found for currency code " ++ src)).
Proof.
  intros Hsrc Hbase; unfold process_group, base_row in *.
  destruct (String.eqb_spec src "EUR") as [E | _]; [contradiction |].
  rewrite Hbase; reflexivity.
Qed.

Lemma dict_get_union_eur (c : string) (eur : value) (d : dict) :
  dict_get c (dict_union d [("EUR", eur)])
  = if String.eqb c "EUR" then Some eur else dict_get c d.
Proof.
  unfold dict_union; rewrite dict_get_fold_set; simpl.
  destruct (String.eqb c "EUR"); reflexivity.
Qed.

Lemma process_group_non_eur (src : string) (d : date)
    (rows : list CurrencyExchangeRate) (rm : value) :
  src <> "EUR" ->
  process_group src (d, rows) = Ok rm ->
  rate_map_of src (d, rows) rm.
Proof.
  intros Hsrc H; unfold process_group in H.
  destruct (String.eqb_spec src "EUR") as [E | _]; [contradiction |].
  destruct (find _ rows) as [base |] eqn:Hbase; [| discriminate].
  pose proof (find_some _ _ Hbase) as [_ Hcode].
  apply String.eqb_eq in Hcode.
  apply bind_Ok_inv in H; destruct H as (processed & Hmap & H).
  apply bind_Ok_inv in H; destruct H as (q & Hq & H).
  apply bind_Ok_inv in H; destruct H as (eur & Heur & H).
  inversion H; subst rm; clear H.
  rewrite Hcode in Hmap.
  set (keep := fun c => negb (String.eqb c src)) in *.
  change (filter _ rows)
    with (filter (fun r => keep (exchanged_currency r)) rows) in Hmap.
  apply (mapM_rebased exchanged_currency rate_value) in Hmap.
  apply rebased_rev in Hmap; rewrite <- filter_rev in Hmap.
  exists base, (dict_union (dict_of_items processed) [("EUR", eur)]), eur.
  repeat split.
  - exact Hbase.
  - unfold inverse; rewrite Hq; exact Heur.
  - rewrite dict_get_union_eur, String.eqb_refl; reflexivity.
  - rewrite dict_get_union_eur.
    destruct (String.eqb_spec src "EUR") as [E | _]; [contradiction |].
    rewrite dict_get_of_items.
    pose proof (rebased_get src Hmap) as Hget.
    rewrite lookup_by_filter_out in Hget; [exact Hget |].
    unfold keep; rewrite String.eqb_refl; reflexivity.
  - intros c r Hc Heurc Hr; simpl in Hr.
    rewrite dict_get_union_eur.
    destruct (String.eqb_spec c "EUR") as [E | _]; [contradiction |].
    rewrite dict_get_of_items.
    pose proof (rebased_get c Hmap) as Hget.
    rewrite lookup_by_filter in Hget.
    + unfold stored_rate in Hr; rewrite Hr in Hget; exact Hget.
    + unfold keep; destruct (String.eqb_spec c src); [contradiction | reflexivity].
  - intros c Heurc Hr; simpl in Hr.
    rewrite dict_get_union_eur.
    destruct (String.eqb_spec c "EUR") as [E | _]; [contradiction |].
    rewrite dict_get_of_items.
    pose proof (rebased_get c Hmap) as Hget.
    destruct (keep c) eqn:Hk.
    + rewrite lookup_by_filter in Hget by exact Hk.
      unfold stored_rate in Hr; rewrite Hr in Hget; exact Hget.
    + rewrite lookup_by_filter_out in Hget by exact Hk; exact Hget.
Qed.

Lemma process_group_total (src : string) (g : date * list CurrencyExchangeRate) :
  src <> "EUR" -> rebasable src g -> exists rm, process_group src g = Ok rm.
Proof.
  intros Hsrc (base & Hbase & (eur & Heur) & Hall).
  destruct g as [d rows]; simpl in *.
  unfold process_group, base_row in *.
  destruct (String.eqb_spec src "EUR") as [E | _]; [contradiction |].
  rewrite Hbase.
  pose proof (find_some _ _ Hbase) as [_ Hcode].
  apply String.eqb_eq in Hcode.
  destruct (@mapM_rebased_total _ exchanged_currency rate_value (rate_value base)
              (filter (fun r => negb (String.eqb (exchanged_currency r)
                                                 (exchanged_currency base)))
                      rows))
    as (processed & ->).
  - intros r Hr; apply filter_In in Hr; destruct Hr as [Hin Hne].
    apply Hall; [exact Hin |].
    rewrite Hcode in Hne.
    destruct (String.eqb_spec (exchanged_currency r) src); [discriminate | assumption].
  - simpl; unfold inverse in Heur.
    apply bind_Ok_inv in Heur; destruct Heur as (q & Hq & Hr).
    rewrite Hq; simpl; rewrite Hr; simpl; eauto.
Qed.

Lemma mapM_total {A B : Type} (f : A -> result B) (l : list A) :
  (forall a, In a l -> exists b, f a = Ok b) -> exists bs, mapM f l = Ok bs.
Proof.
  induction l as [| a l IH]; intros H; simpl; [eauto |].
  destruct (H a (or_introl eq_refl)) as (b & ->); simpl.
  destruct IH as (bs & ->); [intros a' Ha'; apply H; right; exact Ha' |].
  simpl; eauto.
Qed.

Lemma period_rates_mapM (db : DB) (src exch : string) (date_from date_to : date) :
  get_currency_rates_for_period db src exch date_from date_to
  = mapM (process_group src)
         (rates_grouped_by_date (get_db_rates db src exch date_from date_to)).
Proof.
  unfold get_currency_rates_for_period, process_db_rates.
  destruct (get_db_rates db src exch date_from date_to); reflexivity.
Qed.

(** The first element on which [f] raises decides [mapM]. *)
Lemma mapM_first_raise {A B : Type} (f : A -> result B)
    (before after : list A) (x : A) (e : exn) :
  Forall (fun a => exists b, f a = Ok b) before ->
  f x = Raise e ->
  mapM f (before ++ x :: after)%list = Raise e.
Proof.
  induction 1 as [| a before (b & Ha) _ IH]; intros Hx; simpl.
  - rewrite Hx; reflexivity.
  - rewrite Ha, (IH Hx); reflexivity.
Qed.

Lemma mapM_raise_first {A B : Type} (f : A -> result B) (l : list A) (e : exn) :
  mapM f l = Raise e ->
  exists before x after,
    l = (before ++ x :: after)%list /\
    Forall (fun a => exists b, f a = Ok b) before /\
    f x = Raise e.
Proof.
  induction l as [| a l IH]; simpl; [discriminate |].
  destruct (f a) as [b | e'] eqn:Ha; simpl.
  - destruct (mapM f l) as [bs | e'']; simpl; [discriminate |].
    intros H; inversion H; subst e''.
    destruct (IH eq_refl) as (before & x & after & -> & Hbefore & Hx).
    exists (a :: before), x, after; repeat split; [| exact Hx].
    constructor; [exists b; exact Ha | exact Hbefore].
  - intros H; inversion H; subst e'.
    exists [], a, l; repeat split; [constructor | exact Ha].
Qed.

(** Of two places in a list, the earlier one lies before the later. *)
Lemma earlier_in_prefix {A : Type} (before after before' after' : list A)
    (x x' : A) :
  (before ++ x :: after)%list = (before' ++ x' :: after')%list ->
  (List.length before < List.length before')%nat ->
  In x before'.
Proof.
  revert before'; induction before as [| a before IH]; intros before' E Hlen.
  - destruct before' as [| a' before']; simpl in *; [lia |].
    inversion E; left; reflexivity.
  - destruct before' as [| a' before']; simpl in *; [lia |].
    inversion E; subst; right; apply IH; [assumption | lia].
Qed.

(** C4 (amended). For every source_code other than "EUR" and the date
    groups of the stored rows that [get_currency_rates_for_period] reads:
    a group without a row whose exchanged_currency is source_code makes the
    call raise. What the call raises is the exception of the first group
    whose processing fails, a group at or before that one: it is the
    ValueError of the group itself when the groups before it are processed
    without an exception. When the call returns, the RateMap of each date
    maps every currency c of the group other than source_code and "EUR" to
    round(stored_rate[c] / stored_rate[source_code], 6), maps "EUR" to
    round(1 / stored_rate[source_code], 6), and has no other entry, where
    stored_rate[source_code] is the first row of the group for source_code
    and stored_rate[c] the last one for c; and the call returns whenever
    every group has such a row and these divisions and roundings are
    defined. *)
Theorem period_rates_non_eur (db : DB) (src exch : string)
    (date_from date_to : date) :
  src <> "EUR" ->
  let groups :=
    rates_grouped_by_date (get_db_rates db src exch date_from date_to) in
  (forall before g after,
     groups = (before ++ g :: after)%list ->
     base_row src (snd g) = None ->
     process_group src g
     = Raise (ValueError ("No base rate found for currency code " ++ src)) /\
     (Forall (fun g' => exists rm, process_group src g' = Ok rm) before ->
      get_currency_rates_for_period db src exch date_from date_to
      = Raise (ValueError ("No base rate found for currency code " ++ src))) /\
     exists e before' g' after',
       groups = (before' ++ g' :: after')%list /\
       (List.length before' <= List.length before)%nat /\
       Forall (fun g'' => exists rm, process_group src g'' = Ok rm) before' /\
       process_group src g' = Raise e /\
       get_currency_rates_for_period db src exch date_from date_to = Raise e) /\
  (forall out,
     get_currency_rates_for_period db src exch date_from date_to = Ok out ->
     Forall2 (rate_map_of src) groups out) /\
  (Forall (rebasable src) groups ->
   exists out,
     get_currency_rates_for_period db src exch date_from date_to = Ok out).
Proof.
  intros Hsrc groups; rewrite period_rates_mapM; fold groups.
  split; [| split].
  - intros before [d rows] after Hgroups Hnone; simpl in Hnone.
    pose proof (@process_group_no_base src d rows Hsrc Hnone) as Hraise.
    split; [exact Hraise |]; split.
    + intros Hbefore; rewrite Hgroups.
      apply mapM_first_raise; assumption.
    + assert (Hin : In (d, rows) groups)
        by (rewrite Hgroups; apply in_or_app; right; left; reflexivity).
      destruct (mapM_In_Raise (process_group src) groups _ Hin Hraise)
        as (e & He).
      destruct (mapM_raise_first _ _ He)
        as (before' & g' & after' & Hgroups' & Hbefore' & Hg').
      exists e, before', g', after'; repeat split; try assumption.
      destruct (Nat.le_gt_cases (List.length before') (List.length before))
        as [Hle | Hgt]; [exact Hle |].
      exfalso.
      rewrite Hgroups in Hgroups'.
      pose proof (earlier_in_prefix _ _ _ _ _ _ Hgroups' Hgt) as Hearlier.
      rewrite Forall_forall in Hbefore'.
      destruct (Hbefore' _ Hearlier) as (rm & Hrm).
      rewrite Hraise in Hrm; discriminate.
  - intros out Hout; apply mapM_Ok_Forall2 in Hout.
    eapply Forall2_impl; [| exact Hout].
    intros [d rows] rm Hrm; apply process_group_non_eur; assumption.
  - intros Hall; apply mapM_total.
    intros g Hg; apply process_group_total; [exact Hsrc |].
    rewrite Forall_forall in Hall; apply Hall; exact Hg.
Qed.

(** EUR-based rates of USD and GBP on one date, read for the source USD;
    and three dates of which the second has no row for USD and the third a
    zero rate of USD: the first date is processed, and the call raises the
    ValueError of the second. *)
Lemma period_rates_non_eur_witness :
  (exists out,
     get_currency_rates_for_period eur_based_store "USD" "GBP" (jan 23) (jan 24)
     = Ok out /\
     Forall2 (rate_map_of "USD")
       (rates_grouped_by_date
          (get_db_rates eur_based_store "USD" "GBP" (jan 23) (jan 24)))
       out) /\
  get_currency_rates_for_period missing_usd_store "USD" "GBP" (jan 23) (jan 25)
  = Raise (ValueError "No base rate found for currency code USD").
Proof.
  split.
  - destruct (@period_rates_non_eur eur_based_store "USD" "GBP" (jan 23) (jan 24))
      as (_ & Hmaps & _).
    + discriminate.
    + eexists; split; [vm_compute; reflexivity |].
      apply Hmaps; vm_compute; reflexivity.
  - destruct (@period_rates_non_eur missing_usd_store "USD" "GBP"
                (jan 23) (jan 25)) as (Hfirst & _ & _).
    + discriminate.
    + destruct (Hfirst
                  [(jan 23, [mkRate "EUR" "USD" (jan 23) (stored 2000000);
                             mkRate "EUR" "GBP" (jan 23) (stored 3000000)])]
                  (jan 24, [mkRate "EUR" "GBP" (jan 24) (stored 3000000)])
                  [(jan 25, [mkRate "EUR" "USD" (jan 25) (stored 0)])])
        as (_ & Hraise & _).
      * vm_compute; reflexivity.
      * reflexivity.
      * apply Hraise; repeat constructor.
        eexists; vm_compute; reflexivity.
Defined.

(** C4 as stated fails on a date group that has a row for EUR as exchanged
    currency: EUR is then another currency of the group, with a stored rate
    of 4 against 2 for the source USD, and the returned RateMap maps it to
    round(1/2, 6), not to round(4/2, 6). *)
Lemma period_rates_non_eur_counterexample :
  get_currency_rates_for_period eur_row_store "USD" "EUR" (jan 23) (jan 23)
  = Ok [VDict [("date", VDate (jan 23));
               ("rates", VDict [("EUR", stored 500000)])]] /\
  stored_rate "EUR" (exchange_rates eur_row_store) = Some (stored 4000000) /\
  stored_rate "USD" (exchange_rates eur_row_store) = Some (stored 2000000) /\
  rebase (stored 4000000) (stored 2000000) = Ok (stored 2000000) /\
  stored 500000 <> stored 2000000.
Proof.
  split_conj; try (vm_compute; reflexivity).
  discriminate.
Qed.

(** * Further properties of the code *)

Unset Implicit Arguments.

(** ** The outcome of the orchestrator loop *)

Lemma failed_cons_error (fetch : Provider -> result value) (p : Provider)
    (ps : list Provider) (m : string) :
  fetch p = Raise (ProviderError m) -> failed fetch (p :: ps) = p :: failed fetch ps.
Proof.
  intros H; unfold failed; simpl; rewrite H; reflexivity.
Qed.

Lemma failed_cons_ok (fetch : Provider -> result value) (p : Provider)
    (ps : list Provider) (v : value) :
  fetch p = Ok v -> failed fetch (p :: ps) = failed fetch ps.
Proof.
  intros H; unfold failed; simpl; rewrite H; reflexivity.
Qed.

(** Every run of the loop ends in one of three ways: all providers fell
    through and the value is falsy; or it stopped at the first provider
    with a truthy result; or it stopped at the first provider that raised
    something other than ProviderError. *)
Lemma fetch_loop_outcome (fetch : Provider -> result value)
    (ps : list Provider) :
  forall (data : value) (log : list string),
    truthy data = false ->
    match fetch_loop fetch ps data log with
    | (Ok v, log') =>
        (truthy v = false /\ Forall (falls_through fetch) ps /\
         log' = logged fetch log ps) \/
        (truthy v = true /\
         exists before p,
           stops_at fetch ps before p /\ fetch p = Ok v /\
           log' = logged fetch log before)
    | (Raise e, log') =>
        is_provider_error e = false /\
        exists before p,
          stops_at fetch ps before p /\ fetch p = Raise e /\
          log' = logged fetch log before
    end.
Proof.
  unfold logged, stops_at.
  induction ps as [| p ps IH]; intros data log Hdata.
  - simpl; left; repeat split; [exact Hdata | constructor | ].
    rewrite app_nil_r; reflexivity.
  - cbn [fetch_loop]; destruct (fetch p) as [v | e] eqn:Hp.
    + destruct (truthy v) eqn:Hv.
      * right; split; [exact Hv |].
        exists [], p; repeat split; [exists ps; reflexivity | constructor | exact Hp |].
        simpl; rewrite app_nil_r; reflexivity.
      * assert (Hft : falls_through fetch p) by (right; exists v; split; assumption).
        specialize (IH v log Hv).
        destruct (fetch_loop fetch ps v log) as [[v' | e'] log'].
        -- destruct IH as [(Hv' & Hall & Hlog) | (Hv' & before & q & ((after & E) & Hb) & Hq & Hlog)].
           ++ left; repeat split; [exact Hv' | constructor; assumption |].
              rewrite (failed_cons_ok fetch p ps v Hp); exact Hlog.
           ++ right; split; [exact Hv' |].
              exists (p :: before), q; repeat split.
              ** exists after; rewrite E; reflexivity.
              ** constructor; assumption.
              ** exact Hq.
              ** rewrite (failed_cons_ok fetch p before v Hp); exact Hlog.
        -- destruct IH as (He' & before & q & ((after & E) & Hb) & Hq & Hlog).
           split; [exact He' |].
           exists (p :: before), q; repeat split.
           ++ exists after; rewrite E; reflexivity.
           ++ constructor; assumption.
           ++ exact Hq.
           ++ rewrite (failed_cons_ok fetch p before v Hp); exact Hlog.
    + destruct e as [m | | | | | | | | | |].
      1: { assert (Hft : falls_through fetch p) by (left; exists m; exact Hp).
           specialize (IH data (log ++ [provider_failed p])%list Hdata).
           destruct (fetch_loop fetch ps data (log ++ [provider_failed p])%list)
             as [[v' | e'] log'].
           - destruct IH as [(Hv' & Hall & Hlog)
                            | (Hv' & before & q & ((after & E) & Hb) & Hq & Hlog)].
             + left; repeat split; [exact Hv' | constructor; assumption |].
               rewrite (failed_cons_error fetch p ps m Hp), Hlog; simpl.
               rewrite <- app_assoc; reflexivity.
             + right; split; [exact Hv' |].
               exists (p :: before), q; repeat split.
               * exists after; rewrite E; reflexivity.
               * constructor; assumption.
               * exact Hq.
               * rewrite (failed_cons_error fetch p before m Hp), Hlog; simpl.
                 rewrite <- app_assoc; reflexivity.
           - destruct IH as (He' & before & q & ((after & E) & Hb) & Hq & Hlog).
             split; [exact He' |].
             exists (p :: before), q; repeat split.
             + exists after; rewrite E; reflexivity.
             + constructor; assumption.
             + exact Hq.
             + rewrite (failed_cons_error fetch p before m Hp), Hlog; simpl.
               rewrite <- app_assoc; reflexivity. }
      all: split; [reflexivity |];
        exists [], p; repeat split;
        [exists ps; reflexivity | constructor | exact Hp
        | simpl; rewrite app_nil_r; reflexivity].
Qed.

(** X1. Whatever the providers do, [fetch_latest_rates_from_provider] ends
    in one of three ways. It returns a falsy value, every provider having
    raised ProviderError or yielded a falsy result. It returns a truthy
    value, the result of the first provider in priority order that did not
    fall through. Or it raises what that first provider raised, which is
    never a ProviderError. In each case the log has grown by one
    "Provider <name> failed" line for each provider tried that raised
    ProviderError, in order. *)
Theorem fetch_latest_outcome (w : World) (db : DB) (log : list string)
    (src exch : string) :
  let fetch := fun q => get_latest_from_provider w q src exch in
  let ps := providers_by_priority db in
  match fetch_latest_rates_from_provider w db log src exch with
  | (Ok v, log') =>
      (truthy v = false /\ Forall (falls_through fetch) ps /\
       log' = logged fetch log ps) \/
      (truthy v = true /\
       exists before p,
         stops_at fetch ps before p /\ fetch p = Ok v /\
         log' = logged fetch log before)
  | (Raise e, log') =>
      is_provider_error e = false /\
      exists before p,
        stops_at fetch ps before p /\ fetch p = Raise e /\
        log' = logged fetch log before
  end.
Proof.
  intros fetch ps; unfold fetch_latest_rates_from_provider.
  apply fetch_loop_outcome; reflexivity.
Qed.

(** ** What a historical fetch writes *)

Lemma currency_id_known (db : DB) (code : string) :
  currency_id db code = if known db code then Ok tt else Raise (KeyError code).
Proof. reflexivity. Qed.

(** Building the rows looks the codes up in order: the first unknown code
    is the KeyError, and with none unknown all rows are built. *)
Lemma create_rows (db : DB) (src : string) (d : date) (m : dict) :
  mapM (fun sr =>
          _ <- currency_id db src ;;
          _ <- currency_id db (fst sr) ;;
          Ok (mkRate src (fst sr) d (snd sr))) m
  = match find (fun c => negb (known db c)) (looked_up src m) with
    | Some c => Raise (KeyError c)
    | None => Ok (rows_of src d m)
    end.
Proof.
  unfold looked_up, rows_of; induction m as [| [c r] m IH]; [reflexivity |].
  cbn [mapM flat_map app find map fst snd].
  rewrite IH, !currency_id_known.
  destruct (known db src); cbn [bind negb]; [| reflexivity].
  destruct (known db c); cbn [bind negb]; [| reflexivity].
  destruct (find _ (flat_map _ m)); reflexivity.
Qed.

(** The store step never raises ProviderError. *)
Lemma store_historical_error (db : DB) (data : value) (src exch : string)
    (d : date) (e : exn) :
  store_historical db data src exch d = Raise e -> is_provider_error e = false.
Proof.
  unfold store_historical.
  destruct data as [| s | f | x | x | items | items]; try discriminate;
    unfold py_contains; cbn [bind];
    try (intros H; inversion H; reflexivity).
  - destruct (str_contains "rates" s); cbn [bind subscript];
      [intros H; inversion H; reflexivity |].
    rewrite !currency_id_known.
    destruct (known db src); cbn [bind]; [| intros H; inversion H; reflexivity].
    destruct (known db exch); cbn [bind]; intros H; inversion H; reflexivity.
  - destruct (dict_mem "rates" items); cbn [bind].
    + unfold subscript.
      destruct (dict_get "rates" items) as [rates |]; cbn [bind];
        [| intros H; inversion H; reflexivity].
      destruct rates; cbn [py_items bind]; try (intros H; inversion H; reflexivity).
      rewrite create_rows.
      destruct (find _ _); cbn [bind]; intros H; inversion H; reflexivity.
    + rewrite !currency_id_known.
      destruct (known db src); cbn [bind]; [| intros H; inversion H; reflexivity].
      destruct (known db exch); cbn [bind]; [| intros H; inversion H; reflexivity].
      unfold subscript; destruct (dict_get exch items); cbn [bind];
        intros H; inversion H; reflexivity.
  - destruct (existsb _ items); cbn [bind subscript];
      [intros H; inversion H; reflexivity |].
    rewrite !currency_id_known.
    destruct (known db src); cbn [bind]; [| intros H; inversion H; reflexivity].
    destruct (known db exch); cbn [bind]; intros H; inversion H; reflexivity.
Qed.

(** The store step only appends rows, all of them for the source currency
    and the date of the fetch. *)
Lemma store_historical_appends (db db' : DB) (data : value)
    (src exch : string) (d : date) :
  store_historical db data src exch d = Ok db' ->
  exists rows,
    db' = insert_rates db rows /\
    Forall (fun r => source_currency r = src /\ valuation_date r = d) rows /\
    (data = VNone -> rows = []).
Proof.
  unfold store_historical.
  assert (Hnil : forall db0 : DB, insert_rates db0 [] = db0)
    by (intros [c r p]; unfold insert_rates; simpl; rewrite app_nil_r; reflexivity).
  destruct data as [| s | f | x | x | items | items]; try discriminate;
    unfold py_contains; cbn [bind].
  - intros H; inversion H; subst; exists []; rewrite Hnil; repeat split; constructor.
  - destruct (str_contains "rates" s); cbn [bind subscript]; [discriminate |].
    rewrite !currency_id_known.
    destruct (known db src); cbn [bind]; [| discriminate].
    destruct (known db exch); cbn [bind]; discriminate.
  - destruct (dict_mem "rates" items); cbn [bind].
    + unfold subscript.
      destruct (dict_get "rates" items) as [rates |]; cbn [bind]; [| discriminate].
      destruct rates as [| | | | | m |]; cbn [py_items bind]; try discriminate.
      rewrite create_rows.
      destruct (find _ _); cbn [bind]; [discriminate |].
      intros H; inversion H; subst.
      exists (rows_of src d m); repeat split; [| discriminate].
      unfold rows_of; apply Forall_forall; intros r Hr.
      apply in_map_iff in Hr; destruct Hr as (kv & <- & _); split; reflexivity.
    + rewrite !currency_id_known.
      destruct (known db src); cbn [bind]; [| discriminate].
      destruct (known db exch); cbn [bind]; [| discriminate].
      unfold subscript; destruct (dict_get exch items) as [rate |]; cbn [bind];
        [| discriminate].
      intros H; inversion H; subst.
      exists [mkRate src exch d rate]; repeat split; [| discriminate].
      constructor; [split; reflexivity | constructor].
  - destruct (existsb _ items); cbn [bind subscript]; [discriminate |].
    rewrite !currency_id_known.
    destruct (known db src); cbn [bind]; [| discriminate].
    destruct (known db exch); cbn [bind]; discriminate.
Qed.

Lemma fetch_historical_rows (w : World) (db : DB) (log : list string)
    (src exch : string) (d : date) :
  match fetch_historical_rates_from_provider w db log src exch d with
  | (outcome, db', _) =>
      exists rows,
        db' = insert_rates db rows /\
        Forall (fun r => source_currency r = src /\ valuation_date r = d) rows /\
        match outcome with
        | Ok VNone => rows = []
        | Ok _ => True
        | Raise e => rows = [] /\ is_provider_error e = false
        end
  end.
Proof.
  assert (Hnil : insert_rates db [] = db)
    by (destruct db; unfold insert_rates; simpl; rewrite app_nil_r; reflexivity).
  unfold fetch_historical_rates_from_provider.
  pose proof (fetch_loop_outcome
                (fun p => get_hist_from_provider w p src exch d)
                (providers_by_priority db) VNone log eq_refl) as Hloop.
  destruct (fetch_loop _ (providers_by_priority db) VNone log) as [[data | e] log'].
  - destruct (store_historical db data src exch d) as [db' | e] eqn:Hstore.
    + destruct (store_historical_appends _ _ _ _ _ _ Hstore) as (rows & E & Hrows & Hnone).
      exists rows; repeat split; [exact E | exact Hrows |].
      destruct data; try exact I; apply Hnone; reflexivity.
    + exists []; repeat split; [symmetry; exact Hnil | constructor |].
      eapply store_historical_error; exact Hstore.
  - destruct Hloop as (He & _).
    exists []; repeat split; [symmetry; exact Hnil | constructor | exact He].
Qed.

(** X2. A call of [fetch_historical_rates_from_provider], whatever its
    outcome, leaves the currencies, the providers and every stored rate as
    they were: it only appends rows, each for the source currency and the
    date of the call. It appends none when it returns None or raises, and
    what it raises is never a ProviderError. *)
Theorem fetch_historical_append_only (w : World) (db : DB) (log : list string)
    (src exch : string) (d : date) :
  match fetch_historical_rates_from_provider w db log src exch d with
  | (outcome, db', _) =>
      exists rows,
        db' = insert_rates db rows /\
        Forall (fun r => source_currency r = src /\ valuation_date r = d) rows /\
        match outcome with
        | Ok VNone => rows = []
        | Ok _ => True
        | Raise e => rows = [] /\ is_provider_error e = false
        end
  end.
Proof.
  apply fetch_historical_rows.
Qed.

(** When the loop stops on a truthy result, the call is decided by the
    store step. *)
Lemma fetch_historical_stops (w : World) (db : DB) (log : list string)
    (src exch : string) (d : date) (before : list Provider) (p : Provider)
    (v : value) :
  let fetch := fun q => get_hist_from_provider w q src exch d in
  stops_at fetch (providers_by_priority db) before p ->
  fetch p = Ok v -> truthy v = true ->
  fetch_historical_rates_from_provider w db log src exch d
  = match store_historical db v src exch d with
    | Ok db' => (Ok v, db', logged fetch log before)
    | Raise e => (Raise e, db, logged fetch log before)
    end.
Proof.
  intros fetch ((after & Hps) & Hbefore) Hv Htruthy; subst fetch.
  unfold fetch_historical_rates_from_provider; rewrite Hps.
  rewrite (@fetch_loop_first_truthy _ before after p v VNone log
             Hbefore eq_refl Hv Htruthy).
  reflexivity.
Qed.

Lemma store_rates_mapping (db : DB) (items m : dict) (src exch : string)
    (d : date) :
  dict_get "rates" items = Some (VDict m) ->
  store_historical db (VDict items) src exch d
  = match find (fun c => negb (known db c)) (looked_up src m) with
    | Some c => Raise (KeyError c)
    | None => Ok (insert_rates db (rows_of src d m))
    end.
Proof.
  intros Hrates; unfold store_historical, py_contains, dict_mem, subscript.
  rewrite Hrates; cbn [bind py_items].
  rewrite create_rows.
  destruct (find _ _); reflexivity.
Qed.

Lemma dict_get_truthy (k : string) (v : value) (items : dict) :
  dict_get k items = Some v -> truthy (VDict items) = true.
Proof.
  destruct items; [discriminate | reflexivity].
Qed.

Lemma fetch_historical_returned (w : World) (db db' : DB)
    (log log' : list string) (src exch : string) (d : date) (v : value) :
  fetch_historical_rates_from_provider w db log src exch d = (Ok v, db', log') ->
  store_historical db v src exch d = Ok db'.
Proof.
  unfold fetch_historical_rates_from_provider.
  destruct (fetch_loop _ (providers_by_priority db) VNone log)
    as [[data | e] l]; [| discriminate].
  destruct (store_historical db data src exch d) as [db1 | e] eqn:Hstore;
    [| discriminate].
  intros H; inversion H; subst; exact Hstore.
Qed.

Lemma fetch_historical_rates_rows (w : World) (db db' : DB)
    (log log' : list string) (src exch : string) (d : date)
    (items : dict) (rates : value) :
  fetch_historical_rates_from_provider w db log src exch d
  = (Ok (VDict items), db', log') ->
  dict_get "rates" items = Some rates ->
  exists m,
    rates = VDict m /\
    db' = insert_rates db (rows_of src d m) /\
    Forall (fun c => known db c = true) (looked_up src m).
Proof.
  intros H Hrates; apply fetch_historical_returned in H.
  destruct rates as [| s | f | x | dt | m | l];
    try (unfold store_historical, py_contains, dict_mem, subscript in H;
         rewrite Hrates in H; cbn [bind py_items] in H; discriminate H).
  exists m; split; [reflexivity |].
  rewrite (store_rates_mapping db items m src exch d Hrates) in H.
  destruct (find _ (looked_up src m)) as [c |] eqn:Hfind; [discriminate H |].
  inversion H; split; [reflexivity |].
  rewrite Forall_forall; intros c Hc.
  pose proof (find_none _ _ Hfind c Hc) as Hn; cbv beta in Hn.
  destruct (known db c); [reflexivity | discriminate Hn].
Qed.

(** X3. When a historical fetch returns a record with a "rates" entry,
    that entry is a mapping of symbols to rates, the source currency and
    every symbol of it are known currencies, and the rows the call has
    appended to the store are one per symbol, in the order of the mapping,
    each for the source currency, that symbol and the date of the call:
    all the symbols of the record, not only the exchanged currency that was
    asked for. *)
Theorem fetch_historical_writes_rates (w : World) (db db' : DB)
    (log log' : list string) (src exch : string) (d : date)
    (items : dict) (rates : value) :
  fetch_historical_rates_from_provider w db log src exch d
  = (Ok (VDict items), db', log') ->
  dict_get "rates" items = Some rates ->
  exists m rows,
    rates = VDict m /\
    db' = insert_rates db rows /\
    map row_key rows = map (fun kv => (src, fst kv, d)) m /\
    Forall (fun c => known db c = true) (looked_up src m).
Proof.
  intros H Hrates.
  destruct (fetch_historical_rates_rows w db db' log log' src exch d items
              rates H Hrates) as (m & -> & -> & Hknown).
  exists m, (rows_of src d m); repeat split; [| exact Hknown].
  unfold rows_of; rewrite map_map; reflexivity.
Qed.

(** The EUR record of the JSON provider's file, fetched for USD on
    2024-01-25: a row is written for USD, CHF and GBP. *)
Lemma fetch_historical_writes_rates_witness :
  exists m rows,
    VDict [("USD", VFloat (Flt.of_ratio false 1082573 1000000));
           ("CHF", VFloat (Flt.of_ratio false 939527 1000000));
           ("GBP", VFloat (Flt.of_ratio false 852586 1000000))] = VDict m /\
    db_after (fetch_historical_rates_from_provider file_world
                (json_db test_currencies) [] "EUR" "USD" (jan 25))
    = insert_rates (json_db test_currencies) rows /\
    map row_key rows = map (fun kv => ("EUR", fst kv, jan 25)) m /\
    Forall (fun c => known (json_db test_currencies) c = true)
           (looked_up "EUR" m).
Proof.
  apply (fetch_historical_writes_rates file_world (json_db test_currencies)
           (db_after (fetch_historical_rates_from_provider file_world
                        (json_db test_currencies) [] "EUR" "USD" (jan 25)))
           [] [] "EUR" "USD" (jan 25) eur_record).
  - vm_compute; reflexivity.
  - reflexivity.
Defined.

(** X4. In the same situation, if a code looked up while the rows are built
    is not a known currency (the source currency, or a symbol of the
    mapping), the fetch raises KeyError for the first such code and writes
    no row at all, not even for the symbols before it. *)
Theorem fetch_historical_unknown_currency (w : World) (db : DB)
    (log : list string) (src exch : string) (d : date)
    (before : list Provider) (p : Provider) (items m : dict) (c : string) :
  let fetch := fun q => get_hist_from_provider w q src exch d in
  stops_at fetch (providers_by_priority db) before p ->
  fetch p = Ok (VDict items) ->
  dict_get "rates" items = Some (VDict m) ->
  find (fun c => negb (known db c)) (looked_up src m) = Some c ->
  fetch_historical_rates_from_provider w db log src exch d
  = (Raise (KeyError c), db, logged fetch log before).
Proof.
  intros fetch Hstop Hp Hrates Hfind.
  rewrite (fetch_historical_stops w db log src exch d before p (VDict items)
             Hstop Hp (dict_get_truthy _ _ _ Hrates)).
  rewrite (store_rates_mapping db items m src exch d Hrates), Hfind.
  reflexivity.
Qed.

(** The same record with CHF missing from the currencies: USD comes before
    CHF in the mapping, and still nothing is written. *)
Lemma fetch_historical_unknown_currency_witness :
  fetch_historical_rates_from_provider file_world
    (json_db ["EUR"; "USD"; "GBP"]) [] "EUR" "USD" (jan 25)
  = (Raise (KeyError "CHF"), json_db ["EUR"; "USD"; "GBP"], []).
Proof.
  apply (fetch_historical_unknown_currency file_world
           (json_db ["EUR"; "USD"; "GBP"]) []
           "EUR" "USD" (jan 25) [] (json_provider 1 None) eur_record
           [("USD", VFloat (Flt.of_ratio false 1082573 1000000));
            ("CHF", VFloat (Flt.of_ratio false 939527 1000000));
            ("GBP", VFloat (Flt.of_ratio false 852586 1000000))]).
  - split; [exists []; reflexivity | constructor].
  - vm_compute; reflexivity.
  - reflexivity.
  - reflexivity.
Defined.

(** X5. For a mapping without a "rates" entry (the rates themselves, as
    the HTTP adapter and [reverse_rates] return them). When the historical
    fetch returns it, the call has appended exactly one row, for the source
    currency, the exchanged currency asked for and the date of the call,
    both currencies being known and the mapping having an entry for the
    exchanged currency: the other entries of the mapping are returned but
    not stored. When the first provider that does not fall through yields
    such a mapping, not empty and without an entry for the exchanged
    currency, the two currencies being known, the fetch raises KeyError for
    the exchanged currency and stores nothing. *)
Theorem fetch_historical_writes_pair (w : World) (db db' : DB)
    (log log' : list string) (src exch : string) (d : date) (items : dict) :
  dict_get "rates" items = None ->
  (fetch_historical_rates_from_provider w db log src exch d
   = (Ok (VDict items), db', log') ->
   exists row,
     db' = insert_rates db [row] /\
     row_key row = (src, exch, d) /\
     (exists rate, dict_get exch items = Some rate) /\
     known db src = true /\ known db exch = true) /\
  (forall before p,
     let fetch := fun q => get_hist_from_provider w q src exch d in
     stops_at fetch (providers_by_priority db) before p ->
     fetch p = Ok (VDict items) ->
     items <> [] ->
     known db src = true -> known db exch = true ->
     dict_get exch items = None ->
     fetch_historical_rates_from_provider w db log src exch d
     = (Raise (KeyError exch), db, logged fetch log before)).
Proof.
  intros Hrates; split.
  - intros H; apply fetch_historical_returned in H.
    unfold store_historical, py_contains, dict_mem, subscript in H.
    rewrite Hrates in H; cbn [bind] in H.
    rewrite !currency_id_known in H.
    destruct (known db src); cbn [bind] in H; [| discriminate H].
    destruct (known db exch); cbn [bind] in H; [| discriminate H].
    destruct (dict_get exch items) as [rate |]; cbn [bind] in H;
      [| discriminate H].
    inversion H.
    exists (mkRate src exch d rate); repeat split; eauto.
  - intros before p fetch Hstop Hp Hne Hsrc Hexch Hnone.
    assert (Htruthy : truthy (VDict items) = true)
      by (destruct items; [contradiction | reflexivity]).
    rewrite (fetch_historical_stops w db log src exch d before p (VDict items)
               Hstop Hp Htruthy).
    unfold store_historical, py_contains, dict_mem, subscript.
    rewrite Hrates; cbn [bind].
    rewrite !currency_id_known, Hsrc, Hexch; cbn [bind].
    rewrite Hnone; reflexivity.
Qed.

(** The HTTP provider answers {USD: 1.1, GBP: 0.9} for EUR: asked for USD,
    the fetch writes a row for USD and none for GBP; asked for CHF, it
    raises KeyError and writes nothing. *)
Lemma fetch_historical_writes_pair_witness :
  (exists row,
     db_after (fetch_historical_rates_from_provider (any_api eur_rates)
                 http_db [] "EUR" "USD" (jan 24))
     = insert_rates http_db [row] /\
     row_key row = ("EUR", "USD", jan 24) /\
     (exists rate, dict_get "USD" eur_rates = Some rate) /\
     known http_db "EUR" = true /\ known http_db "USD" = true) /\
  fetch_historical_rates_from_provider (any_api eur_rates) http_db []
    "EUR" "CHF" (jan 24)
  = (Raise (KeyError "CHF"), http_db, []).
Proof.
  split.
  - destruct (fetch_historical_writes_pair (any_api eur_rates) http_db
                (db_after (fetch_historical_rates_from_provider
                             (any_api eur_rates) http_db [] "EUR" "USD"
                             (jan 24)))
                [] [] "EUR" "USD" (jan 24) eur_rates eq_refl) as [Hrow _].
    apply Hrow; vm_compute; reflexivity.
  - destruct (fetch_historical_writes_pair (any_api eur_rates) http_db
                http_db [] [] "EUR" "CHF" (jan 24) eur_rates eq_refl)
      as [_ Hraise].
    apply (Hraise [] (http_provider 1 None)).
    + split; [exists []; reflexivity | constructor].
    + vm_compute; reflexivity.
    + intros E; discriminate E.
    + reflexivity.
    + reflexivity.
    + reflexivity.
Defined.

(** ** Dates *)

Lemma date_leb_iff (a b : date) :
  date_leb a b = true <->
  (year a < year b \/
   (year a = year b /\
    (month a < month b \/ (month a = month b /\ day a <= day b))))%N.
Proof.
  unfold date_leb.
  rewrite Bool.orb_true_iff, Bool.andb_true_iff, Bool.orb_true_iff,
    Bool.andb_true_iff, !N.ltb_lt, !N.eqb_eq, N.leb_le.
  reflexivity.
Qed.

Lemma date_eqb_eq (a b : date) : date_eqb a b = true <-> a = b.
Proof.
  unfold date_eqb; rewrite !Bool.andb_true_iff, !N.eqb_eq.
  destruct a, b; simpl; split.
  - intros [[-> ->] ->]; reflexivity.
  - intros H; inversion H; auto.
Qed.

Lemma date_eqb_refl (a : date) : date_eqb a a = true.
Proof. apply date_eqb_eq; reflexivity. Qed.

Lemma date_eqb_sym (a b : date) : date_eqb a b = date_eqb b a.
Proof.
  destruct (date_eqb a b) eqn:E.
  - apply date_eqb_eq in E; subst; symmetry; apply date_eqb_refl.
  - destruct (date_eqb b a) eqn:E'; [| reflexivity].
    apply date_eqb_eq in E'; subst; rewrite date_eqb_refl in E; discriminate.
Qed.

Lemma date_leb_refl (a : date) : date_leb a a = true.
Proof. apply date_leb_iff; lia. Qed.

Lemma date_leb_trans (a b c : date) :
  date_leb a b = true -> date_leb b c = true -> date_leb a c = true.
Proof. rewrite !date_leb_iff; lia. Qed.

Lemma date_leb_total (a b : date) : date_leb a b = true \/ date_leb b a = true.
Proof. rewrite !date_leb_iff; lia. Qed.

Lemma date_leb_antisym (a b : date) :
  date_leb a b = true -> date_leb b a = true -> a = b.
Proof.
  rewrite !date_leb_iff; intros H1 H2.
  destruct a, b; simpl in *; f_equal; lia.
Qed.

(** ** Sorting *)

Section Sorting.

Context {A : Type}.
Variable le : A -> A -> bool.

Lemma insert_by_perm (x : A) (l : list A) : Permutation (x :: l) (insert_by le x l).
Proof.
  induction l as [| y l IH]; simpl; [reflexivity |].
  destruct (le y x); [| reflexivity].
  rewrite perm_swap; constructor; exact IH.
Qed.

Lemma sort_by_perm_acc (l acc : list A) :
  Permutation (l ++ acc)%list
    (fold_left (fun acc x => insert_by le x acc) l acc).
Proof.
  revert acc; induction l as [| x l IH]; intros acc; simpl; [reflexivity |].
  rewrite <- IH.
  rewrite Permutation_middle.
  apply Permutation_app_head, insert_by_perm.
Qed.

Lemma sort_by_perm (l : list A) : Permutation l (sort_by le l).
Proof.
  unfold sort_by; rewrite <- sort_by_perm_acc, app_nil_r; reflexivity.
Qed.

Hypothesis le_total : forall a b, le a b = true \/ le b a = true.
Hypothesis le_trans : forall a b c, le a b = true -> le b c = true -> le a c = true.

Lemma insert_by_sorted (x : A) (l : list A) :
  StronglySorted (fun a b => le a b = true) l ->
  StronglySorted (fun a b => le a b = true) (insert_by le x l).
Proof.
  induction 1 as [| y l Hs IH Hy]; simpl.
  - constructor; constructor.
  - destruct (le y x) eqn:Hyx.
    + constructor; [exact IH |].
      rewrite Forall_forall; intros z Hz.
      apply (Permutation_in _ (Permutation_sym (insert_by_perm x l))) in Hz.
      destruct Hz as [<- | Hz]; [exact Hyx |].
      rewrite Forall_forall in Hy; apply Hy; exact Hz.
    + assert (Hxy : le x y = true)
        by (destruct (le_total x y) as [H | H]; [exact H | congruence]).
      constructor; [constructor; assumption |].
      constructor; [exact Hxy |].
      rewrite Forall_forall in *; intros z Hz.
      apply (le_trans _ _ _ Hxy); apply Hy; exact Hz.
Qed.

Lemma sort_by_sorted (l : list A) :
  StronglySorted (fun a b => le a b = true) (sort_by le l).
Proof.
  unfold sort_by.
  assert (H : forall acc,
             StronglySorted (fun a b => le a b = true) acc ->
             StronglySorted (fun a b => le a b = true)
               (fold_left (fun acc x => insert_by le x acc) l acc)).
  { induction l as [| x l IH]; intros acc Hacc; simpl; [exact Hacc |].
    apply IH, insert_by_sorted; exact Hacc. }
  apply H; constructor.
Qed.

End Sorting.

(** An element is put after those that are not after it: the sort keeps
    the order of a list whose elements all compare alike. *)
Lemma sort_by_same {A : Type} (le : A -> A -> bool) (l : list A) :
  (forall a b, In a l -> In b l -> le a b = true) -> sort_by le l = l.
Proof.
  intros Hle; unfold sort_by.
  assert (Hins : forall x acc,
             (forall y, In y acc -> le y x = true) ->
             insert_by le x acc = (acc ++ [x])%list).
  { intros x acc; induction acc as [| y acc IH]; intros H; simpl; [reflexivity |].
    rewrite (H y (or_introl eq_refl)), IH; [reflexivity |].
    intros z Hz; apply H; right; exact Hz. }
  assert (H : forall l' acc,
             (forall a b, In a (acc ++ l')%list -> In b (acc ++ l')%list ->
                          le a b = true) ->
             fold_left (fun acc x => insert_by le x acc) l' acc = (acc ++ l')%list).
  { induction l' as [| x l' IH]; intros acc Hall; simpl.
    - rewrite app_nil_r; reflexivity.
    - rewrite Hins.
      + rewrite IH; rewrite <- app_assoc; [reflexivity | exact Hall].
      + intros y Hy; apply Hall; apply in_or_app;
          [left; exact Hy | right; left; reflexivity]. }
  apply (H l []); exact Hle.
Qed.

Lemma get_db_rates_perm (db : DB) (src exch : string)
    (date_from date_to : date) :
  Permutation (filter (selected src exch date_from date_to) (exchange_rates db))
              (get_db_rates db src exch date_from date_to).
Proof.
  unfold get_db_rates; rewrite <- sort_by_perm.
  unfold selected; destruct (String.eqb src "EUR"); reflexivity.
Qed.

Lemma get_db_rates_sorted (db : DB) (src exch : string)
    (date_from date_to : date) :
  StronglySorted by_date (get_db_rates db src exch date_from date_to).
Proof.
  unfold get_db_rates, by_date.
  apply (sort_by_sorted
           (fun a b => date_leb (valuation_date a) (valuation_date b))).
  - intros a b; apply date_leb_total.
  - intros a b c; apply date_leb_trans.
Qed.

(** X6. [get_db_rates] returns the stored rows whose valuation date lies
    in the inclusive range (for the source EUR: those that also have EUR as
    source and the requested exchanged currency), each as often as it is
    stored, in ascending order of valuation date. *)
Theorem get_db_rates_selects (db : DB) (src exch : string)
    (date_from date_to : date) :
  Permutation (filter (selected src exch date_from date_to) (exchange_rates db))
              (get_db_rates db src exch date_from date_to) /\
  StronglySorted by_date (get_db_rates db src exch date_from date_to).
Proof.
  split; [apply get_db_rates_perm | apply get_db_rates_sorted].
Qed.

(** ** Grouping by date *)

Lemma group_of_append (d' d : date) (r : CurrencyExchangeRate)
    (G : list (date * list CurrencyExchangeRate)) :
  group_of d' (group_append d r G) =
  if date_eqb d' d
  then Some (match group_of d G with
             | Some g => (g ++ [r])%list
             | None => [r]
             end)
  else group_of d' G.
Proof.
  induction G as [| [d0 rows] G IH]; simpl.
  - destruct (date_eqb d' d); reflexivity.
  - destruct (date_eqb d d0) eqn:E; simpl.
    + apply date_eqb_eq in E; subst d0.
      destruct (date_eqb d' d); reflexivity.
    + rewrite IH.
      destruct (date_eqb d' d0) eqn:E0, (date_eqb d' d) eqn:E1; try reflexivity.
      apply date_eqb_eq in E0, E1; subst.
      rewrite date_eqb_refl in E; discriminate.
Qed.

Lemma rows_on_snoc (d : date) (l : list CurrencyExchangeRate)
    (r : CurrencyExchangeRate) :
  rows_on d (l ++ [r])%list
  = (rows_on d l ++ if date_eqb (valuation_date r) d then [r] else [])%list.
Proof.
  unfold rows_on; rewrite filter_app; simpl.
  destruct (date_eqb (valuation_date r) d); reflexivity.
Qed.

Lemma grouped_snoc (l : list CurrencyExchangeRate) (r : CurrencyExchangeRate) :
  rates_grouped_by_date (l ++ [r])%list
  = group_append (valuation_date r) r (rates_grouped_by_date l).
Proof. unfold rates_grouped_by_date; rewrite fold_left_app; reflexivity. Qed.

Lemma group_of_grouped (rows : list CurrencyExchangeRate) (d : date) :
  group_of d (rates_grouped_by_date rows)
  = match rows_on d rows with
    | [] => None
    | g => Some g
    end.
Proof.
  revert d; induction rows as [| r rows IH] using rev_ind; intros d;
    [reflexivity |].
  rewrite grouped_snoc, group_of_append, rows_on_snoc, !IH.
  destruct (date_eqb d (valuation_date r)) eqn:E.
  - apply date_eqb_eq in E; subst d; rewrite date_eqb_refl.
    destruct (rows_on (valuation_date r) rows); reflexivity.
  - rewrite date_eqb_sym, E, app_nil_r; reflexivity.
Qed.

Lemma keys_append (d : date) (r : CurrencyExchangeRate)
    (G : list (date * list CurrencyExchangeRate)) :
  map fst (group_append d r G)
  = if existsb (date_eqb d) (map fst G) then map fst G
    else (map fst G ++ [d])%list.
Proof.
  induction G as [| [d0 rows] G IH]; simpl; [reflexivity |].
  destruct (date_eqb d d0); simpl; [reflexivity |].
  rewrite IH; destruct (existsb (date_eqb d) (map fst G)); reflexivity.
Qed.

Lemma existsb_date_false (d : date) (l : list date) :
  existsb (date_eqb d) l = false -> ~ In d l.
Proof.
  intros H Hin.
  assert (E : existsb (date_eqb d) l = true)
    by (apply existsb_exists; exists d; split; [exact Hin | apply date_eqb_refl]).
  congruence.
Qed.

Lemma grouped_keys_nodup (rows : list CurrencyExchangeRate) :
  NoDup (map fst (rates_grouped_by_date rows)).
Proof.
  induction rows as [| r rows IH] using rev_ind; [constructor |].
  rewrite grouped_snoc, keys_append.
  destruct (existsb _ _) eqn:E; [exact IH |].
  apply existsb_date_false in E.
  apply (Permutation_NoDup (Permutation_cons_append _ _)).
  constructor; assumption.
Qed.

Lemma group_of_In (G : list (date * list CurrencyExchangeRate)) (d : date)
    (g : list CurrencyExchangeRate) :
  NoDup (map fst G) -> (In (d, g) G <-> group_of d G = Some g).
Proof.
  induction G as [| [d0 rows] G IH]; simpl; intros Hnd.
  - split; [intros [] | discriminate].
  - inversion Hnd as [| ? ? Hnotin Hnd']; subst.
    destruct (date_eqb d d0) eqn:E.
    + apply date_eqb_eq in E; subst d0; split.
      * intros [H | H]; [inversion H; reflexivity |].
        exfalso; apply Hnotin.
        change d with (fst (d, g)); apply in_map; exact H.
      * intros H; inversion H; left; reflexivity.
    + rewrite <- (IH Hnd'); split.
      * intros [H | H]; [| exact H].
        inversion H; subst; rewrite date_eqb_refl in E; discriminate.
      * intros H; right; exact H.
Qed.

Lemma grouped_In (rows : list CurrencyExchangeRate) (d : date)
    (g : list CurrencyExchangeRate) :
  In (d, g) (rates_grouped_by_date rows) <-> g = rows_on d rows /\ g <> [].
Proof.
  rewrite (group_of_In _ d g (grouped_keys_nodup rows)), group_of_grouped.
  destruct (rows_on d rows) as [| r g']; split.
  - discriminate.
  - intros [-> H]; contradiction.
  - intros H; inversion H; split; [reflexivity | discriminate].
  - intros [-> _]; reflexivity.
Qed.

(** X7. The grouping of [process_db_rates] makes one group per valuation
    date that occurs in the query: the dates of the groups are pairwise
    distinct, and a date has a group exactly when some row of the query has
    it, the group then holding all the rows of that date, in the order of
    the query. *)
Theorem grouping_partitions_by_date (rows : list CurrencyExchangeRate) :
  NoDup (map fst (rates_grouped_by_date rows)) /\
  (forall d g,
     In (d, g) (rates_grouped_by_date rows) <->
     g = rows_on d rows /\ g <> []) /\
  (forall r, In r rows ->
     In (valuation_date r, rows_on (valuation_date r) rows)
        (rates_grouped_by_date rows)).
Proof.
  split; [apply grouped_keys_nodup |]; split; [apply grouped_In |].
  intros r Hr; apply grouped_In; split; [reflexivity |].
  assert (Hin : In r (rows_on (valuation_date r) rows))
    by (apply filter_In; split; [exact Hr | apply date_eqb_refl]).
  intros E; rewrite E in Hin; exact Hin.
Qed.

Lemma grouped_key_row (rows : list CurrencyExchangeRate) (d : date) :
  In d (map fst (rates_grouped_by_date rows)) <->
  exists r, In r rows /\ valuation_date r = d.
Proof.
  split.
  - intros H; apply in_map_iff in H; destruct H as ([d' g] & <- & Hin); simpl.
    apply grouped_In in Hin; destruct Hin as [-> Hne].
    destruct (rows_on d' rows) as [| r g'] eqn:E; [contradiction |].
    assert (Hr : In r (rows_on d' rows)) by (rewrite E; left; reflexivity).
    apply filter_In in Hr; destruct Hr as [Hr Hd].
    apply date_eqb_eq in Hd; eauto.
  - intros (r & Hr & <-).
    change (valuation_date r)
      with (fst (valuation_date r, rows_on (valuation_date r) rows)).
    apply in_map, grouped_In; split; [reflexivity |].
    assert (Hin : In r (rows_on (valuation_date r) rows))
      by (apply filter_In; split; [exact Hr | apply date_eqb_refl]).
    intros E; rewrite E in Hin; exact Hin.
Qed.

Lemma sorted_snoc_inv {A : Type} (R : A -> A -> Prop) (l : list A) (x : A) :
  StronglySorted R (l ++ [x])%list ->
  StronglySorted R l /\ Forall (fun y => R y x) l.
Proof.
  induction l as [| a l IH]; simpl; intros H.
  - split; constructor.
  - inversion H as [| ? ? Hs Hall]; subst.
    destruct (IH Hs) as [Hl Hx].
    rewrite Forall_app in Hall; destruct Hall as [Hal Hax].
    split; constructor; try assumption.
    inversion Hax; assumption.
Qed.

Lemma sorted_snoc {A : Type} (R : A -> A -> Prop) (l : list A) (x : A) :
  StronglySorted R l -> Forall (fun y => R y x) l ->
  StronglySorted R (l ++ [x])%list.
Proof.
  induction 1 as [| a l Hs IH Ha]; simpl; intros Hx.
  - constructor; constructor.
  - inversion Hx; subst.
    constructor; [apply IH; assumption |].
    rewrite Forall_app; split; [exact Ha | constructor; [assumption | constructor]].
Qed.

Lemma grouped_ascending (rows : list CurrencyExchangeRate) :
  StronglySorted by_date rows ->
  StronglySorted date_lt (map fst (rates_grouped_by_date rows)).
Proof.
  induction rows as [| r rows IH] using rev_ind; intros Hs; [constructor |].
  apply sorted_snoc_inv in Hs; destruct Hs as [Hs Hr].
  rewrite grouped_snoc, keys_append.
  destruct (existsb _ _) eqn:E; [exact (IH Hs) |].
  apply existsb_date_false in E.
  apply sorted_snoc; [exact (IH Hs) |].
  rewrite Forall_forall; intros d Hd; split.
  - apply grouped_key_row in Hd; destruct Hd as (r' & Hr' & <-).
    rewrite Forall_forall in Hr; apply Hr; exact Hr'.
  - intros ->; contradiction.
Qed.

Lemma process_group_date (src : string)
    (g : date * list CurrencyExchangeRate) (rm : value) :
  process_group src g = Ok rm ->
  subscript rm "date" = Ok (date_entry src (fst g)).
Proof.
  destruct g as [d rates]; unfold process_group, date_entry.
  destruct (String.eqb src "EUR").
  - intros H; inversion H; reflexivity.
  - destruct (find _ rates) as [base |]; [| discriminate].
    intros H.
    apply bind_Ok_inv in H; destruct H as (processed & _ & H).
    apply bind_Ok_inv in H; destruct H as (q & _ & H).
    apply bind_Ok_inv in H; destruct H as (eur & _ & H).
    inversion H; reflexivity.
Qed.

Lemma get_db_rates_In (db : DB) (src exch : string) (date_from date_to : date)
    (r : CurrencyExchangeRate) :
  In r (get_db_rates db src exch date_from date_to) <->
  In r (exchange_rates db) /\ selected src exch date_from date_to r = true.
Proof.
  pose proof (get_db_rates_perm db src exch date_from date_to) as Hperm.
  rewrite <- filter_In; split; intros H.
  - apply (Permutation_in _ (Permutation_sym Hperm)); exact H.
  - apply (Permutation_in _ Hperm); exact H.
Qed.

(** X8. When [get_currency_rates_for_period] returns, it returns one map
    per valuation date that has a selected row in the store, in strictly
    ascending order of date; the map of a date carries it under "date", as
    the string YYYY-MM-DD for the source EUR and as the date itself
    otherwise. *)
Theorem period_rates_one_map_per_date (db : DB) (src exch : string)
    (date_from date_to : date) (out : list value) :
  get_currency_rates_for_period db src exch date_from date_to = Ok out ->
  exists dates,
    StronglySorted date_lt dates /\
    (forall d, In d dates <->
       exists r, In r (exchange_rates db) /\
                 selected src exch date_from date_to r = true /\
                 valuation_date r = d) /\
    Forall2 (fun d rm => subscript rm "date" = Ok (date_entry src d)) dates out.
Proof.
  rewrite period_rates_mapM; intros H; apply mapM_Ok_Forall2 in H.
  exists (map fst (rates_grouped_by_date
                     (get_db_rates db src exch date_from date_to))).
  split; [apply grouped_ascending, get_db_rates_sorted |]; split.
  - intros d; rewrite grouped_key_row; split.
    + intros (r & Hr & Hd); apply get_db_rates_In in Hr; exists r; tauto.
    + intros (r & Hr & Hsel & Hd); exists r; split; [| exact Hd].
      apply get_db_rates_In; tauto.
  - induction H as [| g rm groups out' Hg _ IH]; simpl; constructor;
      [apply process_group_date; exact Hg | exact IH].
Qed.

(** Two days of USD-based and EUR-based rows, read for the source USD. *)
Lemma period_rates_one_map_per_date_witness :
  exists out,
    get_currency_rates_for_period usd_eur_store "USD" "EUR" (jan 23) (jan 24)
    = Ok out /\
    exists dates,
      StronglySorted date_lt dates /\
      (forall d, In d dates <->
         exists r, In r (exchange_rates usd_eur_store) /\
                   selected "USD" "EUR" (jan 23) (jan 24) r = true /\
                   valuation_date r = d) /\
      Forall2 (fun d rm => subscript rm "date" = Ok (date_entry "USD" d))
              dates out.
Proof.
  eexists; split; [vm_compute; reflexivity |].
  apply (period_rates_one_map_per_date usd_eur_store "USD" "EUR"
           (jan 23) (jan 24)).
  vm_compute; reflexivity.
Defined.

Lemma mapM_map {A B : Type} (f : A -> result B) (h : A -> B) (l : list A) :
  (forall a, f a = Ok (h a)) -> mapM f l = Ok (map h l).
Proof.
  intros H; induction l as [| a l IH]; simpl; [reflexivity |].
  rewrite H, IH; reflexivity.
Qed.

Lemma fold_set_same_key (k : string) (items : list (string * value))
    (v0 : value) :
  Forall (fun kv => fst kv = k) items ->
  exists v,
    (v = v0 \/ In (k, v) items) /\
    fold_left (fun d kv => dict_set (fst kv) (snd kv) d) items [(k, v0)]
    = [(k, v)].
Proof.
  revert v0; induction items as [| [k1 v1] items IH]; intros v0 Hall; simpl.
  - exists v0; split; [left |]; reflexivity.
  - inversion Hall as [| ? ? Hk Hall']; simpl in Hk; subst.
    rewrite String.eqb_refl.
    destruct (IH v1 Hall') as (v & [E | Hin] & Hv); exists v; split;
      try exact Hv; right; [left; rewrite E; reflexivity | right; exact Hin].
Qed.

Lemma dict_of_items_same_key (k : string) (items : list (string * value)) :
  items <> [] -> Forall (fun kv => fst kv = k) items ->
  exists v, In (k, v) items /\ dict_of_items items = [(k, v)].
Proof.
  destruct items as [| [k0 v0] items]; [contradiction |].
  intros _ Hall; inversion Hall as [| ? ? Hk Hall']; simpl in Hk; subst.
  destruct (fold_set_same_key k items v0 Hall') as (v & Hv & Heq).
  exists v; split; [| exact Heq].
  destruct Hv as [-> | Hin]; [left; reflexivity | right; exact Hin].
Qed.

(** X9. For the source EUR [get_currency_rates_for_period] never raises,
    and each map it returns has the form
    {"date": "YYYY-MM-DD", "rates": {exchanged: r}}, where r is the rate of
    a stored row for EUR, the exchanged currency and that date, the date
    lying in the inclusive range. *)
Theorem period_rates_eur (db : DB) (exch : string) (date_from date_to : date) :
  exists out,
    get_currency_rates_for_period db "EUR" exch date_from date_to = Ok out /\
    Forall (fun rm =>
              exists d r,
                In (mkRate "EUR" exch d r) (exchange_rates db) /\
                date_leb date_from d = true /\ date_leb d date_to = true /\
                rm = eur_rate_map exch d r) out.
Proof.
  rewrite period_rates_mapM.
  set (groups := rates_grouped_by_date
                   (get_db_rates db "EUR" exch date_from date_to)).
  set (h := fun g : date * list CurrencyExchangeRate =>
              VDict [("date", VStr (strftime (fst g)));
                     ("rates",
                      VDict (dict_of_items
                               (map (fun r => (exchanged_currency r, rate_value r))
                                    (snd g))))]).
  exists (map h groups); split.
  - apply mapM_map; intros [d rows]; reflexivity.
  - rewrite Forall_forall; intros rm Hrm.
    apply in_map_iff in Hrm; destruct Hrm as ([d rows] & <- & Hg).
    apply grouped_In in Hg; destruct Hg as [Hrows Hne].
    assert (Hsel : forall r, In r rows ->
                     In r (exchange_rates db) /\
                     selected "EUR" exch date_from date_to r = true /\
                     valuation_date r = d).
    { intros r Hr; rewrite Hrows in Hr; apply filter_In in Hr.
      destruct Hr as [Hr Hd]; apply date_eqb_eq in Hd.
      apply get_db_rates_In in Hr; tauto. }
    destruct (dict_of_items_same_key exch
                (map (fun r => (exchanged_currency r, rate_value r)) rows))
      as (v & Hv & Heq).
    + destruct rows; [contradiction | discriminate].
    + rewrite Forall_forall; intros kv Hkv.
      apply in_map_iff in Hkv; destruct Hkv as (r & <- & Hr); simpl.
      destruct (Hsel r Hr) as (_ & Hs & _).
      unfold selected in Hs; simpl in Hs.
      apply andb_prop in Hs; destruct Hs as [Hs _].
      apply andb_prop in Hs; destruct Hs as [_ Hs].
      apply String.eqb_eq; exact Hs.
    + apply in_map_iff in Hv; destruct Hv as (r & Hr' & Hr).
      destruct (Hsel r Hr) as (Hdb & Hs & Hd).
      unfold selected in Hs; simpl in Hs.
      apply andb_prop in Hs; destruct Hs as [Hs Hrange].
      apply andb_prop in Hs; destruct Hs as [Hsrc Hexch].
      apply andb_prop in Hrange; destruct Hrange as [Hfrom Hto].
      apply String.eqb_eq in Hsrc, Hexch.
      exists d, v; unfold h, eur_rate_map; simpl; rewrite Heq.
      destruct r as [s c dd rv]; simpl in *; inversion Hr'; subst.
      repeat split; assumption.
Qed.

(** ** Reading back what a historical fetch wrote *)

Lemma filter_key_wf (k : string) (v : value) (m : dict) :
  dict_wf m -> dict_get k m = Some v ->
  filter (fun kv => String.eqb (fst kv) k) m = [(k, v)].
Proof.
  unfold dict_wf; induction m as [| [k' v'] m IH]; simpl; [discriminate |].
  intros Hnd Hget; inversion Hnd as [| ? ? Hnotin Hnd']; subst.
  destruct (String.eqb_spec k k') as [<- | Hne].
  - inversion Hget; subst; rewrite String.eqb_refl; f_equal.
    clear IH Hget Hnd; induction m as [| [k2 v2] m IHm]; simpl; [reflexivity |].
    inversion Hnd' as [| ? ? Hn2 Hnd2]; subst.
    destruct (String.eqb_spec k2 k) as [-> | _].
    + exfalso; apply Hnotin; left; reflexivity.
    + apply IHm; [intros H; apply Hnotin; right; exact H | exact Hnd2].
  - destruct (String.eqb_spec k' k) as [-> | _]; [contradiction |].
    apply IH; assumption.
Qed.

Lemma eur_read_back (db : DB) (exch : string) (d : date) (r : value)
    (m : dict) :
  dict_wf m -> dict_get exch m = Some r ->
  (forall row, In row (exchange_rates db) ->
               selected "EUR" exch d d row = false) ->
  get_currency_rates_for_period (insert_rates db (rows_of "EUR" d m))
    "EUR" exch d d
  = Ok [eur_rate_map exch d r].
Proof.
  intros Hwf Hget Hnone.
  pose proof (get_db_rates_perm (insert_rates db (rows_of "EUR" d m))
                "EUR" exch d d) as Hperm.
  simpl exchange_rates in Hperm; rewrite filter_app in Hperm.
  assert (Hold : filter (selected "EUR" exch d d) (exchange_rates db) = []).
  { clear Hperm; induction (exchange_rates db) as [| row l IH]; simpl;
      [reflexivity |].
    rewrite (Hnone row (or_introl eq_refl)).
    apply IH; intros row' H; apply Hnone; right; exact H. }
  assert (Hnew : filter (selected "EUR" exch d d) (rows_of "EUR" d m)
                 = [mkRate "EUR" exch d r]).
  { unfold rows_of.
    assert (Hswap : forall l : dict,
               filter (selected "EUR" exch d d)
                      (map (fun kv => mkRate "EUR" (fst kv) d (snd kv)) l)
               = map (fun kv => mkRate "EUR" (fst kv) d (snd kv))
                     (filter (fun kv => String.eqb (fst kv) exch) l)).
    { induction l as [| kv l IH]; simpl; [reflexivity |].
      unfold selected at 1, in_range; simpl.
      rewrite date_leb_refl, !Bool.andb_true_r.
      destruct (String.eqb (fst kv) exch); simpl; rewrite IH; reflexivity. }
    rewrite Hswap, (filter_key_wf exch r m Hwf Hget); reflexivity. }
  rewrite Hold, Hnew in Hperm; simpl in Hperm.
  apply Permutation_length_1_inv in Hperm.
  rewrite period_rates_mapM, Hperm; reflexivity.
Qed.

Lemma dict_get_key (k : string) (m : dict) :
  In k (map fst m) -> exists v, dict_get k m = Some v.
Proof.
  induction m as [| [k' v'] m IH]; simpl; [intros [] |].
  destruct (String.eqb_spec k k') as [-> | Hne]; [eauto |].
  intros [E | H]; [congruence | apply IH; exact H].
Qed.

(** X10. Round trip through the store. When a historical fetch for the
    source EUR and the date d returns a record whose "rates" mapping has no
    repeated symbol, and the store held no EUR row for a symbol c of the
    mapping on d before the call, then reading the period [d, d] for EUR
    and c from the store the call has left returns exactly one map: the
    date d as YYYY-MM-DD with the single entry c, whose rate is the one the
    store holds in a row for EUR, c and d. *)
Theorem fetch_historical_read_back (w : World) (db db' : DB)
    (log log' : list string) (exch c : string) (d : date) (items m : dict) :
  fetch_historical_rates_from_provider w db log "EUR" exch d
  = (Ok (VDict items), db', log') ->
  dict_get "rates" items = Some (VDict m) ->
  dict_wf m ->
  In c (map fst m) ->
  (forall row, In row (exchange_rates db) ->
               selected "EUR" c d d row = false) ->
  exists r,
    In (mkRate "EUR" c d r) (exchange_rates db') /\
    get_currency_rates_for_period db' "EUR" c d d = Ok [eur_rate_map c d r].
Proof.
  intros H Hrates Hwf Hc Hnone.
  destruct (fetch_historical_rates_rows w db db' log log' "EUR" exch d items
              (VDict m) H Hrates) as (m' & E & -> & _).
  inversion E; subst m'; clear E.
  destruct (dict_get_key c m Hc) as (r & Hr).
  exists r; split.
  - simpl; apply in_or_app; right; unfold rows_of.
    apply in_map_iff; exists (c, r); split; [reflexivity |].
    apply dict_get_In; exact Hr.
  - apply eur_read_back; assumption.
Qed.

(** The EUR record of the JSON provider's file, fetched for USD on
    2024-01-25 and read back for GBP. *)
Lemma fetch_historical_read_back_witness :
  exists r,
    In (mkRate "EUR" "GBP" (jan 25) r)
       (exchange_rates
          (db_after (fetch_historical_rates_from_provider file_world
                       (json_db test_currencies) [] "EUR" "USD" (jan 25)))) /\
    get_currency_rates_for_period
      (db_after (fetch_historical_rates_from_provider file_world
                   (json_db test_currencies) [] "EUR" "USD" (jan 25)))
      "EUR" "GBP" (jan 25) (jan 25)
    = Ok [eur_rate_map "GBP" (jan 25) r].
Proof.
  apply (fetch_historical_read_back file_world (json_db test_currencies)
           (db_after (fetch_historical_rates_from_provider file_world
                        (json_db test_currencies) [] "EUR" "USD" (jan 25)))
           [] [] "USD" "GBP" (jan 25) eur_record
           [("USD", VFloat (Flt.of_ratio false 1082573 1000000));
            ("CHF", VFloat (Flt.of_ratio false 939527 1000000));
            ("GBP", VFloat (Flt.of_ratio false 852586 1000000))]).
  - vm_compute; reflexivity.
  - reflexivity.
  - repeat constructor; simpl; intuition discriminate.
  - right; right; left; reflexivity.
  - intros row [].
Defined.

(** ** [calculate_twrr] on a prefix of its input *)

Lemma twrr_step_appends (rows : list value) (amount p p' : value)
    (acc acc' : list value) (i : nat) :
  twrr_step rows amount (p, acc) i = Ok (p', acc') ->
  exists pt, acc' = (acc ++ [pt])%list.
Proof.
  unfold twrr_step; intros H.
  repeat (apply bind_Ok_inv in H; destruct H as (? & _ & H)).
  inversion H; eauto.
Qed.

Lemma twrr_loop_appends (rows : list value) (amount : value) (l : list nat) :
  forall p acc p' acc',
    foldM (twrr_step rows amount) l (p, acc) = Ok (p', acc') ->
    exists ext, acc' = (acc ++ ext)%list /\ List.length ext = List.length l.
Proof.
  induction l as [| i l IH]; simpl; intros p acc p' acc' H.
  - inversion H; exists []; rewrite app_nil_r; split; reflexivity.
  - apply bind_Ok_inv in H; destruct H as ([p1 acc1] & Hstep & H).
    apply twrr_step_appends in Hstep; destruct Hstep as (pt & ->).
    apply IH in H; destruct H as (ext & -> & Hlen).
    exists (pt :: ext); rewrite <- app_assoc; simpl; split; [reflexivity | lia].
Qed.

Lemma twrr_loop_prefix (rows : list value) (amount : value) (m : nat) :
  (m <= List.length rows)%nat ->
  foldM (twrr_step (firstn m rows) amount) (seq 1 (m - 1)) (VDec Dec.one, [])
  = foldM (twrr_step rows amount) (seq 1 (m - 1)) (VDec Dec.one, []).
Proof.
  intros Hm; apply foldM_ext_in; intros i s Hi.
  apply in_seq in Hi; apply twrr_step_firstn; lia.
Qed.

Lemma twrr_loop_split (rows : list value) (amount : value) (m : nat) :
  (m <= List.length rows)%nat ->
  foldM (twrr_step rows amount) (seq 1 (List.length rows - 1)) (VDec Dec.one, [])
  = bind (foldM (twrr_step (firstn m rows) amount) (seq 1 (m - 1))
                (VDec Dec.one, []))
         (foldM (twrr_step rows amount)
                (seq (1 + (m - 1)) (List.length rows - 1 - (m - 1)))).
Proof.
  intros Hm; rewrite twrr_loop_prefix by exact Hm.
  rewrite <- foldM_app, <- seq_app.
  replace (m - 1 + (List.length rows - 1 - (m - 1)))%nat
    with (List.length rows - 1)%nat by lia.
  reflexivity.
Qed.

(** X11. The points of [calculate_twrr] depend only on the rows up to
    them: when the computation on a series returns, the computation on its
    first m rows returns the first m-1 of the same points; and an exception
    raised on the first m rows is the one raised on the whole series. *)
Theorem calculate_twrr_prefix (rows : list value) (amount : value) (m : nat) :
  (forall pts,
     calculate_twrr rows amount = Ok pts ->
     calculate_twrr (firstn m rows) amount = Ok (firstn (m - 1) pts)) /\
  (forall e,
     calculate_twrr (firstn m rows) amount = Raise e ->
     calculate_twrr rows amount = Raise e).
Proof.
  destruct (Nat.le_gt_cases m (List.length rows)) as [Hm | Hm].
  - unfold calculate_twrr.
    rewrite length_firstn, Nat.min_l by exact Hm.
    rewrite (twrr_loop_split rows amount m Hm).
    destruct (foldM (twrr_step (firstn m rows) amount) (seq 1 (m - 1))
                    (VDec Dec.one, [])) as [[p acc] | e0] eqn:Hpre; simpl.
    + pose proof (twrr_loop_appends _ _ _ _ _ _ _ Hpre) as (ext0 & E0 & Hlen0).
      simpl in E0; subst acc; rewrite length_seq in Hlen0.
      split; [| discriminate].
      intros pts H.
      apply bind_Ok_inv in H; destruct H as ([p' acc'] & Hrest & H).
      inversion H; subst pts; simpl.
      apply twrr_loop_appends in Hrest; destruct Hrest as (ext & -> & _).
      rewrite firstn_app, <- Hlen0, Nat.sub_diag, firstn_all; simpl.
      rewrite app_nil_r; reflexivity.
    + split; [discriminate | intros e H; exact H].
  - rewrite firstn_all2 by lia; split.
    + intros pts H; rewrite H; f_equal.
      unfold calculate_twrr in H.
      apply bind_Ok_inv in H; destruct H as ([p' acc'] & Hloop & H).
      inversion H; subst pts; simpl.
      apply twrr_loop_appends in Hloop; destruct Hloop as (ext & -> & Hlen).
      rewrite length_seq in Hlen; simpl.
      symmetry; apply firstn_all2; lia.
    + intros e H; exact H.
Qed.

(** The series of the repository's test, cut after its second row; and a
    zero first rate, which fails on the first two rows as on all three. *)
Lemma calculate_twrr_prefix_witness :
  calculate_twrr (firstn 2 (map row_of test_series)) test_amount
  = Ok [twrr_point (VStr "2021-01-02")
          (VDec (Flt.to_decimal (Flt.of_ratio false 105 100)))
          (VDec (Dec.DFin false 1050000000 (-6)))] /\
  calculate_twrr
    (map dec_row_of (zero_first_series ++ [(VStr "2021-01-03", Dec.of_Z 2)])%list)
    test_amount
  = Raise DecimalDivisionByZero.
Proof.
  split.
  - destruct (calculate_twrr_prefix (map row_of test_series) test_amount 2)
      as [Hok _].
    rewrite (Hok [twrr_point (VStr "2021-01-02")
                    (VDec (Flt.to_decimal (Flt.of_ratio false 105 100)))
                    (VDec (Dec.DFin false 1050000000 (-6)));
                  twrr_point (VStr "2021-01-03")
                    (VDec (Flt.to_decimal (Flt.of_ratio false 110 100)))
                    (VDec (Dec.DFin false 1100000000 (-6)))]);
      [reflexivity | vm_compute; reflexivity].
  - destruct (calculate_twrr_prefix
                (map dec_row_of
                   (zero_first_series ++ [(VStr "2021-01-03", Dec.of_Z 2)])%list)
                test_amount 2) as [_ Herr].
    apply Herr; vm_compute; reflexivity.
Defined.

(** ** [get_weighted_ror] *)

(** X12. [get_weighted_ror] is decided by what
    [get_currency_rates_for_period] gives for the period from the start
    date to today. An exception of the period read propagates. With no map
    for the period, the back-filling loop raises TypeError on its first
    test, a datetime compared with a string. With exactly one map the
    result carries an empty "twrr" list. With two maps or more,
    [calculate_twrr] raises KeyError("rate_value"), the maps being keyed by
    "date" and "rates". No call returns a TWRR point. *)
Theorem get_weighted_ror_outcome (w : World) (db : DB) (src exch : string)
    (amount : value) (start_date : date) :
  get_weighted_ror w db src exch amount start_date
  = match get_currency_rates_for_period db src exch start_date
            (datetime_today w) with
    | Raise e => Raise e
    | Ok [] => Raise datetime_str_comparison
    | Ok [_] => Ok (ror_result src exch amount start_date [])
    | Ok (_ :: _ :: _) => Raise (KeyError "rate_value")
    end.
Proof.
  unfold get_weighted_ror.
  destruct (get_currency_rates_for_period db src exch start_date
              (datetime_today w)) as [rates | e] eqn:Hrates; [| reflexivity].
  apply period_rates_keys in Hrates.
  destruct rates as [| r0 [| r1 rest]]; cbn [bind].
  - reflexivity.
  - reflexivity.
  - inversion Hrates as [| ? ? Hr0 _]; subst.
    rewrite (@calculate_twrr_first_rate r0 r1 rest amount _ Hr0); reflexivity.
Qed.

(** ** The order in which providers are tried *)

Lemma providers_by_priority_perm (db : DB) :
  Permutation (providers db) (providers_by_priority db).
Proof. apply sort_by_perm. Qed.

Lemma providers_by_priority_sorted (db : DB) :
  StronglySorted (fun a b => (priority a <= priority b)%Z)
                 (providers_by_priority db).
Proof.
  assert (H : StronglySorted
                (fun a b => (priority a <=? priority b)%Z = true)
                (providers_by_priority db)).
  { apply (sort_by_sorted (fun a b => (priority a <=? priority b)%Z)).
    - intros a b; rewrite !Z.leb_le; lia.
    - intros a b c; rewrite !Z.leb_le; lia. }
  induction H as [| a l _ IH Ha]; constructor; [exact IH |].
  eapply Forall_impl; [| exact Ha].
  intros b Hb; apply Z.leb_le; exact Hb.
Qed.

Lemma sorted_middle {A : Type} (R : A -> A -> Prop) (l1 l2 : list A) (x : A) :
  StronglySorted R (l1 ++ x :: l2) -> Forall (R x) l2.
Proof.
  induction l1 as [| a l1 IH]; simpl; intros H;
    inversion H; subst; [assumption | apply IH; assumption].
Qed.

Lemma stops_at_served (fetch : Provider -> result value) (db : DB)
    (before : list Provider) (p : Provider) :
  stops_at fetch (providers_by_priority db) before p ->
  served_by fetch (providers db) (fetch p) p.
Proof.
  intros ((after & Hps) & Hbefore).
  pose proof (providers_by_priority_perm db) as Hperm.
  pose proof (providers_by_priority_sorted db) as Hsorted.
  rewrite Hps in Hperm, Hsorted.
  split; [| split; [reflexivity |]].
  - apply (Permutation_in _ (Permutation_sym Hperm)).
    apply in_or_app; right; left; reflexivity.
  - intros q Hq Hlt; unfold before_in_priority in Hlt.
    apply (Permutation_in _ Hperm) in Hq.
    apply in_app_or in Hq; destruct Hq as [Hq | [<- | Hq]].
    + rewrite Forall_forall in Hbefore; apply Hbefore; exact Hq.
    + lia.
    + apply sorted_middle in Hsorted.
      rewrite Forall_forall in Hsorted; specialize (Hsorted q Hq); lia.
Qed.

(** X13. Providers are tried in ascending order of priority. When
    [fetch_latest_rates_from_provider] returns a truthy value, or raises,
    that outcome is the one of a provider of the store, and every provider
    of strictly smaller priority has fallen through (it raised ProviderError
    or yielded a falsy result). *)
Theorem fetch_latest_by_priority (w : World) (db : DB) (log : list string)
    (src exch : string) :
  let fetch := fun q => get_latest_from_provider w q src exch in
  match fst (fetch_latest_rates_from_provider w db log src exch) with
  | Ok v => truthy v = true ->
            exists p, served_by fetch (providers db) (Ok v) p
  | Raise e => exists p, served_by fetch (providers db) (Raise e) p
  end.
Proof.
  intros fetch.
  change (fetch_latest_rates_from_provider w db log src exch)
    with (fetch_loop fetch (providers_by_priority db) VNone log).
  pose proof (fetch_loop_outcome fetch (providers_by_priority db) VNone log
                eq_refl) as H.
  destruct (fetch_loop fetch (providers_by_priority db) VNone log)
    as [[v | e] log']; simpl.
  - intros Hv; destruct H as [(Hfalsy & _) | (_ & before & p & Hstop & Hp & _)];
      [congruence |].
    exists p; rewrite <- Hp; eapply stops_at_served; exact Hstop.
  - destruct H as (_ & before & p & Hstop & Hp & _).
    exists p; rewrite <- Hp; eapply stops_at_served; exact Hstop.
Qed.

(** ** What the orchestrators return *)

Lemma fetch_loop_result (P : value -> Prop) (fetch : Provider -> result value)
    (ps : list Provider) :
  (forall p v, In p ps -> fetch p = Ok v -> P v) ->
  forall data log v log',
    P data -> fetch_loop fetch ps data log = (Ok v, log') -> P v.
Proof.
  induction ps as [| p ps IH]; intros Hfetch data log v log' Hdata H.
  - simpl in H; inversion H; subst; exact Hdata.
  - cbn [fetch_loop] in H.
    assert (Hps : forall q v', In q ps -> fetch q = Ok v' -> P v')
      by (intros q v' Hq; apply Hfetch; right; exact Hq).
    destruct (fetch p) as [v0 | e] eqn:Hp.
    + assert (Hv0 : P v0) by (apply (Hfetch p); [left; reflexivity | exact Hp]).
      destruct (truthy v0).
      * inversion H; subst; exact Hv0.
      * exact (IH Hps v0 log v log' Hv0 H).
    + destruct e; try discriminate.
      exact (IH Hps data _ v log' Hdata H).
Qed.

Lemma store_historical_mapping (db db' : DB) (data : value)
    (src exch : string) (d : date) :
  store_historical db data src exch d = Ok db' -> none_or_mapping data.
Proof.
  unfold none_or_mapping, store_historical.
  destruct data as [| s | f | x | dt | items | l]; cbn [py_contains bind];
    try discriminate.
  - intros _; left; reflexivity.
  - destruct (str_contains "rates" s); cbn [subscript bind]; [discriminate |].
    destruct (currency_id db src); cbn [bind]; [| discriminate].
    destruct (currency_id db exch); cbn [bind]; discriminate.
  - intros H; right; exists items; split; [reflexivity |].
    intros ->; revert H.
    unfold dict_mem; cbn [dict_get bind].
    destruct (currency_id db src); cbn [bind]; [| discriminate].
    destruct (currency_id db exch); cbn [bind subscript dict_get]; discriminate.
  - destruct (existsb _ l); cbn [subscript bind]; [discriminate |].
    destruct (currency_id db src); cbn [bind]; [| discriminate].
    destruct (currency_id db exch); cbn [bind]; discriminate.
Qed.

(** X14. [fetch_historical_rates_from_provider] returns None or a mapping
    that is not empty, whatever the providers yield: any other result of
    the loop (an empty mapping, a number, a string, a list) reaches the
    store step, which raises on it. *)
Theorem fetch_historical_returns_mapping (w : World) (db : DB)
    (log : list string) (src exch : string) (d : date) (v : value) :
  fst (fst (fetch_historical_rates_from_provider w db log src exch d)) = Ok v ->
  none_or_mapping v.
Proof.
  unfold fetch_historical_rates_from_provider.
  destruct (fetch_loop _ (providers_by_priority db) VNone log)
    as [[data | e] log']; [| discriminate].
  destruct (store_historical db data src exch d) as [db' | e] eqn:Hstore;
    [| discriminate].
  simpl; intros H; inversion H; subst.
  eapply store_historical_mapping; exact Hstore.
Qed.

(** The EUR record of the JSON provider's file. *)
Lemma fetch_historical_returns_mapping_witness :
  none_or_mapping (VDict eur_record).
Proof.
  apply (fetch_historical_returns_mapping file_world (json_db test_currencies)
           [] "EUR" "USD" (jan 25)).
  vm_compute; reflexivity.
Defined.

Lemma Decimal_new_decimal (q v : value) :
  Decimal_new q = Ok v -> exists d, v = VDec d.
Proof.
  unfold Decimal_new; destruct q; try discriminate.
  - destruct (DecParse.parse s); intros H; inversion H; eauto.
  - intros H; inversion H; eauto.
  - intros H; inversion H; eauto.
Qed.

Lemma http_latest_is_scalar (w : World) (self : HttpJsonAdapter.t)
    (src exch : string) (v : value) :
  str_contains "," exch = false ->
  HttpJsonAdapter.get_latest_rate w self src exch = Ok v ->
  exists d, v = VDec d.
Proof.
  unfold HttpJsonAdapter.get_latest_rate; intros Hcomma H.
  apply bind_Ok_inv in H; destruct H as (path & _ & H).
  apply bind_Ok_inv in H; destruct H as (params & _ & H).
  apply bind_Ok_inv in H; destruct H as (response & _ & H).
  apply bind_Ok_inv in H; destruct H as (rates & _ & H).
  destruct (negb (truthy rates)); [discriminate |].
  rewrite Hcomma in H.
  apply bind_Ok_inv in H; destruct H as (rate & _ & H).
  eapply Decimal_new_decimal; exact H.
Qed.

Lemma get_latest_with_decimal {A : Type} `{FormalAdapterInterface A}
    (w : World) (adapter : A) (p : Provider) (src exch : string) (v : value) :
  (forall v', get_latest_rate w adapter src exch = Ok v' -> exists d, v' = VDec d) ->
  get_latest_with w adapter p src exch = Ok v -> exists d, v = VDec d.
Proof.
  intros Hadapter; unfold get_latest_with.
  destruct (forced_base p src) as [base |]; [| apply Hadapter].
  intros Hv.
  apply bind_Ok_inv in Hv; destruct Hv as (raw & _ & Hv).
  apply bind_Ok_inv in Hv; destruct Hv as (s & _ & Hv).
  apply bind_Ok_inv in Hv; destruct Hv as (e & _ & Hv).
  apply bind_Ok_inv in Hv; destruct Hv as (q & _ & Hv).
  eapply Decimal_new_decimal; exact Hv.
Qed.

Lemma get_latest_from_provider_decimal (w : World) (p : Provider)
    (src exch : string) (v : value) :
  str_contains "," exch = false ->
  get_latest_from_provider w p src exch = Ok v -> exists d, v = VDec d.
Proof.
  intros Hcomma; unfold get_latest_from_provider.
  destruct (String.eqb (resource_type p) "http").
  - intros H; apply bind_Ok_inv in H; destruct H as (adapter & _ & H).
    revert H; apply get_latest_with_decimal.
    intros v'; apply http_latest_is_scalar; exact Hcomma.
  - destruct (String.eqb (resource_type p) "json"); [| discriminate].
    intros H; apply bind_Ok_inv in H; destruct H as (adapter & _ & H).
    revert H; apply get_latest_with_decimal.
    intros v'; apply file_latest_is_scalar.
Qed.

Lemma fetch_latest_returns_decimal_aux (w : World) (db : DB)
    (log : list string) (src exch : string) :
  str_contains "," exch = false ->
  forall v,
    fst (fetch_latest_rates_from_provider w db log src exch) = Ok v ->
    none_or_decimal v.
Proof.
  intros Hcomma v H; unfold fetch_latest_rates_from_provider in *.
  destruct (fetch_loop _ (providers_by_priority db) VNone log)
    as [r log'] eqn:Hloop.
  simpl in H; subst r.
  apply (fetch_loop_result none_or_decimal _ _
           (fun p v' _ Hp =>
              or_intror (get_latest_from_provider_decimal w p src exch v'
                           Hcomma Hp))
           VNone log v log' (or_introl eq_refl) Hloop).
Qed.

(** X15. For a single exchanged currency (a code without a comma),
    [fetch_latest_rates_from_provider] returns None or a Decimal, whatever
    the providers, their adapters and their forced bases; a Decimal that is
    falsy (zero) is returned only when no provider yielded a truthy one. *)
Theorem fetch_latest_returns_decimal (w : World) (db : DB) (log : list string)
    (src exch : string) (v : value) :
  str_contains "," exch = false ->
  fst (fetch_latest_rates_from_provider w db log src exch) = Ok v ->
  none_or_decimal v /\
  (truthy v = false ->
   Forall (falls_through (fun q => get_latest_from_provider w q src exch))
          (providers_by_priority db)).
Proof.
  intros Hcomma H; split.
  - eapply fetch_latest_returns_decimal_aux; eassumption.
  - unfold fetch_latest_rates_from_provider in *.
    pose proof (fetch_loop_outcome
                  (fun q => get_latest_from_provider w q src exch)
                  (providers_by_priority db) VNone log eq_refl) as Hout.
    destruct (fetch_loop _ (providers_by_priority db) VNone log)
      as [r log'] eqn:Hloop.
    simpl in H; subst r.
    intros Hfalsy; destruct Hout as [(_ & Hall & _) | (Htruthy & _)];
      [exact Hall | congruence].
Qed.

(** The latest rate of USD against EUR from the JSON provider's file. *)
Lemma fetch_latest_returns_decimal_witness :
  none_or_decimal (VDec (Flt.to_decimal f1_1)).
Proof.
  apply (fetch_latest_returns_decimal file_world (json_db test_currencies) []
           "EUR" "USD").
  - reflexivity.
  - vm_compute; reflexivity.
Defined.

(** ** The file adapter *)

Lemma eq_str_true (v : value) (s : string) : eq_str v s = true <-> v = VStr s.
Proof.
  destruct v; simpl; split; try discriminate.
  - intros H; apply String.eqb_eq in H; subst; reflexivity.
  - intros H; inversion H; apply String.eqb_refl.
Qed.

Lemma passed_over_step (str_date src : string) (item : value)
    (rest : list value) :
  passed_over str_date src item ->
  FileJsonAdapter.next_date_rates (item :: rest) str_date src
  = FileJsonAdapter.next_date_rates rest str_date src.
Proof.
  intros (d & Hd & Hskip); cbn [FileJsonAdapter.next_date_rates].
  rewrite Hd; cbn [bind].
  destruct (eq_str d str_date) eqn:E; [| reflexivity].
  destruct Hskip as [Hfalse | (b & Hb & Hfalse)]; [discriminate |].
  rewrite Hb; cbn [bind]; rewrite Hfalse; reflexivity.
Qed.

Lemma next_date_rates_found (str_date src : string) (items : list value)
    (found : option value) :
  FileJsonAdapter.next_date_rates items str_date src = Ok found <->
  match found with
  | None => Forall (passed_over str_date src) items
  | Some v =>
      exists before after,
        items = (before ++ v :: after)%list /\
        is_record_for str_date src v /\
        Forall (passed_over str_date src) before
  end.
Proof.
  split.
  - revert found; induction items as [| item items IH]; intros found H.
    + simpl in H; inversion H; constructor.
    + cbn [FileJsonAdapter.next_date_rates] in H.
      apply bind_Ok_inv in H; destruct H as (d & Hd & H).
      assert (Hnext : FileJsonAdapter.next_date_rates items str_date src
                      = Ok found ->
                      passed_over str_date src item ->
                      match found with
                      | None => Forall (passed_over str_date src) (item :: items)
                      | Some v =>
                          exists before after,
                            (item :: items) = (before ++ v :: after)%list /\
                            is_record_for str_date src v /\
                            Forall (passed_over str_date src) before
                      end).
      { intros Hrest Hitem; apply IH in Hrest.
        destruct found as [v |].
        - destruct Hrest as (before & after & -> & Hv & Hbefore).
          exists (item :: before), after; repeat split;
            [apply Hv | apply Hv | constructor; assumption].
        - constructor; assumption. }
      destruct (eq_str d str_date) eqn:Ed.
      * apply bind_Ok_inv in H; destruct H as (b & Hb & H).
        destruct (eq_str b src) eqn:Eb.
        -- inversion H; subst found.
           apply eq_str_true in Ed, Eb; subst d b.
           exists [], items; repeat split; [exact Hd | exact Hb | constructor].
        -- apply Hnext; [exact H |].
           exists d; split; [exact Hd | right; exists b; split; assumption].
      * apply Hnext; [exact H |].
        exists d; split; [exact Hd | left; exact Ed].
  - destruct found as [v |].
    + intros (before & after & -> & (Hd & Hb) & Hbefore).
      induction Hbefore as [| item before Hitem _ IH].
      * cbn [app FileJsonAdapter.next_date_rates].
        rewrite Hd; cbn [bind eq_str]; rewrite String.eqb_refl.
        rewrite Hb; cbn [bind eq_str]; rewrite String.eqb_refl; reflexivity.
      * cbn [app]; rewrite (passed_over_step _ _ _ _ Hitem); exact IH.
    + induction 1 as [| item items Hitem _ IH]; [reflexivity |].
      rewrite (passed_over_step _ _ _ _ Hitem); exact IH.
Qed.

(** X16. The file adapter's [get_historical_rates] returns exactly in two
    cases, once the file is read as a list of records. It returns the first
    record whose "date" is the requested day as YYYY-MM-DD and whose "base"
    is the source currency, every record before it having a "date" (and a
    "base" when the date matches); or it returns None, every record of the
    file being passed over in that way. The exchanged currency plays no
    part. *)
Theorem file_historical_first_record (w : World) (self : FileJsonAdapter.t)
    (src exch : string) (d : date) (v : value) :
  FileJsonAdapter.get_historical_rates w self src exch d = Ok v <->
  exists path data items,
    FileJsonAdapter.historical_endpoint_path self = VStr path /\
    json_load w (os_path_join (FileJsonAdapter.address self) path) = Ok data /\
    py_iter data = Ok items /\
    ((v = VNone /\ Forall (passed_over (strftime d) src) items) \/
     (exists before after,
        items = (before ++ v :: after)%list /\
        is_record_for (strftime d) src v /\
        Forall (passed_over (strftime d) src) before)).
Proof.
  unfold FileJsonAdapter.get_historical_rates; split.
  - intros H.
    apply bind_Ok_inv in H; destruct H as (path & Hpath & H).
    apply bind_Ok_inv in H; destruct H as (data & Hdata & H).
    apply bind_Ok_inv in H; destruct H as (items & Hitems & H).
    apply bind_Ok_inv in H; destruct H as (found & Hfound & H).
    exists path, data, items.
    destruct (FileJsonAdapter.historical_endpoint_path self); try discriminate.
    inversion Hpath; subst; repeat split; try assumption.
    apply next_date_rates_found in Hfound.
    destruct found as [record |]; inversion H; subst; [right | left; split];
      auto.
  - intros (path & data & items & -> & Hdata & Hitems & Hcase).
    cbn [expect_str bind]; rewrite Hdata; cbn [bind]; rewrite Hitems; cbn [bind].
    destruct Hcase as [(-> & Hall) | Hfound].
    + rewrite (proj2 (next_date_rates_found _ _ _ None) Hall); reflexivity.
    + rewrite (proj2 (next_date_rates_found _ _ _ (Some v)) Hfound); reflexivity.
Qed.

(** X17. A provider of resource type "json" with a forced base other than
    the source currency never yields a latest rate: the file adapter
    returns a single Decimal where [get_latest_from_provider] reads a
    mapping of two rates, so the call always ends in an exception. *)
Theorem json_forced_base_latest_raises (w : World) (p : Provider)
    (src exch base : string) :
  resource_type p = "json" ->
  forced_base p src = Some base ->
  exists e, get_latest_from_provider w p src exch = Raise e.
Proof.
  intros Hjson Hbase; unfold get_latest_from_provider; rewrite Hjson.
  cbn [String.eqb Ascii.eqb Bool.eqb].
  destruct (FileJsonAdapter.init (address p) (config p)) as [adapter | e];
    cbn [bind]; [| eauto].
  unfold get_latest_with; rewrite Hbase.
  destruct (get_latest_rate w adapter base (exch ++ "," ++ src))
    as [raw | e] eqn:Hraw; cbn [bind]; [| eauto].
  apply file_latest_is_scalar in Hraw; destruct Hraw as (x & ->).
  cbn [subscript bind]; eauto.
Qed.

(** The JSON provider of the tests with the forced base EUR, asked for the
    latest rate of USD against GBP. *)
Lemma json_forced_base_latest_raises_witness :
  exists e,
    get_latest_from_provider file_world (json_provider 1 (Some "EUR"))
      "USD" "GBP" = Raise e.
Proof.
  apply (json_forced_base_latest_raises file_world
           (json_provider 1 (Some "EUR")) "USD" "GBP" "EUR");
    reflexivity.
Defined.

(** ** A zero rate as divisor *)

(** X18. When the rate of the source currency in the raw mapping is the
    float 0.0 and the first other entry is a float, [reverse_rates] raises
    ZeroDivisionError; a historical fetch through a provider with a forced
    base then raises it too, and it is not a ProviderError, so that the
    orchestrator does not go on to the next provider. With no other entry
    the result is the empty mapping. *)
Theorem reverse_rates_zero_base {A : Type} `{FormalAdapterInterface A}
    (w : World) (adapter : A) (provider : Provider)
    (src exch base : string) (d : date) (raw : dict) (z : Flt.t) :
  dict_get src raw = Some (VFloat z) ->
  Flt.is_zero z = true ->
  match others src raw with
  | [] => reverse_rates src (VDict raw) = Ok (VDict [])
  | (_, VFloat _) :: _ =>
      reverse_rates src (VDict raw)
      = Raise (ZeroDivisionError "float division by zero") /\
      (forced_base provider src = Some base ->
       get_historical_rates w adapter base (exch ++ "," ++ src) d
       = Ok (VDict raw) ->
       get_hist_with w adapter provider src exch d
       = Raise (ZeroDivisionError "float division by zero") /\
       is_provider_error (ZeroDivisionError "float division by zero") = false)
  | _ => True
  end.
Proof.
  intros Hsrc Hz.
  assert (Hrev : reverse_rates src (VDict raw)
                 = (reversed_data <-
                      mapM (fun cr => v <- rebase (snd cr) (VFloat z) ;;
                                      Ok (fst cr, v))
                           (others src raw) ;;
                    Ok (VDict (dict_of_items reversed_data))))
    by (unfold reverse_rates, subscript; rewrite Hsrc; reflexivity).
  destruct (others src raw) as [| [c r] rest].
  - exact Hrev.
  - destruct r; try exact I.
    assert (Hraise : reverse_rates src (VDict raw)
                     = Raise (ZeroDivisionError "float division by zero")).
    { rewrite Hrev; cbn [mapM fst snd].
      unfold rebase, py_truediv, Flt.div; rewrite Hz; reflexivity. }
    split; [exact Hraise |].
    intros Hbase Hraw; split; [| reflexivity].
    unfold get_hist_with; rewrite Hbase, Hraw; cbn [bind]; exact Hraise.
Qed.

(** EUR-based rates {USD: 0.0, GBP: 0.9} rebased to USD. *)
Lemma reverse_rates_zero_base_witness :
  reverse_rates "USD" (VDict zero_usd_rates)
  = Raise (ZeroDivisionError "float division by zero") /\
  get_hist_with (eur_api zero_usd_rates) http_adapter
    (http_provider 1 (Some "EUR")) "USD" "GBP" (jan 24)
  = Raise (ZeroDivisionError "float division by zero").
Proof.
  pose proof (@reverse_rates_zero_base _ HttpJsonAdapter_interface
                (eur_api zero_usd_rates) http_adapter
                (http_provider 1 (Some "EUR")) "USD" "GBP" "EUR" (jan 24)
                zero_usd_rates (Flt.of_ratio false 0 1) eq_refl eq_refl)
    as H.
  change (others "USD" zero_usd_rates) with [("GBP", VFloat f0_9)] in H.
  destruct H as [Hrev Hhist]; split; [exact Hrev |].
  apply Hhist; [reflexivity | vm_compute; reflexivity].
Defined.

(** ** The converter view *)

Lemma dfix_signal (x : Dec.t) (e : exn) :
  Dec.dfix x = Raise e -> is_decimal_signal e = true.
Proof.
  unfold Dec.dfix; destruct x as [s n ex | s | s sig p]; try discriminate.
  repeat match goal with
         | |- context [if ?c then _ else _] => destruct c
         | |- context [let '(_, _) := ?c in _] => destruct c
         end;
    intros H; inversion H; reflexivity.
Qed.

Lemma mul_signal (a b : Dec.t) (e : exn) :
  Dec.mul a b = Raise e -> is_decimal_signal e = true.
Proof.
  unfold Dec.mul, Dec.check_nans.
  destruct a as [sa na ea | sa | sa [|] pa], b as [sb nb eb | sb | sb [|] pb];
    try (intros H; inversion H; reflexivity);
    try (destruct (Dec.is_zero _); intros H; inversion H; reflexivity).
  apply dfix_signal.
Qed.

(** X19. [CurrencyConverterView.get], for validated parameters and a single
    exchanged currency (a code without a comma), is decided by the amount
    and by the outcome of the latest fetch, which returns None or a
    Decimal. An amount that is not a decimal numeral raises
    InvalidOperation, the log being as before the call. Otherwise: when the
    fetch raises, the view raises the same exception, which is not a
    ProviderError; when the fetch returns None or a zero rate, every
    provider having fallen through, the view answers 500 "Failed to fetch
    latest rates"; when it returns a non-zero rate, the view answers 200
    with the Decimal product amount * rate, or raises the signal of that
    multiplication. In each case the log is the one the fetch has left. *)
Theorem converter_view_outcome (w : World) (db : DB) (log : list string)
    (src exch amount : string) :
  str_contains "," exch = false ->
  let view := CurrencyConverterView_get w db log src exch amount in
  let all_fell_through :=
    Forall (falls_through (fun q => get_latest_from_provider w q src exch))
           (providers_by_priority db) in
  match Decimal_new (VStr amount) with
  | Raise _ => view = (Raise DecimalInvalidOperation, log)
  | Ok a =>
      exists x,
        a = VDec x /\
        match fetch_latest_rates_from_provider w db log src exch with
        | (Raise e, log') =>
            view = (Raise e, log') /\ is_provider_error e = false
        | (Ok VNone, log') =>
            view = (Ok failed_to_fetch, log') /\ all_fell_through
        | (Ok (VDec r), log') =>
            if Dec.is_zero r
            then view = (Ok failed_to_fetch, log') /\ all_fell_through
            else
              match Dec.mul x r with
              | Ok res =>
                  view = (Ok (mkResponse (VDec res) HTTP_200_OK), log')
              | Raise e =>
                  view = (Raise e, log') /\ is_decimal_signal e = true
              end
        | (Ok _, _) => False
        end
  end.
Proof.
  intros Hcomma view all_fell_through; subst view all_fell_through.
  unfold CurrencyConverterView_get.
  destruct (Decimal_new (VStr amount)) as [a | e] eqn:Ha.
  2: { unfold Decimal_new in Ha; destruct (DecParse.parse amount);
         inversion Ha; reflexivity. }
  destruct (Decimal_new_decimal _ _ Ha) as (x & ->).
  exists x; split; [reflexivity |].
  pose proof (fetch_latest_returns_decimal_aux w db log src exch Hcomma) as Hdec.
  pose proof (fetch_loop_outcome
                (fun q => get_latest_from_provider w q src exch)
                (providers_by_priority db) VNone log eq_refl) as Hout.
  fold (fetch_latest_rates_from_provider w db log src exch) in Hout.
  destruct (fetch_latest_rates_from_provider w db log src exch)
    as [[rate | e] log']; cbn [fst snd] in *.
  - destruct (Hdec rate eq_refl) as [-> | (r & ->)].
    + cbn [truthy negb]; split; [reflexivity |].
      destruct Hout as [(_ & Hall & _) | (Htrue & _)];
        [exact Hall | discriminate Htrue].
    + cbn [truthy] in *; unfold Dec.to_bool in *.
      destruct (Dec.is_zero r) eqn:Hzero; cbn [negb] in *.
      * split; [reflexivity |].
        destruct Hout as [(_ & Hall & _) | (Htrue & _)];
          [exact Hall | discriminate Htrue].
      * cbn [py_mul].
        destruct (Dec.mul x r) as [res | e] eqn:Hmul; cbn [bind];
          [reflexivity |].
        split; [reflexivity | eapply mul_signal; exact Hmul].
  - split; [reflexivity |]; destruct Hout as (He & _); exact He.
Qed.

(** 100 EUR converted to USD with the latest rate 1.1 of the JSON
    provider's file; an amount that is not a numeral; and a provider that
    answers without rates. *)
Lemma converter_view_outcome_witness :
  CurrencyConverterView_get file_world (json_db test_currencies) []
    "EUR" "USD" "100"
  = (Ok (mkResponse
           (VDec (Dec.DFin false 1100000000000000088817841970 (-25)))
           HTTP_200_OK), []) /\
  CurrencyConverterView_get file_world (json_db test_currencies) []
    "EUR" "USD" "a hundred"
  = (Raise DecimalInvalidOperation, []) /\
  CurrencyConverterView_get (eur_api []) forced_http_db [] "USD" "GBP" "100"
  = (Ok failed_to_fetch, ["Provider Test HTTP Provider failed"]).
Proof.
  assert (Ea : Decimal_new (VStr "100") = Ok (VDec (Dec.DFin false 100 0)))
    by (vm_compute; reflexivity).
  split_conj.
  - pose proof (converter_view_outcome file_world (json_db test_currencies) []
                  "EUR" "USD" "100" eq_refl) as H.
    assert (Ef : fetch_latest_rates_from_provider file_world
                   (json_db test_currencies) [] "EUR" "USD"
                 = (Ok (VDec (Flt.to_decimal f1_1)), []))
      by (vm_compute; reflexivity).
    assert (Ez : Dec.is_zero (Flt.to_decimal f1_1) = false)
      by (vm_compute; reflexivity).
    assert (Em : Dec.mul (Dec.DFin false 100 0) (Flt.to_decimal f1_1)
                 = Ok (Dec.DFin false 1100000000000000088817841970 (-25)))
      by (vm_compute; reflexivity).
    cbv zeta in H; rewrite Ea, Ef in H.
    destruct H as (x & Hx & H); inversion Hx; subst x.
    rewrite Ez, Em in H; exact H.
  - exact (converter_view_outcome file_world (json_db test_currencies) []
             "EUR" "USD" "a hundred" eq_refl).
  - pose proof (converter_view_outcome (eur_api []) forced_http_db []
                  "USD" "GBP" "100" eq_refl) as H.
    assert (Ef : fetch_latest_rates_from_provider (eur_api []) forced_http_db
                   [] "USD" "GBP"
                 = (Ok VNone, ["Provider Test HTTP Provider failed"]))
      by (vm_compute; reflexivity).
    cbv zeta in H; rewrite Ea, Ef in H.
    destruct H as (x & _ & H & _); exact H.
Defined.

(** ** The periodic task *)

Lemma In_pairs_from {A : Type} (before after : list A) (a b : A) :
  In (a, b) (pairs_from before after) <->
  exists l1 l2,
    after = (l1 ++ a :: l2)%list /\ In b (before ++ l1 ++ l2)%list.
Proof.
  revert before; induction after as [| x after IH]; intros before; simpl.
  - split; [intros [] | intros (l1 & l2 & H & _); destruct l1; discriminate].
  - rewrite in_app_iff, in_map_iff, IH; split.
    + intros [(y & E & Hy) | (l1 & l2 & -> & Hb)].
      * inversion E; subst; exists [], after; split; [reflexivity | exact Hy].
      * exists (x :: l1), l2; split; [reflexivity |].
        rewrite <- app_assoc in Hb; simpl in Hb.
        apply in_app_iff in Hb; apply in_app_iff.
        destruct Hb as [Hb | [<- | Hb]];
          [left; exact Hb | right; left; reflexivity | right; right; exact Hb].
    + intros (l1 & l2 & E & Hb); destruct l1 as [| y l1]; simpl in E;
        inversion E; subst.
      * left; exists b; split; [reflexivity | exact Hb].
      * right; exists l1, l2; split; [reflexivity |].
        rewrite <- app_assoc; simpl.
        apply in_app_iff in Hb; apply in_app_iff.
        destruct Hb as [Hb | [<- | Hb]];
          [left; exact Hb | right; left; reflexivity | right; right; exact Hb].
Qed.

Lemma pairs_from_first {A : Type} (before after : list A) (a b : A) :
  In (a, b) (pairs_from before after) -> In a after.
Proof.
  intros H; apply In_pairs_from in H; destruct H as (l1 & l2 & -> & _).
  apply in_or_app; right; left; reflexivity.
Qed.

Lemma pairs_from_nodup {A : Type} (before after : list A) :
  NoDup (before ++ after) -> NoDup (pairs_from before after).
Proof.
  revert before; induction after as [| x after IH]; intros before Hnd; simpl;
    [constructor |].
  pose proof (NoDup_remove_1 _ _ _ Hnd) as Hrest.
  pose proof (NoDup_remove_2 _ _ _ Hnd) as Hx.
  apply NoDup_app.
  - clear - Hrest; induction Hrest as [| y l Hy _ IHl]; simpl; constructor;
      [| exact IHl].
    intros Hin; apply in_map_iff in Hin; destruct Hin as (z & E & Hz).
    inversion E; subst; contradiction.
  - apply IH; rewrite <- app_assoc; exact Hnd.
  - intros [a b] Hl Hr.
    apply in_map_iff in Hl; destruct Hl as (z & E & _); inversion E; subst.
    apply pairs_from_first in Hr.
    apply Hx, in_or_app; right; exact Hr.
Qed.

Lemma currency_codes_spec (db : DB) :
  NoDup (currency_codes db) /\
  forall c, In c (currency_codes db) <-> In c (currencies db).
Proof.
  unfold currency_codes.
  assert (H : forall l keys,
             NoDup keys ->
             NoDup (fold_left
                      (fun keys c =>
                         if existsb (String.eqb c) keys then keys
                         else (keys ++ [c])%list) l keys) /\
             forall c,
               In c (fold_left
                       (fun keys c =>
                          if existsb (String.eqb c) keys then keys
                          else (keys ++ [c])%list) l keys)
               <-> In c keys \/ In c l).
  { induction l as [| x l IH]; intros keys Hnd; simpl.
    - split; [exact Hnd | intros c; tauto].
    - destruct (existsb (String.eqb x) keys) eqn:E.
      + destruct (IH keys Hnd) as [H1 H2]; split; [exact H1 |].
        intros c; rewrite H2.
        apply existsb_exists in E; destruct E as (y & Hy & Exy).
        apply String.eqb_eq in Exy; subst y.
        split; [tauto | intros [H | [<- | H]]; tauto].
      + assert (Hx : ~ In x keys).
        { intros Hin.
          assert (Et : existsb (String.eqb x) keys = true)
            by (apply existsb_exists; exists x; split;
                [exact Hin | apply String.eqb_refl]).
          congruence. }
        assert (Hnd' : NoDup (keys ++ [x])%list).
        { apply NoDup_app; [exact Hnd | repeat constructor; intros [] |].
          intros a Ha [<- | []]; contradiction. }
        destruct (IH _ Hnd') as [H1 H2]; split; [exact H1 |].
        intros c; rewrite H2, in_app_iff; simpl; tauto. }
  destruct (H (currencies db) [] (NoDup_nil _)) as [H1 H2].
  split; [exact H1 | intros c; rewrite H2; simpl; tauto].
Qed.

(** X20. The pairs that [fetch_exchange_rates] walks through are the
    ordered pairs of two different currency codes of the store, each
    exactly once. *)
Theorem task_pairs (db : DB) :
  NoDup (permutations2 (currency_codes db)) /\
  forall a b,
    In (a, b) (permutations2 (currency_codes db)) <->
    In a (currencies db) /\ In b (currencies db) /\ a <> b.
Proof.
  destruct (currency_codes_spec db) as [Hnd Hin]; unfold permutations2.
  split; [apply pairs_from_nodup; exact Hnd |].
  intros a b; rewrite In_pairs_from, <- !Hin; simpl; split.
  - intros (l1 & l2 & E & Hb); rewrite E in *.
    pose proof (NoDup_remove_2 _ _ _ Hnd) as Ha.
    repeat split.
    + apply in_or_app; right; left; reflexivity.
    + apply in_app_or in Hb; apply in_or_app.
      destruct Hb as [Hb | Hb]; [left | right; right]; exact Hb.
    + intros ->; contradiction.
  - intros (Ha & Hb & Hab).
    apply in_split in Ha; destruct Ha as (l1 & l2 & E).
    exists l1, l2; split; [exact E |].
    rewrite E in Hb; apply in_app_or in Hb; apply in_or_app.
    destruct Hb as [Hb | [Hb | Hb]]; [left; exact Hb | congruence | right; exact Hb].
Qed.

Lemma insert_rates_nil (db : DB) : insert_rates db [] = db.
Proof.
  destruct db; unfold insert_rates; simpl; rewrite app_nil_r; reflexivity.
Qed.

Lemma insert_rates_app (db : DB) (rows rows' : list CurrencyExchangeRate) :
  insert_rates (insert_rates db rows) rows' = insert_rates db (rows ++ rows').
Proof.
  unfold insert_rates; simpl; rewrite app_assoc; reflexivity.
Qed.

(** The loop over the pairs runs the fetches one after the other until
    the first that raises. *)
Lemma fetch_pairs_run (w : World) (yesterday : date)
    (pairs : list (string * string)) :
  forall db log,
    exists done rest db1 log1 rows,
      pairs = (done ++ rest)%list /\
      fetched w yesterday done (db, log) (db1, log1) /\
      db1 = insert_rates db rows /\
      Forall (fun r => In (source_currency r) (map fst pairs) /\
                       valuation_date r = yesterday) rows /\
      match rest with
      | [] => fetch_pairs w yesterday pairs db log = (Ok tt, db1, log1)
      | pair_ :: _ =>
          exists e log2,
            fetch_historical_rates_from_provider w db1 log1
              (fst pair_) (snd pair_) yesterday = (Raise e, db1, log2) /\
            is_provider_error e = false /\
            fetch_pairs w yesterday pairs db log = (Raise e, db1, log2)
      end.
Proof.
  induction pairs as [| [s x] pairs IH]; intros db log.
  - exists [], [], db, log, []; rewrite insert_rates_nil.
    repeat split; constructor.
  - cbn [fetch_pairs fst snd].
    pose proof (fetch_historical_rows w db log s x yesterday) as Hstep.
    destruct (fetch_historical_rates_from_provider w db log s x yesterday)
      as [[outcome db1] log1] eqn:Hfetch.
    destruct Hstep as (rows1 & -> & Hrows1 & Hout).
    destruct outcome as [v | e].
    + destruct (IH (insert_rates db rows1) log1)
        as (done & rest & db2 & log2 & rows2 & -> & Hdone & -> & Hrows2 & Hrest).
      exists ((s, x) :: done), rest, (insert_rates db (rows1 ++ rows2)), log2,
        (rows1 ++ rows2)%list.
      rewrite insert_rates_app in Hdone, Hrest.
      repeat split.
      * econstructor; [exact Hfetch | exact Hdone].
      * apply Forall_app; split.
        -- eapply Forall_impl; [| exact Hrows1].
           intros r [-> ->]; split; [left |]; reflexivity.
        -- eapply Forall_impl; [| exact Hrows2].
           intros r [Hr ->]; split; [right; exact Hr | reflexivity].
      * exact Hrest.
    + destruct Hout as [-> He].
      rewrite insert_rates_nil in Hfetch |- *.
      exists [], ((s, x) :: pairs), db, log, []; rewrite insert_rates_nil.
      repeat split; [constructor | constructor |].
      exists e, log1; repeat split; assumption.
Qed.

(** X21. [fetch_exchange_rates] makes the historical fetches for the pairs
    of currency codes one after the other, on the day before today, each
    from the store and the log the one before has left, until the first
    that raises. When every fetch returns, the task returns and logs
    "Exchange rates updated". When a fetch raises, which it never does
    with a ProviderError, the task ends with that exception, the pairs
    after it are not fetched, and the store is the one the fetches before
    it have left: what they have written stays. In both cases the store
    has only grown, by rows dated the day before today whose source
    currency is a currency of the store. On 0001-01-01 the task raises
    OverflowError and does nothing. *)
Theorem task_runs_until_first_raise (w : World) (db : DB)
    (log info : list string) :
  match day_before (datetime_today w) with
  | None =>
      fetch_exchange_rates w db log info
      = (Some (OverflowError "date value out of range"), db, log, info)
  | Some yesterday =>
      exists done rest db1 log1 rows,
        permutations2 (currency_codes db) = (done ++ rest)%list /\
        fetched w yesterday done (db, log) (db1, log1) /\
        db1 = insert_rates db rows /\
        Forall (fun r => In (source_currency r) (currencies db) /\
                         valuation_date r = yesterday) rows /\
        match rest with
        | [] =>
            fetch_exchange_rates w db log info
            = (None, db1, log1, (info ++ ["Exchange rates updated"])%list)
        | pair_ :: _ =>
            exists e log2,
              fetch_historical_rates_from_provider w db1 log1
                (fst pair_) (snd pair_) yesterday = (Raise e, db1, log2) /\
              is_provider_error e = false /\
              fetch_exchange_rates w db log info
              = (Some (Propagated e), db1, log2, info)
        end
  end.
Proof.
  unfold fetch_exchange_rates.
  destruct (day_before (datetime_today w)) as [yesterday |]; [| reflexivity].
  destruct (fetch_pairs_run w yesterday (permutations2 (currency_codes db))
              db log)
    as (done & rest & db1 & log1 & rows & Hpairs & Hdone & Hdb1 & Hrows & Hrest).
  exists done, rest, db1, log1, rows; repeat split; try assumption.
  - eapply Forall_impl; [| exact Hrows].
    intros r [Hr Hd]; split; [| exact Hd].
    apply in_map_iff in Hr; destruct Hr as ([a b] & <- & Hab); simpl.
    apply pairs_from_first in Hab.
    apply (proj2 (currency_codes_spec db)); exact Hab.
  - destruct rest as [| pair_ rest'].
    + rewrite Hrest; reflexivity.
    + destruct Hrest as (e & log2 & Hfetch & He & Hrun).
      exists e, log2; repeat split; [exact Hfetch | exact He |].
      rewrite Hrun; reflexivity.
Qed.

(** The currencies USD and EUR, and a file with a record for each on the
    day before: the fetch for (USD, EUR) writes the row of the USD record;
    the fetch for (EUR, USD) finds the symbol CHF of the EUR record, which
    is not a currency of the store, and raises KeyError; the task ends
    with it, and the row written before stays. *)
Example task_keeps_earlier_rows :
  exists db1,
    fetch_exchange_rates two_record_world (json_db ["USD"; "EUR"]) [] []
    = (Some (Propagated (KeyError "CHF")), db1, [], []) /\
    map row_key (exchange_rates db1) = [("USD", "EUR", jan 25)].
Proof.
  eexists; split; vm_compute; reflexivity.
Qed.

(** ** A zero rate of the source currency in the store *)

Lemma division_signal_failure (x : Dec.t) :
  is_division_failure (division_signal x) = true.
Proof. unfold division_signal; destruct (Dec.is_zero x); reflexivity. Qed.

(** X22. Reading a period for a source other than EUR, with finite Decimal
    rates stored: when the row that gives the rate of the source currency
    on some date holds zero, the processing of that date raises a division
    failure (decimal.DivisionByZero, or InvalidOperation for 0/0), and the
    whole read raises. *)
Theorem period_rates_zero_base (db : DB) (src exch : string)
    (date_from date_to d : date) (rows : list CurrencyExchangeRate)
    (base : CurrencyExchangeRate) (z : Dec.t) :
  src <> "EUR" ->
  In (d, rows)
     (rates_grouped_by_date (get_db_rates db src exch date_from date_to)) ->
  base_row src rows = Some base ->
  rate_value base = VDec z ->
  Dec.is_zero z = true ->
  Forall finite_rate rows ->
  (exists e, process_group src (d, rows) = Raise e /\
             is_division_failure e = true) /\
  exists e, get_currency_rates_for_period db src exch date_from date_to = Raise e.
Proof.
  intros Hsrc Hin Hbase Hz Hzero Hfin.
  assert (Hzfin : is_finite z = true) by (destruct z; [reflexivity | |]; discriminate).
  assert (Hgroup : exists e, process_group src (d, rows) = Raise e /\
                             is_division_failure e = true).
  { unfold process_group, base_row in *.
    destruct (String.eqb_spec src "EUR") as [E | _]; [contradiction |].
    rewrite Hbase, Hz.
    destruct (filter _ rows) as [| r rest] eqn:Hothers; cbn [mapM bind].
    - unfold py_int_truediv.
      rewrite (@dec_div_by_zero (Dec.of_Z 1) z eq_refl Hzfin Hzero).
      eexists; split; [reflexivity | apply division_signal_failure].
    - assert (Hr : In r rows).
      { assert (H : In r (r :: rest)) by (left; reflexivity).
        rewrite <- Hothers in H; apply filter_In in H; apply H. }
      rewrite Forall_forall in Hfin; destruct (Hfin r Hr) as (x & Hx & Hxfin).
      unfold rebase, py_truediv; rewrite Hx.
      rewrite (@dec_div_by_zero x z Hxfin Hzfin Hzero); cbn [bind].
      eexists; split; [reflexivity | apply division_signal_failure]. }
  split; [exact Hgroup |].
  destruct Hgroup as (e & He & _).
  rewrite period_rates_mapM.
  exact (mapM_In_Raise (process_group src) _ _ Hin He).
Qed.

(** EUR-based rates with a zero rate of USD, read for the source USD. *)
Lemma period_rates_zero_base_witness :
  (exists e,
     process_group "USD" (jan 23, exchange_rates zero_usd_store) = Raise e /\
     is_division_failure e = true) /\
  exists e,
    get_currency_rates_for_period zero_usd_store "USD" "GBP" (jan 23) (jan 23)
    = Raise e.
Proof.
  apply (period_rates_zero_base zero_usd_store "USD" "GBP" (jan 23) (jan 23)
           (jan 23) (exchange_rates zero_usd_store)
           (mkRate "EUR" "USD" (jan 23) (stored 0)) (Dec.DFin false 0 (-6))).
  - discriminate.
  - vm_compute; left; reflexivity.
  - reflexivity.
  - reflexivity.
  - reflexivity.
  - repeat constructor; eexists; split; reflexivity.
Defined.

(** ** A provider whose adapter cannot be built *)

Lemma subscript_error (v : value) (k : string) (e : exn) :
  subscript v k = Raise e -> is_provider_error e = false.
Proof.
  unfold subscript; destruct v as [| s | f | x | dt | items | l];
    try (intros H; inversion H; reflexivity).
  destruct (dict_get k items); intros H; inversion H; reflexivity.
Qed.

Lemma subscripts_error (path : list string) (v : value) (e : exn) :
  subscripts v path = Raise e -> is_provider_error e = false.
Proof.
  revert v; induction path as [| k path IH]; intros v; simpl; [discriminate |].
  intros H; apply bind_Raise_inv in H; destruct H as [H | (x & _ & H)].
  - eapply subscript_error; exact H.
  - eapply IH; exact H.
Qed.

Lemma py_get_error (v : value) (k : string) (default : value) (e : exn) :
  py_get v k default = Raise e -> is_provider_error e = false.
Proof.
  unfold py_get; destruct v as [| s | f | x | dt | items | l];
    try (intros H; inversion H; reflexivity).
  destruct (dict_get k items); discriminate.
Qed.

Ltac init_error H :=
  repeat (apply bind_Raise_inv in H;
          destruct H as [H | (? & _ & H)];
          [first [ eapply subscripts_error; exact H
                 | eapply subscript_error; exact H
                 | eapply py_get_error; exact H ] |]);
  discriminate.

Lemma misconfigured_error (p : Provider) (e : exn) :
  misconfigured p e -> is_provider_error e = false.
Proof.
  intros [[_ H] | [_ H]].
  - unfold HttpJsonAdapter.init in H; init_error H.
  - unfold FileJsonAdapter.init in H; init_error H.
Qed.

Lemma misconfigured_raises (w : World) (p : Provider) (e : exn)
    (src exch : string) (d : date) :
  misconfigured p e ->
  get_latest_from_provider w p src exch = Raise e /\
  get_hist_from_provider w p src exch d = Raise e.
Proof.
  unfold get_latest_from_provider, get_hist_from_provider.
  intros [[-> ->] | [-> ->]]; split; reflexivity.
Qed.

(** X23. A provider of type "http" or "json" whose configuration lacks
    what its adapter's constructor reads makes the fetch through it raise
    the constructor's exception (KeyError, TypeError or AttributeError),
    which is not a ProviderError: when the orchestrator loop reaches that
    provider, the whole call ends with the exception instead of going on
    to the next provider, and the historical path writes nothing. *)
Theorem misconfigured_provider_aborts (w : World) (db : DB)
    (log : list string) (src exch : string) (d : date)
    (before after : list Provider) (p : Provider) (e : exn) :
  misconfigured p e ->
  providers_by_priority db = (before ++ p :: after)%list ->
  is_provider_error e = false /\
  (Forall (falls_through (fun q => get_latest_from_provider w q src exch)) before ->
   fst (fetch_latest_rates_from_provider w db log src exch) = Raise e) /\
  (Forall (falls_through (fun q => get_hist_from_provider w q src exch d)) before ->
   exists log',
     fetch_historical_rates_from_provider w db log src exch d
     = (Raise e, db, log')).
Proof.
  intros Hbad Hps.
  pose proof (misconfigured_error p e Hbad) as He.
  destruct (misconfigured_raises w p e src exch d Hbad) as [Hl Hh].
  split; [exact He |]; split; intros Hbefore.
  - unfold fetch_latest_rates_from_provider; rewrite Hps.
    rewrite (@fetch_loop_fatal _ before after p e VNone log Hbefore eq_refl Hl He).
    reflexivity.
  - unfold fetch_historical_rates_from_provider; rewrite Hps.
    rewrite (@fetch_loop_fatal _ before after p e VNone log Hbefore eq_refl Hh He).
    eexists; reflexivity.
Qed.

(** A JSON provider without "endpoints" in its configuration, of priority
    1, before the JSON provider of the tests. *)
Lemma misconfigured_provider_aborts_witness :
  fst (fetch_latest_rates_from_provider file_world
         (mkDB test_currencies [] [json_provider 2 None; bare_provider 1])
         [] "EUR" "USD")
  = Raise (KeyError "endpoints").
Proof.
  destruct (misconfigured_provider_aborts file_world
              (mkDB test_currencies [] [json_provider 2 None; bare_provider 1])
              [] "EUR" "USD" (jan 25) [] [json_provider 2 None]
              (bare_provider 1) (KeyError "endpoints"))
    as (_ & Hlatest & _).
  - right; split; reflexivity.
  - reflexivity.
  - apply Hlatest; constructor.
Defined.

(** ** The file adapter's latest rate *)

Lemma other_base_step (src : string) (item : value) (rest : list value) :
  other_base src item ->
  FileJsonAdapter.next_rates (item :: rest) src
  = FileJsonAdapter.next_rates rest src.
Proof.
  intros (b & Hb & Hfalse); cbn [FileJsonAdapter.next_rates].
  rewrite Hb; cbn [bind]; rewrite Hfalse; reflexivity.
Qed.

Lemma next_rates_skip (src : string) (before rest : list value) :
  Forall (other_base src) before ->
  FileJsonAdapter.next_rates (before ++ rest) src
  = FileJsonAdapter.next_rates rest src.
Proof.
  induction 1 as [| item before Hitem _ IH]; [reflexivity |].
  cbn [app]; rewrite (other_base_step _ _ _ Hitem); exact IH.
Qed.

(** X24. The file adapter's [get_latest_rate], once the file is read as a
    list of records. When every record has a "base" other than the source
    currency, it raises ProviderError "Source currency was not found in
    the file."; when a record with the source currency as "base" comes
    after such records only, the result is
    Decimal(record["rates"][exchanged]) for that first record, with the
    exceptions of these two lookups and of the conversion. *)
Theorem file_latest_first_record (w : World) (self : FileJsonAdapter.t)
    (src exch path : string) (data : value) (items : list value) :
  FileJsonAdapter.latest_endpoint_path self = VStr path ->
  json_load w (os_path_join (FileJsonAdapter.address self) path) = Ok data ->
  py_iter data = Ok items ->
  (Forall (other_base src) items ->
   FileJsonAdapter.get_latest_rate w self src exch
   = Raise (ProviderError "Source currency was not found in the file.")) /\
  (forall before record after,
     items = (before ++ record :: after)%list ->
     Forall (other_base src) before ->
     subscript record "base" = Ok (VStr src) ->
     FileJsonAdapter.get_latest_rate w self src exch
     = (rates <- subscript record "rates" ;;
        rate <- subscript rates exch ;;
        Decimal_new rate)).
Proof.
  intros Hpath Hdata Hitems.
  unfold FileJsonAdapter.get_latest_rate.
  rewrite Hpath; cbn [expect_str bind].
  rewrite Hdata; cbn [bind]; rewrite Hitems; cbn [bind]; split.
  - intros Hall.
    pose proof (next_rates_skip src items [] Hall) as Hskip.
    rewrite app_nil_r in Hskip; rewrite Hskip; reflexivity.
  - intros before record after -> Hbefore Hbase.
    rewrite (next_rates_skip src before (record :: after) Hbefore).
    cbn [FileJsonAdapter.next_rates]; rewrite Hbase; cbn [bind eq_str].
    rewrite String.eqb_refl.
    destruct (subscript record "rates"); reflexivity.
Qed.

(** The records for USD and GBP of the repository's adapter test: the rate
    of EUR for the source GBP is read from the second record, and the
    source CHF is not found. *)
Lemma file_latest_first_record_witness :
  FileJsonAdapter.get_latest_rate (mock_json_load latest_records) file_adapter
    "CHF" "EUR"
  = Raise (ProviderError "Source currency was not found in the file.") /\
  FileJsonAdapter.get_latest_rate (mock_json_load latest_records) file_adapter
    "GBP" "EUR"
  = Ok (VDec (Dec.DFin false 115 (-2))).
Proof.
  split.
  - destruct (file_latest_first_record (mock_json_load latest_records)
                file_adapter "CHF" "EUR" "mock_latest.json" latest_records
                [VDict [("base", VStr "USD");
                        ("rates", VDict [("EUR", VStr "0.85")])];
                 VDict [("base", VStr "GBP");
                        ("rates", VDict [("EUR", VStr "1.15")])]]
                eq_refl eq_refl eq_refl) as [Hnone _].
    apply Hnone; repeat constructor; eexists; split; reflexivity.
  - destruct (file_latest_first_record (mock_json_load latest_records)
                file_adapter "GBP" "EUR" "mock_latest.json" latest_records
                [VDict [("base", VStr "USD");
                        ("rates", VDict [("EUR", VStr "0.85")])];
                 VDict [("base", VStr "GBP");
                        ("rates", VDict [("EUR", VStr "1.15")])]]
                eq_refl eq_refl eq_refl) as [_ Hfound].
    rewrite (Hfound
               [VDict [("base", VStr "USD");
                       ("rates", VDict [("EUR", VStr "0.85")])]]
               (VDict [("base", VStr "GBP");
                       ("rates", VDict [("EUR", VStr "1.15")])])
               [] eq_refl).
    + vm_compute; reflexivity.
    + repeat constructor; eexists; split; reflexivity.
    + reflexivity.
Defined.

(** ** A forced base behind the file adapter *)

(** X25. A provider of resource type "json" with a forced base other than
    the source currency, whose file has no record for the requested day and
    the forced base: the adapter returns None, [reverse_rates] subscripts
    it, and the fetch through that provider raises TypeError. That is not
    a ProviderError: when the orchestrator loop reaches the provider, the
    historical fetch ends with the TypeError, whatever providers come
    next, and writes nothing. *)
Theorem json_forced_base_no_record (w : World) (db : DB) (log : list string)
    (src exch base : string) (d : date)
    (before after : list Provider) (p : Provider)
    (adapter : FileJsonAdapter.t) :
  resource_type p = "json" ->
  forced_base p src = Some base ->
  FileJsonAdapter.init (address p) (config p) = Ok adapter ->
  FileJsonAdapter.get_historical_rates w adapter base (exch ++ "," ++ src) d
  = Ok VNone ->
  providers_by_priority db = (before ++ p :: after)%list ->
  Forall (falls_through (fun q => get_hist_from_provider w q src exch d)) before ->
  get_hist_from_provider w p src exch d = Raise none_not_subscriptable /\
  exists log',
    fetch_historical_rates_from_provider w db log src exch d
    = (Raise none_not_subscriptable, db, log').
Proof.
  intros Hjson Hbase Hinit Hnone Hps Hbefore.
  assert (Hp : get_hist_from_provider w p src exch d
               = Raise none_not_subscriptable).
  { unfold get_hist_from_provider; rewrite Hjson.
    cbn [String.eqb Ascii.eqb Bool.eqb]; rewrite Hinit; cbn [bind].
    unfold get_hist_with; rewrite Hbase.
    cbn [get_historical_rates FileJsonAdapter_interface].
    rewrite Hnone; reflexivity. }
  split; [exact Hp |].
  unfold fetch_historical_rates_from_provider; rewrite Hps.
  rewrite (@fetch_loop_fatal _ before after p none_not_subscriptable VNone log
             Hbefore eq_refl Hp eq_refl).
  eexists; reflexivity.
Qed.

(** The JSON provider of the tests with the forced base EUR, asked for
    2024-01-24, a day for which its file has no record. *)
Lemma json_forced_base_no_record_witness :
  exists log',
    fetch_historical_rates_from_provider file_world forced_json_db []
      "USD" "GBP" (jan 24)
    = (Raise none_not_subscriptable, forced_json_db, log').
Proof.
  destruct (json_forced_base_no_record file_world forced_json_db []
              "USD" "GBP" "EUR" (jan 24) [] [] (json_provider 1 (Some "EUR"))
              file_adapter) as [_ H].
  - reflexivity.
  - reflexivity.
  - reflexivity.
  - vm_compute; reflexivity.
  - reflexivity.
  - constructor.
  - exact H.
Defined.

(** The HTTP provider of the tests with the forced base EUR: the latest
    rate of USD against GBP is its result, no provider coming before it. *)
Lemma fetch_latest_by_priority_witness :
  exists p,
    served_by (fun q => get_latest_from_provider (eur_api eur_rates) q
                          "USD" "GBP")
              (providers forced_http_db) (Ok (VDec ratio_1_1_0_9)) p.
Proof.
  pose proof (fetch_latest_by_priority (eur_api eur_rates) forced_http_db []
                "USD" "GBP") as H.
  assert (E : fetch_latest_rates_from_provider (eur_api eur_rates)
                forced_http_db [] "USD" "GBP"
              = (Ok (VDec ratio_1_1_0_9), []))
    by (vm_compute; reflexivity).
  cbv zeta in H; rewrite E in H; cbn [fst] in H.
  apply H; reflexivity.
Defined.
